(** * Obstacle-stop decision pipeline and path-generator arc-length utilities

    A shallow embedding of

    - [obstacle_stop_module.cpp] (autoware_motion_velocity_obstacle_stop_module):
      [calc_estimation_time], [ObstacleStopModule::init], the history pass of
      [filter_stop_obstacle_for_point_cloud], the fixed-stop hysteresis,
      [get_closest_stop_obstacles], [plan_stop], [calc_desired_stop_margin]
      and [calc_candidate_zero_vel_dist]; further [calc_braking_dist],
      [check_consistency], the conversion of the point cloud,
      [resample_highest_confidence_predicted_paths],
      [calc_collision_time_margin], [is_crossing_transient_obstacle] and
      [get_trajectory_polygon];
    - the [utils.cpp] of the motion velocity planner's common package:
      [get_extended_trajectory_points],
      [calc_object_possible_max_dist_from_center] and
      [calc_possible_min_dist_from_obj_to_traj_poly];
    - the path generator's [utils.cpp]: [crop_line_string],
      [get_arc_length_on_bounds] and [get_arc_length_on_centerline];
      further the walks along the route
      ([get_lanelets_within_route_up_to], [get_lanelets_within_route_after]),
      [get_arc_length_on_path], [is_path_inside_lanelets] and
      [connect_path_to_goal_inside_lanelets].

    Number model.  A C++ [double] is an exact rational ([Q]); the one
    infinity the code produces on purpose is kept by [xdouble].  Rounding
    and NaN are outside the model, and a quotient agrees with the source
    only for a non-zero divisor.  Equality of numbers is [Qeq] ([==]).

    Library calls whose code is not part of the module (motion_utils,
    lanelet2, boost::geometry, the trajectory container) are fields of the
    interface classes below; the examples instantiate them on straight
    roads, where they can be computed exactly. *)

From Stdlib Require Import List ZArith QArith Qabs Qround Lqa Lia Bool String.
From Stdlib Require Import Permutation Sorted.
Import ListNotations.

Set Implicit Arguments.

Local Open Scope Q_scope.

(* ================================================================== *)
(** * Part I -- the embedding                                          *)
(* ================================================================== *)

(** ** C++ vocabulary *)

Module Cxx.

Inductive exception : Type :=
| out_of_range
| invalid_argument (what : string)
| logic_error (what : string).

(** A call either returns or throws. *)
Inductive result (A : Type) : Type :=
| Ok (a : A)
| Throw (e : exception).
Arguments Ok {A} a.
Arguments Throw {A} e.

Definition raises {A : Type} (r : result A) : bool :=
  match r with Ok _ => false | Throw _ => true end.

(** Comparisons of doubles, as booleans. *)
Definition ltb (a b : Q) : bool := if Qlt_le_dec a b then true else false.
Definition leb (a b : Q) : bool := if Qlt_le_dec b a then false else true.
Definition gtb (a b : Q) : bool := ltb b a.
Definition geb (a b : Q) : bool := leb b a.

(** [std::max(a, b)] is [(a < b) ? b : a]; [std::min(a, b)] is
    [(b < a) ? b : a]. *)
Definition std_max (a b : Q) : Q := if ltb a b then b else a.
Definition std_min (a b : Q) : Q := if ltb b a then b else a.
Definition std_abs (a : Q) : Q := Qabs a.

(** [std::clamp(v, lo, hi)], defined by the standard for [lo <= hi]. *)
Definition std_clamp (v lo hi : Q) : Q := std_min (std_max v lo) hi.

(** [std::pow(v, 2)]. *)
Definition pow2 (v : Q) : Q := v * v.

(** A double that may be [+infinity]. *)
Inductive xdouble : Type :=
| Finite (q : Q)
| PosInf.

Definition x_min (a b : xdouble) : xdouble :=
  match a, b with
  | Finite p, Finite q => Finite (std_min p q)
  | Finite p, PosInf => Finite p
  | PosInf, _ => b
  end.

(** [a >= b] for a possibly infinite [a]. *)
Definition x_geb (a : xdouble) (b : Q) : bool :=
  match a with Finite q => geb q b | PosInf => true end.

(** [a < b] for a possibly infinite [b]. *)
Definition ltb_x (a : Q) (b : xdouble) : bool :=
  match b with Finite q => ltb a q | PosInf => true end.

(** [std::clamp] of a possibly infinite value between finite bounds:
    [max(+inf, lo)] is [+inf] and [min(+inf, hi)] is [hi]. *)
Definition x_clamp (v : xdouble) (lo hi : Q) : Q :=
  match v with
  | Finite q => std_clamp q lo hi
  | PosInf => hi
  end.

(** [std::numeric_limits<double>::epsilon()], 2^-52. *)
Definition epsilon : Q := 1 # 4503599627370496.

(** [std::optional<double>::value_or]. *)
Definition value_or (o : option Q) (d : Q) : Q :=
  match o with Some v => v | None => d end.

(** [a > o] for an optional [o]: an empty optional is below every value. *)
Definition gtb_opt (a : Q) (o : option Q) : bool :=
  match o with Some v => gtb a v | None => true end.

(** [rclcpp::Time] in nanoseconds; [(a - b).seconds()]. *)
Definition Time : Type := Z.
Definition seconds_between (a b : Time) : Q := inject_Z (a - b) / 1000000000.

End Cxx.

Module geometry_msgs.
Record Point : Type := { x : Q; y : Q; z : Q }.
End geometry_msgs.

(** ** The obstacle-stop module *)

Module ObstacleStop.
Import Cxx.

(** *** Data model *)

(** Modelled from the spec: the label constants of the perception
    message package, whose declaration is outside the module's sources;
    the spec names the eight labels, the values are those of
    [autoware_perception_msgs::msg::ObjectClassification].  Labels are
    [uint8_t], kept as integers so that labels outside the table exist. *)
Definition UNKNOWN : Z := 0.
Definition CAR : Z := 1.
Definition TRUCK : Z := 2.
Definition BUS : Z := 3.
Definition TRAILER : Z := 4.
Definition MOTORCYCLE : Z := 5.
Definition BICYCLE : Z := 6.
Definition PEDESTRIAN : Z := 7.

Record ObjectClassification : Type :=
  { label : Z; probability : Q }.

Inductive Shape : Type := BOUNDING_BOX | CYLINDER | POLYGON.

(** The part of [PredictedObject] the module reads.  Of the shape that
    is its [type], a [uint8_t]: one of the three types the message
    defines, or [None] for any other value. *)
Module PredictedObject.
Record t : Type :=
  { object_id : string;
    classification : list ObjectClassification;
    twist_linear_x : Q;
    twist_linear_y : Q;
    shape : option Shape }.
End PredictedObject.

Record StopObstacle : Type :=
  { uuid : string;
    stamp : Time;
    classification : ObjectClassification;
    pose : geometry_msgs.Point;
    shape : option Shape;
    velocity : Q;
    collision_point : geometry_msgs.Point;
    dist_to_collide_on_decimated_traj : Q;
    braking_dist : option Q }.

Record ObstacleFilteringParam : Type :=
  { use_pointcloud : bool;
    inside_stop_object_types : list Z;
    outside_stop_object_types : list Z;
    max_lat_margin : Q;
    max_lat_margin_against_predicted_object_unknown : Q;
    outside_estimation_time_horizon : Q;
    outside_pedestrian_deceleration : Q;
    outside_bicycle_deceleration : Q;
    stop_obstacle_hold_time_threshold : Q }.

Record RSSParam : Type :=
  { use_rss_stop : bool;
    two_wheel_objects_deceleration : Q;
    vehicle_objects_deceleration : Q;
    no_wheel_objects_deceleration : Q;
    velocity_offset : Q }.

(** Per-object-type stop parameters, as [get_param] returns them. *)
Record ObjectTypeSpecificParams : Type :=
  { limit_min_acc : Q;
    sudden_object_acc_threshold : Q;
    sudden_object_dist_threshold : Q;
    abandon_to_stop : bool }.

Record StopPlanningParam : Type :=
  { stop_margin : Q;
    terminal_stop_margin : Q;
    min_behavior_stop_margin : Q;
    max_negative_velocity : Q;
    stop_margin_opposing_traffic : Q;
    effective_deceleration_opposing_traffic : Q;
    enable_approaching_on_curve : bool;
    min_stop_margin_on_curve : Q;
    hold_stop_velocity_threshold : Q;
    hold_stop_distance_threshold : Q;
    obstacle_velocity_threshold_enter_fixed_stop : Q;
    obstacle_velocity_threshold_exit_fixed_stop : Q;
    rss_params : RSSParam;
    get_param_type : ObjectClassification -> string;
    get_param : ObjectClassification -> ObjectTypeSpecificParams }.

Record CommonParam : Type :=
  { limit_max_accel : Q;
    limit_min_accel : Q }.

Record VehicleInfo : Type :=
  { max_longitudinal_offset_m : Q;
    min_longitudinal_offset_m : Q;
    vehicle_width_m : Q }.

(** *** Helpers of the anonymous namespace *)

Definition is_in_vector (variable : Z) (vec : list Z) : bool :=
  existsb (Z.eqb variable) vec.

Definition calc_minimum_distance_to_stop (initial_vel max_acc min_acc : Q) : Q :=
  if ltb initial_vel 0
  then - pow2 initial_vel / 2 / max_acc
  else - pow2 initial_vel / 2 / min_acc.

(** [<cmath>]: [std::hypot] is not rational in general and is taken as
    given. *)
Class Cmath : Type := { hypot : Q -> Q -> Q }.

Section EstimationTime.
Context {M : Cmath}.

(** The lambda [equivalent_estimation_time] of [calc_estimation_time]. *)
Definition equivalent_estimation_time
    (predicted_object : PredictedObject.t) (deceleration : Q) : xdouble :=
  if leb deceleration epsilon then PosInf
  else Finite (hypot (PredictedObject.twist_linear_x predicted_object)
                     (PredictedObject.twist_linear_y predicted_object)
               * 0.5 / deceleration).

(** [classification.at(0)] throws on an empty vector. *)
Definition calc_estimation_time
    (predicted_object : PredictedObject.t)
    (obstacle_filtering_param : ObstacleFilteringParam) : result Q :=
  match PredictedObject.classification predicted_object with
  | [] => Throw out_of_range
  | c0 :: _ =>
      let obj_label := label c0 in
      if negb (is_in_vector obj_label
                 (outside_stop_object_types obstacle_filtering_param))
      then Ok 0
      else if (obj_label =? PEDESTRIAN)%Z then
        Ok (x_clamp
              (equivalent_estimation_time predicted_object
                 (outside_pedestrian_deceleration obstacle_filtering_param))
              0 (outside_estimation_time_horizon obstacle_filtering_param))
      else if (obj_label =? BICYCLE)%Z then
        Ok (x_clamp
              (equivalent_estimation_time predicted_object
                 (outside_bicycle_deceleration obstacle_filtering_param))
              0 (outside_estimation_time_horizon obstacle_filtering_param))
      else Ok (outside_estimation_time_horizon obstacle_filtering_param)
  end.
End EstimationTime.

Definition calc_braking_dist (obj_label : Z) (lon_vel : Q) (rss : RSSParam) : Q :=
  let braking_acc :=
    if ((obj_label =? UNKNOWN) || (obj_label =? PEDESTRIAN))%Z
    then no_wheel_objects_deceleration rss
    else if ((obj_label =? BICYCLE) || (obj_label =? MOTORCYCLE))%Z
    then two_wheel_objects_deceleration rss
    else vehicle_objects_deceleration rss in
  let error_considered_vel := std_max (lon_vel + velocity_offset rss) 0 in
  error_considered_vel * error_considered_vel * 0.5 / - braking_acc.

(** *** Library interfaces *)

(** [autoware::motion_utils], [polygon_utils] and [boost::geometry], on
    the trajectory and polygon types they operate on.  [calcSignedArcLength]
    has one field per overload the module calls. *)
Class MotionUtils : Type :=
  { TrajectoryPoints : Type;
    Polygon2d : Type;
    size : TrajectoryPoints -> nat;
    front_position : TrajectoryPoints -> geometry_msgs.Point;
    position_at : TrajectoryPoints -> nat -> geometry_msgs.Point;
    calcLateralOffset : TrajectoryPoints -> geometry_msgs.Point -> Q;
    calcSignedArcLength_idx_idx : TrajectoryPoints -> nat -> nat -> Q;
    calcSignedArcLength_idx_point :
      TrajectoryPoints -> nat -> geometry_msgs.Point -> Q;
    calcSignedArcLength_idx_point_seg :
      TrajectoryPoints -> nat -> geometry_msgs.Point -> nat -> Q;
    findNearestIndex : TrajectoryPoints -> geometry_msgs.Point -> nat;
    find_segment_index : TrajectoryPoints -> geometry_msgs.Point -> nat;
    findFirstNearestSegmentIndexWithSoftConstraints :
      TrajectoryPoints -> geometry_msgs.Point -> nat;
    searchZeroVelocityIndex : TrajectoryPoints -> nat -> option nat;
    insertStopPoint : Q -> TrajectoryPoints -> option (nat * TrajectoryPoints);
    create_one_step_polygons :
      TrajectoryPoints -> VehicleInfo -> geometry_msgs.Point -> Q -> list Polygon2d;
    bg_distance : Polygon2d -> geometry_msgs.Point -> Q }.

(** An entry of the path-length buffer, as [plan_stop] reads it. *)
Record BufferedStopDistanceItem : Type :=
  { stop_point : geometry_msgs.Point;
    determined_stop_obstacle : StopObstacle;
    determined_desired_stop_margin : Q }.

(** [obstacle_stop::PathLengthBuffer], declared in a header of the
    module: the constructor and the two methods [plan_stop] and [init]
    call, as an interface. *)
Class PathLengthBufferOps : Type :=
  { PathLengthBuffer : Type;
    make_buffer : Q -> Q -> Q -> PathLengthBuffer;
    update_buffer :
      PathLengthBuffer -> option geometry_msgs.Point ->
      (geometry_msgs.Point -> Q) -> Time -> StopObstacle -> Q ->
      PathLengthBuffer;
    get_nearest_active_item :
      PathLengthBuffer -> option BufferedStopDistanceItem }.

(** [PlannerData::Object] with the methods the module calls, and the
    geometric stages of [pick_stop_obstacle_from_predicted_object]:
    [polygon_utils::get_collision_point], the cut-in test and the
    crossing-transient test.  Those stages decide whether the velocity test
    is reached and with which collision point (a point and its arc length);
    their geometry is taken as given.
    [possible_min_dist_from_obj_to_traj_poly] is the distance
    [utils::calc_possible_min_dist_from_obj_to_traj_poly] computes for an
    object whose shape type it supports: the lateral distance of the object
    to the trajectory less the greatest extents of the ego and of the
    object. *)
Class PlannerObjects (MU : MotionUtils) : Type :=
  { Object : Type;
    predicted_object : Object -> PredictedObject.t;
    get_dist_from_ego_longitudinal :
      Object -> TrajectoryPoints -> geometry_msgs.Point -> Q;
    get_lat_vel_relative_to_traj : Object -> TrajectoryPoints -> Q;
    get_lon_vel_relative_to_traj : Object -> TrajectoryPoints -> Q;
    get_dist_to_traj_poly_of : Object -> list Polygon2d -> Q;
    get_predicted_current_pose : Object -> Time -> Time -> geometry_msgs.Point;
    possible_min_dist_from_obj_to_traj_poly :
      Object -> TrajectoryPoints -> VehicleInfo -> Q;
    decimate_trajectory_points_from_ego :
      TrajectoryPoints -> geometry_msgs.Point -> TrajectoryPoints;
    get_collision_point :
      TrajectoryPoints -> list Polygon2d -> geometry_msgs.Point -> Time ->
      Object -> Q -> option (geometry_msgs.Point * Q);
    check_outside_cut_in_obstacle :
      Object -> TrajectoryPoints -> TrajectoryPoints -> list Polygon2d ->
      Q -> Q -> Time -> option (geometry_msgs.Point * Q);
    is_crossing_transient_obstacle :
      Object -> TrajectoryPoints -> TrajectoryPoints -> list Polygon2d ->
      Q -> geometry_msgs.Point * Q -> bool }.

(** What the geometry of [calc_margin_from_obstacle_on_curve] finds on
    the short trajectory towards the obstacle. *)
Inductive CurveProbe : Type :=
| ShortTrajectoryTooShort            (* short_traj_points.size() < 2 *)
| NoCollisionIndex                   (* !collision_idx *)
| CollisionAtFirstIndex              (* *collision_idx == 0 *)
| ShortMargin (short_margin_from_obstacle : Q).

Class CurveGeometry (MU : MotionUtils) : Type :=
  { probe_curve : TrajectoryPoints -> StopObstacle -> Q -> CurveProbe }.

Section Module_.
Context {CM : Cmath} {MU : MotionUtils} {PB : PathLengthBufferOps}
        {PO : PlannerObjects MU} {CG : CurveGeometry MU}.

(** *** Module state *)

Record ObstacleStopModule : Type :=
  { ignore_crossing_obstacle_ : bool;
    suppress_sudden_stop_ : bool;
    common_param_ : CommonParam;
    stop_planning_param_ : StopPlanningParam;
    obstacle_filtering_param_ : ObstacleFilteringParam;
    path_length_buffer_ : PathLengthBuffer;
    prev_stop_obstacles_ : list StopObstacle;
    prev_closest_stop_obstacles_ : list StopObstacle;
    stop_pointcloud_obstacle_history_ : list StopObstacle;
    prev_stop_distance_info_ : option (TrajectoryPoints * Q) }.

(** The parameters [init] reads from the node. *)
Record NodeParameters : Type :=
  { option_ignore_crossing_obstacle : bool;
    option_suppress_sudden_stop : bool;
    node_common_param : CommonParam;
    node_stop_planning_param : StopPlanningParam;
    node_obstacle_filtering_param : ObstacleFilteringParam;
    pointcloud_mask_lat_margin : Q;
    stop_planning_update_distance_th : Q;
    stop_planning_min_off_duration : Q;
    stop_planning_min_on_duration : Q }.

(** [ObstacleStopModule::init]: the module exists only when [init]
    returns. *)
Definition init (node : NodeParameters) : result ObstacleStopModule :=
  let mask_lat_margin := pointcloud_mask_lat_margin node in
  if ltb mask_lat_margin (max_lat_margin (node_obstacle_filtering_param node))
  then Throw (invalid_argument "point-cloud mask narrower than stop margin")
  else
    Ok {| ignore_crossing_obstacle_ := option_ignore_crossing_obstacle node;
          suppress_sudden_stop_ := option_suppress_sudden_stop node;
          common_param_ := node_common_param node;
          stop_planning_param_ := node_stop_planning_param node;
          obstacle_filtering_param_ := node_obstacle_filtering_param node;
          path_length_buffer_ :=
            make_buffer (stop_planning_update_distance_th node)
                        (stop_planning_min_off_duration node)
                        (stop_planning_min_on_duration node);
          prev_stop_obstacles_ := [];
          prev_closest_stop_obstacles_ := [];
          stop_pointcloud_obstacle_history_ := [];
          prev_stop_distance_info_ := None |}.

(** *** Point-cloud obstacles *)

(** [utils::get_dist_to_traj_poly]. *)
Definition get_dist_to_traj_poly
    (point : geometry_msgs.Point) (decimated_traj_polys : list Polygon2d)
    : xdouble :=
  fold_left
    (fun dist_to_traj_poly decimated_traj_poly =>
       x_min dist_to_traj_poly (Finite (bg_distance decimated_traj_poly point)))
    decimated_traj_polys PosInf.

(** [utils::calc_distance_to_front_object]. *)
Definition calc_distance_to_front_object
    (traj_points : TrajectoryPoints) (ego_idx : nat)
    (obstacle_pos : geometry_msgs.Point) : option Q :=
  let obstacle_idx := findNearestIndex traj_points obstacle_pos in
  let ego_to_obstacle_distance :=
    calcSignedArcLength_idx_idx traj_points ego_idx obstacle_idx in
  if ltb ego_to_obstacle_distance 0 then None else Some ego_to_obstacle_distance.

(** The rough lateral test shared by the cluster loop and the history
    pass. *)
Definition min_lat_dist_to_traj_poly
    (traj_points : TrajectoryPoints) (vehicle_info : VehicleInfo)
    (point : geometry_msgs.Point) : Q :=
  std_abs (calcLateralOffset traj_points point)
  - hypot (max_longitudinal_offset_m vehicle_info)
          (vehicle_width_m vehicle_info / 2).

(** The inner loop of [convert_point_cloud_to_stop_points] over one
    cluster; the running minimum starts at the largest double, here
    [PosInf]. *)
Fixpoint closest_point_of_cluster
    (m : ObstacleStopModule) (traj_points : TrajectoryPoints)
    (decimated_traj_polys : list Polygon2d) (vehicle_info : VehicleInfo)
    (ego_idx : nat) (cluster : list geometry_msgs.Point)
    (ego_to_stop_collision_distance : xdouble)
    (stop_collision_point : option geometry_msgs.Point)
    : option geometry_msgs.Point :=
  match cluster with
  | [] => stop_collision_point
  | obstacle_point :: rest =>
      let p := obstacle_filtering_param_ m in
      let continue_ :=
        closest_point_of_cluster m traj_points decimated_traj_polys
          vehicle_info ego_idx rest
          ego_to_stop_collision_distance stop_collision_point in
      if geb (min_lat_dist_to_traj_poly traj_points vehicle_info obstacle_point)
             (max_lat_margin p)
      then continue_
      else if x_geb (get_dist_to_traj_poly obstacle_point decimated_traj_polys)
                    (max_lat_margin p)
      then continue_
      else
        match calc_distance_to_front_object traj_points ego_idx obstacle_point with
        | None => continue_
        | Some current_ego_to_obstacle_distance =>
            if ltb_x current_ego_to_obstacle_distance ego_to_stop_collision_distance
            then
              closest_point_of_cluster m traj_points decimated_traj_polys
                vehicle_info ego_idx rest
                (Finite current_ego_to_obstacle_distance) (Some obstacle_point)
            else continue_
        end
  end.

(** [convert_point_cloud_to_stop_points], after the external filtering
    and clustering of the cloud: [clusters] are the clusters of
    [get_cluster_indices], each as the points it indexes. *)
Definition convert_point_cloud_to_stop_points
    (m : ObstacleStopModule) (clusters : list (list geometry_msgs.Point))
    (traj_points : TrajectoryPoints) (decimated_traj_polys : list Polygon2d)
    (vehicle_info : VehicleInfo) (ego_idx : nat) : list geometry_msgs.Point :=
  flat_map
    (fun cluster =>
       match closest_point_of_cluster m traj_points decimated_traj_polys
               vehicle_info ego_idx cluster PosInf None with
       | Some stop_collision_point => [stop_collision_point]
       | None => []
       end)
    clusters.

(** The all-zero UUID in hexadecimal, [to_hex_string] of a
    default-constructed UUID. *)
Definition zero_uuid_str : string := "00000000000000000000000000000000".

Definition origin : geometry_msgs.Point :=
  {| geometry_msgs.x := 0; geometry_msgs.y := 0; geometry_msgs.z := 0 |}.

Definition create_stop_obstacle_for_point_cloud
    (traj_points : TrajectoryPoints) (stamp_ : Time)
    (stop_point_ : geometry_msgs.Point) (dist_to_bumper : Q) : StopObstacle :=
  let dist_to_collide_on_traj :=
    calcSignedArcLength_idx_point traj_points 0 stop_point_ - dist_to_bumper in
  {| uuid := zero_uuid_str;
     stamp := stamp_;
     classification := {| label := 0%Z; probability := 0 |};
     pose := origin;
     shape := Some BOUNDING_BOX;
     velocity := 0;
     collision_point := stop_point_;
     dist_to_collide_on_decimated_traj := dist_to_collide_on_traj;
     braking_dist := None |}.

(** [std::vector::erase(itr)]: the iterator it returns has the index of
    the erased element. *)
Definition erase {A : Type} (i : nat) (l : list A) : list A :=
  firstn i l ++ skipn (S i) l.

(** The state of the history loop of
    [filter_stop_obstacle_for_point_cloud]: the vector, the iterator as
    an index into it, and the obstacles collected so far. *)
Record HistoryLoop : Type :=
  { history : list StopObstacle;
    itr : nat;
    past_stop_obstacles : list StopObstacle }.

Definition with_dist (so : StopObstacle) (d : Q) : StopObstacle :=
  {| uuid := uuid so;
     stamp := stamp so;
     classification := classification so;
     pose := pose so;
     shape := shape so;
     velocity := velocity so;
     collision_point := collision_point so;
     dist_to_collide_on_decimated_traj := d;
     braking_dist := braking_dist so |}.

(** One evaluation of the loop condition and body; [None] when
    [itr == end()] and the loop exits. *)
Definition history_loop_step
    (m : ObstacleStopModule) (odom_time : Time)
    (traj_points decimated_traj_points : TrajectoryPoints)
    (decimated_traj_polys : list Polygon2d) (vehicle_info : VehicleInfo)
    (dist_to_bumper : Q) (st : HistoryLoop) : option HistoryLoop :=
  match nth_error (history st) (itr st) with
  | None => None
  | Some entry =>
      let p := obstacle_filtering_param_ m in
      let elapsed_time := seconds_between odom_time (stamp entry) in
      if geb elapsed_time (stop_obstacle_hold_time_threshold p) then
        (* itr = erase(itr); continue; *)
        Some {| history := erase (itr st) (history st);
                itr := itr st;
                past_stop_obstacles := past_stop_obstacles st |}
      else if geb (min_lat_dist_to_traj_poly traj_points vehicle_info
                     (collision_point entry))
                  (max_lat_margin p) then
        (* continue; *)
        Some st
      else if x_geb (get_dist_to_traj_poly (collision_point entry)
                       decimated_traj_polys)
                    (max_lat_margin p) then
        (* continue; *)
        Some st
      else
        let stop_obstacle :=
          with_dist entry
            (calcSignedArcLength_idx_point decimated_traj_points 0
               (collision_point entry) - dist_to_bumper) in
        Some {| history := history st;
                itr := S (itr st);
                past_stop_obstacles := past_stop_obstacles st ++ [stop_obstacle] |}
  end.

(** The loop, run for at most [fuel] evaluations of its condition;
    [None] when it has not exited by then. *)
Fixpoint history_loop
    (fuel : nat) (m : ObstacleStopModule) (odom_time : Time)
    (traj_points decimated_traj_points : TrajectoryPoints)
    (decimated_traj_polys : list Polygon2d) (vehicle_info : VehicleInfo)
    (dist_to_bumper : Q) (st : HistoryLoop) : option HistoryLoop :=
  match fuel with
  | O => None
  | S fuel' =>
      match history_loop_step m odom_time traj_points decimated_traj_points
              decimated_traj_polys vehicle_info dist_to_bumper st with
      | None => Some st
      | Some st' =>
          history_loop fuel' m odom_time traj_points decimated_traj_points
            decimated_traj_polys vehicle_info dist_to_bumper st'
      end
  end.

Definition set_history (m : ObstacleStopModule) (h : list StopObstacle)
    : ObstacleStopModule :=
  {| ignore_crossing_obstacle_ := ignore_crossing_obstacle_ m;
     suppress_sudden_stop_ := suppress_sudden_stop_ m;
     common_param_ := common_param_ m;
     stop_planning_param_ := stop_planning_param_ m;
     obstacle_filtering_param_ := obstacle_filtering_param_ m;
     path_length_buffer_ := path_length_buffer_ m;
     prev_stop_obstacles_ := prev_stop_obstacles_ m;
     prev_closest_stop_obstacles_ := prev_closest_stop_obstacles_ m;
     stop_pointcloud_obstacle_history_ := h;
     prev_stop_distance_info_ := prev_stop_distance_info_ m |}.

(** The point cloud of a cycle: its header stamp and its clusters. *)
Record Pointcloud : Type :=
  { pointcloud_stamp : Time;
    clusters : list (list geometry_msgs.Point) }.

(** [filter_stop_obstacle_for_point_cloud]; [None] when the history
    loop has not exited within [fuel] steps. *)
Definition filter_stop_obstacle_for_point_cloud
    (fuel : nat) (m : ObstacleStopModule)
    (odom_position : geometry_msgs.Point) (odom_time : Time)
    (traj_points decimated_traj_points : TrajectoryPoints)
    (point_cloud : Pointcloud) (vehicle_info : VehicleInfo)
    (dist_to_bumper : Q) (ego_idx : nat)
    : option (ObstacleStopModule * list StopObstacle) :=
  if negb (use_pointcloud (obstacle_filtering_param_ m)) then Some (m, [])
  else
    let decimated_traj_polys :=
      create_one_step_polygons decimated_traj_points vehicle_info odom_position 0 in
    let stop_points :=
      convert_point_cloud_to_stop_points m (clusters point_cloud) traj_points
        decimated_traj_polys vehicle_info ego_idx in
    let stop_obstacle_stamp := pointcloud_stamp point_cloud in
    let stop_obstacles :=
      map (fun stop_point_ =>
             create_stop_obstacle_for_point_cloud decimated_traj_points
               stop_obstacle_stamp stop_point_ dist_to_bumper)
          stop_points in
    match history_loop fuel m odom_time traj_points decimated_traj_points
            decimated_traj_polys vehicle_info dist_to_bumper
            {| history := stop_pointcloud_obstacle_history_ m;
               itr := 0;
               past_stop_obstacles := [] |} with
    | None => None
    | Some st =>
        Some (set_history m (history st ++ stop_obstacles),
              stop_obstacles ++ past_stop_obstacles st)
    end.

(** *** Predicted objects *)

Definition get_max_lat_margin (m : ObstacleStopModule) (obj_label : Z) : Q :=
  if (obj_label =? UNKNOWN)%Z
  then max_lat_margin_against_predicted_object_unknown (obstacle_filtering_param_ m)
  else max_lat_margin (obstacle_filtering_param_ m).

(** Modelled from the spec: [utils::get_obstacle_from_uuid], declared in
    a header of the planner's common utilities; the spec keys the hysteresis
    "per object, by UUID": the first obstacle of the list with the
    given UUID, if there is one. *)
Definition get_obstacle_from_uuid
    (obstacles : list StopObstacle) (target_uuid : string) : option StopObstacle :=
  find (fun obstacle => String.eqb (uuid obstacle) target_uuid) obstacles.

Definition has_value {A : Type} (o : option A) : bool :=
  match o with Some _ => true | None => false end.

(** Whether the previous cycle's list records the object as a fixed
    stop: [is_prev_object_requires_fixed_stop]. *)
Definition is_prev_object_requires_fixed_stop
    (prev_stop_obstacles : list StopObstacle) (object_uuid : string) : bool :=
  match get_obstacle_from_uuid prev_stop_obstacles object_uuid with
  | Some stop_obstacle => negb (has_value (braking_dist stop_obstacle))
  | None => false
  end.

Definition is_obstacle_velocity_requiring_fixed_stop
    (m : ObstacleStopModule) (object : Object)
    (traj_points : TrajectoryPoints) : bool :=
  if is_prev_object_requires_fixed_stop (prev_stop_obstacles_ m)
       (PredictedObject.object_id (predicted_object object))
  then
    if ltb (obstacle_velocity_threshold_exit_fixed_stop (stop_planning_param_ m))
           (get_lon_vel_relative_to_traj object traj_points)
    then false
    else true
  else
    if ltb (get_lon_vel_relative_to_traj object traj_points)
           (obstacle_velocity_threshold_enter_fixed_stop (stop_planning_param_ m))
    then true
    else false.

(** The inputs of one planning cycle that the predicted-object filter
    reads. *)
Record CycleInput : Type :=
  { now : Time;
    odometry_position : geometry_msgs.Point;
    odometry_stamp : Time;
    predicted_objects_stamp : Time;
    traj_points_in : TrajectoryPoints;
    decimated_traj_points_in : TrajectoryPoints;
    objects : list Object;
    vehicle_info_in : VehicleInfo;
    dist_to_bumper_in : Q }.

Definition pick_stop_obstacle_from_predicted_object
    (m : ObstacleStopModule) (c : CycleInput) (object : Object)
    (dist_from_obj_poly_to_traj_poly : Q) : result (option StopObstacle) :=
  let traj_points := traj_points_in c in
  let decimated_traj_points := decimated_traj_points_in c in
  let dist_to_bumper := dist_to_bumper_in c in
  let po := predicted_object object in
  let obj_pose := get_predicted_current_pose object (now c) (predicted_objects_stamp c) in
  match calc_estimation_time po (obstacle_filtering_param_ m) with
  | Throw e => Throw e
  | Ok estimation_time =>
  match PredictedObject.classification po with
  | [] => Throw out_of_range
  | c0 :: _ =>
      let obj_label := label c0 in
      (* 1. filter by label *)
      if negb (is_in_vector obj_label
                 (inside_stop_object_types (obstacle_filtering_param_ m)))
      then Ok None
      else
      (* 2. filter by lateral distance *)
      let max_lat_margin_ := get_max_lat_margin m obj_label in
      if leb (std_max max_lat_margin_ 0.001)
             (dist_from_obj_poly_to_traj_poly
              - std_max (get_lat_vel_relative_to_traj object traj_points
                         * estimation_time) 0)
      then Ok None
      else
      (* 4. collision with the trajectory *)
      let decimated_traj_polys_with_lat_margin :=
        create_one_step_polygons decimated_traj_points (vehicle_info_in c)
          (odometry_position c) max_lat_margin_ in
      let inside :=
        get_collision_point decimated_traj_points
          decimated_traj_polys_with_lat_margin obj_pose (now c) object
          dist_to_bumper in
      let collision_point_ :=
        match inside with
        | Some cp => Some cp
        | None =>
            if is_in_vector obj_label
                 (outside_stop_object_types (obstacle_filtering_param_ m))
            then check_outside_cut_in_obstacle object traj_points
                   decimated_traj_points decimated_traj_polys_with_lat_margin
                   dist_to_bumper estimation_time (predicted_objects_stamp c)
            else None
        end in
      match collision_point_ with
      | None => Ok None
      | Some cp =>
          (* 5. crossing obstacles *)
          if ignore_crossing_obstacle_ m
             && is_crossing_transient_obstacle object traj_points
                  decimated_traj_points decimated_traj_polys_with_lat_margin
                  dist_to_bumper cp
          then Ok None
          else if is_obstacle_velocity_requiring_fixed_stop m object traj_points
          then
            Ok (Some {| uuid := PredictedObject.object_id po;
                        stamp := predicted_objects_stamp c;
                        classification := c0;
                        pose := obj_pose;
                        shape := PredictedObject.shape po;
                        velocity := get_lon_vel_relative_to_traj object traj_points;
                        collision_point := fst cp;
                        dist_to_collide_on_decimated_traj := snd cp;
                        braking_dist := None |})
          else if use_rss_stop (rss_params (stop_planning_param_ m))
          then
            let braking_dist_ :=
              calc_braking_dist obj_label
                (get_lon_vel_relative_to_traj object traj_points)
                (rss_params (stop_planning_param_ m)) in
            Ok (Some {| uuid := PredictedObject.object_id po;
                        stamp := predicted_objects_stamp c;
                        classification := c0;
                        pose := obj_pose;
                        shape := PredictedObject.shape po;
                        velocity := get_lon_vel_relative_to_traj object traj_points;
                        collision_point := fst cp;
                        dist_to_collide_on_decimated_traj := snd cp;
                        braking_dist := Some braking_dist_ |})
          else Ok None
      end
  end
  end.

(** [get_decimated_traj_polys]; the cache it fills holds the value
    computed here. *)
Definition get_decimated_traj_polys (c : CycleInput) : list Polygon2d :=
  create_one_step_polygons
    (decimate_trajectory_points_from_ego (traj_points_in c) (odometry_position c))
    (vehicle_info_in c) (odometry_position c) 0.

(** [utils::calc_possible_min_dist_from_obj_to_traj_poly].  It starts
    with [calc_object_possible_max_dist_from_center] of the object's
    shape, which throws [std::logic_error] for a shape type other than
    bounding box, cylinder and polygon. *)
Definition calc_possible_min_dist_from_obj_to_traj_poly
    (object : Object) (traj_points : TrajectoryPoints)
    (vehicle_info : VehicleInfo) : result Q :=
  match PredictedObject.shape (predicted_object object) with
  | None =>
      Throw (logic_error
               "The shape type is not supported in motion_velocity_planner_common.")
  | Some _ =>
      Ok (possible_min_dist_from_obj_to_traj_poly object traj_points
            vehicle_info)
  end.

(** The loop over the objects of [filter_stop_obstacle_for_predicted_object]. *)
Fixpoint pick_stop_obstacles
    (m : ObstacleStopModule) (c : CycleInput) (objs : list Object)
    : result (list StopObstacle) :=
  match objs with
  | [] => Ok []
  | object :: rest =>
      let traj_points := traj_points_in c in
      (* 1.1 the obstacle is in front of the ego *)
      if ltb (get_dist_from_ego_longitudinal object traj_points
                (odometry_position c)) 0
      then pick_stop_obstacles m c rest
      else
        (* 1.2 rough lateral distance *)
        match calc_possible_min_dist_from_obj_to_traj_poly object traj_points
                (vehicle_info_in c) with
        | Throw e => Throw e
        | Ok min_lat_dist =>
        match PredictedObject.classification (predicted_object object) with
        | [] => Throw out_of_range
        | c0 :: _ =>
            let obj_label := label c0 in
            if ltb (get_max_lat_margin m obj_label)
                   (min_lat_dist
                    - std_max
                        (get_lat_vel_relative_to_traj object traj_points
                         * outside_estimation_time_horizon
                             (obstacle_filtering_param_ m)) 0)
            then pick_stop_obstacles m c rest
            else
              let dist_from_obj_to_traj_poly :=
                get_dist_to_traj_poly_of object (get_decimated_traj_polys c) in
              match pick_stop_obstacle_from_predicted_object m c object
                      dist_from_obj_to_traj_poly with
              | Throw e => Throw e
              | Ok picked =>
                  match pick_stop_obstacles m c rest with
                  | Throw e => Throw e
                  | Ok more =>
                      Ok (match picked with
                          | Some stop_obstacle => stop_obstacle :: more
                          | None => more
                          end)
                  end
              end
        end
        end
  end.

(** An object the loop passes without an exception of its own: it is
    behind the ego, or it has a shape type that is supported and at least
    one classification. *)
Definition passes_without_error (c : CycleInput) (o : Object) : Prop :=
  get_dist_from_ego_longitudinal o (traj_points_in c) (odometry_position c) < 0
  \/ (PredictedObject.shape (predicted_object o) <> None
      /\ PredictedObject.classification (predicted_object o) <> []).

(** The exception the loop throws at an object that is not behind the
    ego: [std::logic_error] for its shape type, read first, and
    [std::out_of_range] for its empty classification otherwise. *)
Definition throws_at (c : CycleInput) (o : Object) (e : exception) : Prop :=
  0 <= get_dist_from_ego_longitudinal o (traj_points_in c) (odometry_position c)
  /\ ((PredictedObject.shape (predicted_object o) = None
       /\ e = logic_error
                "The shape type is not supported in motion_velocity_planner_common.")
      \/ (PredictedObject.shape (predicted_object o) <> None
          /\ PredictedObject.classification (predicted_object o) = []
          /\ e = out_of_range)).

(** The combined distance [get_closest_stop_obstacles] orders by. *)
Definition combined_dist (so : StopObstacle) : Q :=
  dist_to_collide_on_decimated_traj so + value_or (braking_dist so) 0.

(** One iteration of [get_closest_stop_obstacles]: [find_if] for a
    candidate of the same label, then [emplace_back] or the replacement
    of that candidate. *)
Fixpoint update_candidates
    (stop_obstacle : StopObstacle) (candidates : list StopObstacle)
    : list StopObstacle :=
  match candidates with
  | [] => [stop_obstacle]
  | co :: rest =>
      if (label (classification co) =? label (classification stop_obstacle))%Z
      then
        if ltb (combined_dist stop_obstacle) (combined_dist co)
        then stop_obstacle :: rest
        else co :: rest
      else co :: update_candidates stop_obstacle rest
  end.

Definition get_closest_stop_obstacles
    (stop_obstacles : list StopObstacle) : list StopObstacle :=
  fold_left (fun candidates stop_obstacle =>
               update_candidates stop_obstacle candidates)
            stop_obstacles [].

(** What [get_closest_stop_obstacles] keeps of the obstacles seen so
    far: one candidate per label, taken from the obstacles seen, of
    least combined distance among those of its label, and every label
    seen has its candidate. *)
Definition closest_per_label (seen candidates : list StopObstacle) : Prop :=
  NoDup (map (fun c => label (classification c)) candidates)
  /\ (forall c, In c candidates -> In c seen)
  /\ (forall c o, In c candidates -> In o seen ->
                  label (classification o) = label (classification c) ->
                  combined_dist c <= combined_dist o)
  /\ (forall o, In o seen ->
                exists c, In c candidates
                          /\ label (classification c) = label (classification o)).

(** The body of the loop of [check_consistency] for one previous
    closest obstacle. *)
Definition check_consistency_step
    (m : ObstacleStopModule) (current_time : Time) (objs : list Object)
    (stop_obstacles : list StopObstacle)
    (prev_closest_stop_obstacle : StopObstacle) : list StopObstacle :=
  match find (fun o =>
                String.eqb (PredictedObject.object_id (predicted_object o))
                           (uuid prev_closest_stop_obstacle))
             objs with
  | None => stop_obstacles
  | Some object =>
      let is_disappeared_from_stop_obstacle :=
        forallb (fun so =>
                   negb (String.eqb (uuid so) (uuid prev_closest_stop_obstacle)))
                stop_obstacles in
      if is_disappeared_from_stop_obstacle then
        let elapsed_time :=
          seconds_between current_time (stamp prev_closest_stop_obstacle) in
        if ltb (PredictedObject.twist_linear_x (predicted_object object))
               (obstacle_velocity_threshold_enter_fixed_stop
                  (stop_planning_param_ m))
           && ltb elapsed_time
                  (stop_obstacle_hold_time_threshold (obstacle_filtering_param_ m))
        then stop_obstacles ++ [prev_closest_stop_obstacle]
        else stop_obstacles
      else stop_obstacles
  end.

(** [check_consistency]: the stop obstacles after re-admission; the
    caller stores their closest ones. *)
Definition check_consistency
    (m : ObstacleStopModule) (current_time : Time) (objs : list Object)
    (stop_obstacles : list StopObstacle) : list StopObstacle :=
  fold_left (check_consistency_step m current_time objs)
            (prev_closest_stop_obstacles_ m) stop_obstacles.

Definition set_prev_obstacles
    (m : ObstacleStopModule) (prev prev_closest : list StopObstacle)
    : ObstacleStopModule :=
  {| ignore_crossing_obstacle_ := ignore_crossing_obstacle_ m;
     suppress_sudden_stop_ := suppress_sudden_stop_ m;
     common_param_ := common_param_ m;
     stop_planning_param_ := stop_planning_param_ m;
     obstacle_filtering_param_ := obstacle_filtering_param_ m;
     path_length_buffer_ := path_length_buffer_ m;
     prev_stop_obstacles_ := prev;
     prev_closest_stop_obstacles_ := prev_closest;
     stop_pointcloud_obstacle_history_ := stop_pointcloud_obstacle_history_ m;
     prev_stop_distance_info_ := prev_stop_distance_info_ m |}.

Definition filter_stop_obstacle_for_predicted_object
    (m : ObstacleStopModule) (c : CycleInput)
    : result (ObstacleStopModule * list StopObstacle) :=
  match pick_stop_obstacles m c (objects c) with
  | Throw e => Throw e
  | Ok picked =>
      let stop_obstacles :=
        check_consistency m (predicted_objects_stamp c) (objects c) picked in
      Ok (set_prev_obstacles m stop_obstacles
            (get_closest_stop_obstacles stop_obstacles),
          stop_obstacles)
  end.

(** *** Stop planning *)

Record PlannerData : Type :=
  { current_position : geometry_msgs.Point;
    current_velocity : Q;          (* current_odometry.twist.twist.linear.x *)
    is_driving_forward : bool;
    vehicle_info_ : VehicleInfo }.

Definition calc_dist_to_bumper
    (is_driving_forward_ : bool) (vehicle_info : VehicleInfo) : Q :=
  if is_driving_forward_
  then std_abs (max_longitudinal_offset_m vehicle_info)
  else std_abs (min_longitudinal_offset_m vehicle_info).

(** The coasting time of the opposing-traffic model before and after
    the clamp at zero. *)
Definition solved_coasting_time
    (sp : StopPlanningParam) (v_ego : Q) (stop_obstacle : StopObstacle) : Q :=
  let v_obs := velocity stop_obstacle in
  let a_ego := effective_deceleration_opposing_traffic sp in
  let bumper_to_bumper_distance := dist_to_collide_on_decimated_traj stop_obstacle in
  let braking_distance := v_ego * v_ego / (2 * a_ego) in
  let stopping_time := v_ego / a_ego in
  let distance_obs_ego_braking := std_abs (v_obs * stopping_time) in
  let ego_stop_margin := stop_margin_opposing_traffic sp in
  let rel_vel := v_ego - v_obs in
  (bumper_to_bumper_distance - ego_stop_margin - braking_distance
   + distance_obs_ego_braking) / rel_vel.

Definition T_coast
    (sp : StopPlanningParam) (v_ego : Q) (stop_obstacle : StopObstacle) : Q :=
  std_max (solved_coasting_time sp v_ego stop_obstacle) 0.

(** The lambda [default_stop_margin] of [calc_desired_stop_margin]. *)
Definition default_stop_margin
    (m : ObstacleStopModule) (planner_data : PlannerData)
    (traj_points : TrajectoryPoints) (stop_obstacle : StopObstacle)
    (dist_to_collide_on_ref_traj : Q) : Q :=
  let sp := stop_planning_param_ m in
  let v_ego := current_velocity planner_data in
  let v_obs := velocity stop_obstacle in
  (* [traj_points.size() - 1]; the trajectory of a cycle is not empty *)
  let ref_traj_length :=
    calcSignedArcLength_idx_idx traj_points 0 (size traj_points - 1) in
  if ltb v_obs (max_negative_velocity sp) then
    let a_ego := effective_deceleration_opposing_traffic sp in
    let bumper_to_bumper_distance := dist_to_collide_on_decimated_traj stop_obstacle in
    let braking_distance := v_ego * v_ego / (2 * a_ego) in
    let rel_vel := v_ego - v_obs in
    if leb (std_abs rel_vel) 0.000001 then stop_margin sp
    else
      let stopping_distance :=
        v_ego * T_coast sp v_ego stop_obstacle + braking_distance in
      bumper_to_bumper_distance - stopping_distance
  else if gtb dist_to_collide_on_ref_traj ref_traj_length
  then terminal_stop_margin sp
  else stop_margin sp.

Definition calc_margin_from_obstacle_on_curve
    (m : ObstacleStopModule) (traj_points : TrajectoryPoints)
    (stop_obstacle : StopObstacle) (dist_to_bumper default_stop_margin_ : Q) : Q :=
  let sp := stop_planning_param_ m in
  if negb (enable_approaching_on_curve sp)
     || use_pointcloud (obstacle_filtering_param_ m)
  then default_stop_margin_
  else
    match probe_curve traj_points stop_obstacle dist_to_bumper with
    | ShortTrajectoryTooShort => default_stop_margin_
    | NoCollisionIndex => min_stop_margin_on_curve sp
    | CollisionAtFirstIndex => default_stop_margin_
    | ShortMargin short_margin_from_obstacle =>
        std_min default_stop_margin_
          (std_max (min_stop_margin_on_curve sp) short_margin_from_obstacle)
    end.

Definition calc_desired_stop_margin
    (m : ObstacleStopModule) (planner_data : PlannerData)
    (traj_points : TrajectoryPoints) (stop_obstacle : StopObstacle)
    (dist_to_bumper : Q) (ego_segment_idx : nat)
    (dist_to_collide_on_ref_traj : Q) : Q :=
  let default_stop_margin_ :=
    default_stop_margin m planner_data traj_points stop_obstacle
      dist_to_collide_on_ref_traj in
  let stop_margin_on_curve :=
    calc_margin_from_obstacle_on_curve m traj_points stop_obstacle
      dist_to_bumper default_stop_margin_ in
  match searchZeroVelocityIndex traj_points (ego_segment_idx + 1) with
  | Some closest_behavior_stop_idx =>
      let closest_behavior_stop_dist_on_ref_traj :=
        calcSignedArcLength_idx_idx traj_points 0 closest_behavior_stop_idx in
      let stop_dist_diff :=
        closest_behavior_stop_dist_on_ref_traj
        - (dist_to_collide_on_ref_traj - stop_margin_on_curve) in
      if ltb 0 stop_dist_diff && ltb stop_dist_diff stop_margin_on_curve
      then min_behavior_stop_margin (stop_planning_param_ m)
      else stop_margin_on_curve
  | None => stop_margin_on_curve
  end.

(** The lambda [acceptable_stop_acc] of [calc_candidate_zero_vel_dist];
    [None] is the abandon-to-stop outcome. *)
Definition acceptable_stop_acc
    (m : ObstacleStopModule) (planner_data : PlannerData)
    (stop_obstacle : StopObstacle) (candidate_zero_vel_dist : Q) : option Q :=
  let sp := stop_planning_param_ m in
  let cls := classification stop_obstacle in
  if String.eqb (get_param_type sp cls) "default"
  then Some (limit_min_accel (common_param_ m))
  else
    let distance_to_judge_suddenness :=
      std_min
        (calc_minimum_distance_to_stop (current_velocity planner_data)
           (limit_max_accel (common_param_ m))
           (sudden_object_acc_threshold (get_param sp cls)))
        (sudden_object_dist_threshold (get_param sp cls)) in
    if gtb candidate_zero_vel_dist distance_to_judge_suddenness
    then Some (limit_min_accel (common_param_ m))
    else if abandon_to_stop (get_param sp cls)
    then None
    else Some (limit_min_acc (get_param sp cls)).

(** [acceptable_stop_pos] for a chosen deceleration limit. *)
Definition acceptable_stop_pos
    (m : ObstacleStopModule) (planner_data : PlannerData)
    (traj_points : TrajectoryPoints) (acc : Q) : Q :=
  calcSignedArcLength_idx_point traj_points 0 (current_position planner_data)
  + calc_minimum_distance_to_stop (current_velocity planner_data)
      (limit_max_accel (common_param_ m)) acc.

Definition calc_candidate_zero_vel_dist
    (m : ObstacleStopModule) (planner_data : PlannerData)
    (traj_points : TrajectoryPoints) (stop_obstacle : StopObstacle)
    (dist_to_collide_on_ref_traj desired_stop_margin : Q) : option Q :=
  let candidate_zero_vel_dist :=
    std_max 0 (dist_to_collide_on_ref_traj - desired_stop_margin) in
  if suppress_sudden_stop_ m then
    match acceptable_stop_acc m planner_data stop_obstacle
            candidate_zero_vel_dist with
    | None => None
    | Some acc =>
        let acceptable_stop_pos_ :=
          acceptable_stop_pos m planner_data traj_points acc in
        if gtb acceptable_stop_pos_ candidate_zero_vel_dist
        then Some acceptable_stop_pos_
        else Some candidate_zero_vel_dist
    end
  else Some candidate_zero_vel_dist.

(** The three optionals [plan_stop] assigns together. *)
Record Determined : Type :=
  { determined_obstacle : StopObstacle;
    determined_zero_vel_dist : Q;
    determined_margin : Q }.

(** The test of [plan_stop] that keeps the obstacle determined so far. *)
Definition keeps_determined
    (determined : Determined) (stop_obstacle : StopObstacle)
    (candidate_zero_vel_dist : Q) : bool :=
  let is_same_param_types :=
    (label (classification stop_obstacle)
     =? label (classification (determined_obstacle determined)))%Z in
  (is_same_param_types
   && gtb (dist_to_collide_on_decimated_traj stop_obstacle
           + dist_to_collide_on_decimated_traj stop_obstacle)
          (dist_to_collide_on_decimated_traj (determined_obstacle determined)
           + value_or (braking_dist (determined_obstacle determined)) 0))
  || (negb is_same_param_types
      && gtb_opt candidate_zero_vel_dist
                 (Some (determined_zero_vel_dist determined))).

(** The body of the loop of [plan_stop] over the closest stop
    obstacles. *)
Definition plan_stop_step
    (m : ObstacleStopModule) (planner_data : PlannerData)
    (traj_points : TrajectoryPoints) (dist_to_bumper : Q)
    (determined : option Determined) (stop_obstacle : StopObstacle)
    : option Determined :=
  let ego_segment_idx :=
    find_segment_index traj_points (current_position planner_data) in
  let dist_to_collide_on_ref_traj :=
    calcSignedArcLength_idx_idx traj_points 0 ego_segment_idx
    + dist_to_collide_on_decimated_traj stop_obstacle
    + value_or (braking_dist stop_obstacle) 0 in
  let desired_stop_margin :=
    calc_desired_stop_margin m planner_data traj_points stop_obstacle
      dist_to_bumper ego_segment_idx dist_to_collide_on_ref_traj in
  match calc_candidate_zero_vel_dist m planner_data traj_points stop_obstacle
          dist_to_collide_on_ref_traj desired_stop_margin with
  | None => determined
  | Some candidate_zero_vel_dist =>
      let updated :=
        Some {| determined_obstacle := stop_obstacle;
                determined_zero_vel_dist := candidate_zero_vel_dist;
                determined_margin := desired_stop_margin |} in
      match determined with
      | Some d =>
          if keeps_determined d stop_obstacle candidate_zero_vel_dist
          then determined
          else updated
      | None => updated
      end
  end.

(** The obstacle [plan_stop] determines for the cycle's stop
    obstacles, with its stop distance and margin. *)
Definition determine_stop
    (m : ObstacleStopModule) (planner_data : PlannerData)
    (traj_points : TrajectoryPoints) (stop_obstacles : list StopObstacle)
    (dist_to_bumper : Q) : option Determined :=
  fold_left (plan_stop_step m planner_data traj_points dist_to_bumper)
            (get_closest_stop_obstacles stop_obstacles) None.

Definition set_prev_stop_distance_info
    (m : ObstacleStopModule) (info : option (TrajectoryPoints * Q))
    : ObstacleStopModule :=
  {| ignore_crossing_obstacle_ := ignore_crossing_obstacle_ m;
     suppress_sudden_stop_ := suppress_sudden_stop_ m;
     common_param_ := common_param_ m;
     stop_planning_param_ := stop_planning_param_ m;
     obstacle_filtering_param_ := obstacle_filtering_param_ m;
     path_length_buffer_ := path_length_buffer_ m;
     prev_stop_obstacles_ := prev_stop_obstacles_ m;
     prev_closest_stop_obstacles_ := prev_closest_stop_obstacles_ m;
     stop_pointcloud_obstacle_history_ := stop_pointcloud_obstacle_history_ m;
     prev_stop_distance_info_ := info |}.

Definition set_path_length_buffer
    (m : ObstacleStopModule) (b : PathLengthBuffer) : ObstacleStopModule :=
  {| ignore_crossing_obstacle_ := ignore_crossing_obstacle_ m;
     suppress_sudden_stop_ := suppress_sudden_stop_ m;
     common_param_ := common_param_ m;
     stop_planning_param_ := stop_planning_param_ m;
     obstacle_filtering_param_ := obstacle_filtering_param_ m;
     path_length_buffer_ := b;
     prev_stop_obstacles_ := prev_stop_obstacles_ m;
     prev_closest_stop_obstacles_ := prev_closest_stop_obstacles_ m;
     stop_pointcloud_obstacle_history_ := stop_pointcloud_obstacle_history_ m;
     prev_stop_distance_info_ := prev_stop_distance_info_ m |}.

(** [hold_previous_stop_if_necessary]: the stop distance to use. *)
Definition hold_previous_stop_if_necessary
    (m : ObstacleStopModule) (planner_data : PlannerData)
    (traj_points : TrajectoryPoints) (determined_zero_vel_dist_ : Q) : Q :=
  match prev_stop_distance_info_ m with
  | Some (prev_traj, prev_dist) =>
      if ltb (std_abs (current_velocity planner_data))
             (hold_stop_velocity_threshold (stop_planning_param_ m))
      then
        let traj_front_point_prev_seg_idx :=
          findFirstNearestSegmentIndexWithSoftConstraints prev_traj
            (front_position traj_points) in
        let diff_dist_front_points :=
          calcSignedArcLength_idx_point_seg prev_traj 0
            (front_position traj_points) traj_front_point_prev_seg_idx in
        let prev_zero_vel_dist := prev_dist - diff_dist_front_points in
        if ltb (std_abs (prev_zero_vel_dist - determined_zero_vel_dist_))
               (hold_stop_distance_threshold (stop_planning_param_ m))
        then prev_zero_vel_dist
        else determined_zero_vel_dist_
      else determined_zero_vel_dist_
  | None => determined_zero_vel_dist_
  end.

(** [calc_stop_point]: the stop position and the updated module. *)
Definition calc_stop_point
    (m : ObstacleStopModule) (traj_points : TrajectoryPoints)
    (determined_zero_vel_dist_ : Q)
    : ObstacleStopModule * option geometry_msgs.Point :=
  match insertStopPoint determined_zero_vel_dist_ traj_points with
  | None => (m, None)
  | Some (zero_vel_idx, output_traj_points) =>
      (set_prev_stop_distance_info m
         (Some (output_traj_points, determined_zero_vel_dist_)),
       Some (position_at output_traj_points zero_vel_idx))
  end.

(** [plan_stop]. *)
Definition plan_stop
    (m : ObstacleStopModule) (clock_now : Time) (planner_data : PlannerData)
    (traj_points : TrajectoryPoints) (stop_obstacles : list StopObstacle)
    (dist_to_bumper : Q) : ObstacleStopModule * option geometry_msgs.Point :=
  match stop_obstacles with
  | [] => (set_prev_stop_distance_info m None, None)
  | _ :: _ =>
      match determine_stop m planner_data traj_points stop_obstacles
              dist_to_bumper with
      | None => (set_prev_stop_distance_info m None, None)
      | Some d =>
          let zero_vel_dist :=
            hold_previous_stop_if_necessary m planner_data traj_points
              (determined_zero_vel_dist d) in
          let '(m1, stop_point_) := calc_stop_point m traj_points zero_vel_dist in
          if geb (velocity (determined_obstacle d))
                 (max_negative_velocity (stop_planning_param_ m))
          then (m1, stop_point_)
          else
            let buffer :=
              update_buffer (path_length_buffer_ m1) stop_point_
                (fun point => calcSignedArcLength_idx_point traj_points 0 point)
                clock_now (determined_obstacle d) (determined_margin d) in
            let m2 := set_path_length_buffer m1 buffer in
            match get_nearest_active_item buffer with
            | Some buffered_stop => (m2, Some (stop_point buffered_stop))
            | None => (m2, None)
            end
      end
  end.

End Module_.

End ObstacleStop.

(** ** The path generator's utilities *)

Module PathGenerator.
Import Cxx.

Record PathRange (T : Type) : Type := { left : T; right : T }.

(** [lanelet2] and [autoware_lanelet2_extension]: a lanelet with its three
    2D line strings, their lengths, and the two operations the projections
    are made of.  [toArcCoordinates_length ls p] is
    [toArcCoordinates(ls, p).length]. *)
Class Lanelet2 : Type :=
  { ConstLanelet : Type;
    ConstLineString2d : Type;
    BasicPoint2d : Type;
    centerline2d : ConstLanelet -> ConstLineString2d;
    leftBound2d : ConstLanelet -> ConstLineString2d;
    rightBound2d : ConstLanelet -> ConstLineString2d;
    geometry_length : ConstLineString2d -> Q;
    getLaneletLength2d : ConstLanelet -> Q;
    interpolatedPointAtDistance : ConstLineString2d -> Q -> BasicPoint2d;
    toArcCoordinates_length : ConstLineString2d -> BasicPoint2d -> Q }.

(** The trajectory container [crop_line_string] builds: the builder can
    fail, [crop] takes a start and a length. *)
Class TrajectoryContainer : Type :=
  { Trajectory : Type;
    build : list geometry_msgs.Point -> option Trajectory;
    crop : Trajectory -> Q -> Q -> Trajectory;
    restore : Trajectory -> list geometry_msgs.Point }.

Section Crop.
Context {TC : TrajectoryContainer}.

Definition crop_line_string
    (line_string : list geometry_msgs.Point) (s_start s_end : Q)
    : list geometry_msgs.Point :=
  if ltb s_start 0 then line_string
  else if gtb s_start s_end then line_string
  else
    match build line_string with
    | None => []
    | Some trajectory => restore (crop trajectory s_start (s_end - s_start))
    end.
End Crop.

Section ArcLength.
Context {L : Lanelet2}.

Definition LaneletSequence : Type := list ConstLanelet.

(** The loop of [get_arc_length_on_bounds] with its three running sums. *)
Fixpoint arc_length_on_bounds_from
    (lanelet_sequence : LaneletSequence) (s_centerline s s_left s_right : Q)
    : PathRange Q :=
  match lanelet_sequence with
  | [] =>
      (* the sequence is too short: the arc length is returned as is *)
      {| left := s_centerline; right := s_centerline |}
  | it :: rest =>
      let centerline_length := geometry_length (centerline2d it) in
      let left_bound_length := geometry_length (leftBound2d it) in
      let right_bound_length := geometry_length (rightBound2d it) in
      if ltb (s + centerline_length) s_centerline then
        arc_length_on_bounds_from rest s_centerline
          (s + centerline_length) (s_left + left_bound_length)
          (s_right + right_bound_length)
      else
        let point_on_centerline :=
          interpolatedPointAtDistance (centerline2d it) (s_centerline - s) in
        {| left := s_left
                   + toArcCoordinates_length (leftBound2d it) point_on_centerline;
           right := s_right
                    + toArcCoordinates_length (rightBound2d it) point_on_centerline |}
  end.

Definition get_arc_length_on_bounds
    (lanelet_sequence : LaneletSequence) (s_centerline : Q) : PathRange Q :=
  if ltb s_centerline 0 then {| left := 0; right := 0 |}
  else arc_length_on_bounds_from lanelet_sequence s_centerline 0 0 0.

Definition is_some {A : Type} (o : option A) : bool :=
  match o with Some _ => true | None => false end.

(** One side of the loop body of [get_arc_length_on_centerline]: the
    projection is taken in the first lanelet whose bound reaches past the
    requested arc length. *)
Definition project_to_centerline
    (is_done : bool) (s_bound : option Q) (s s_on_bound bound_length : Q)
    (centerline bound : ConstLineString2d) (s_centerline : option Q)
    : option Q :=
  match s_bound with
  | Some b =>
      if negb is_done && gtb (s_on_bound + bound_length) b
      then Some (s + toArcCoordinates_length centerline
                       (interpolatedPointAtDistance bound (b - s_on_bound)))
      else s_centerline
  | None => s_centerline
  end.

Fixpoint arc_length_on_centerline_from
    (lanelet_sequence : LaneletSequence) (s_left_bound s_right_bound : option Q)
    (s s_left s_right : Q) (s_left_centerline s_right_centerline : option Q)
    : option Q * option Q :=
  match lanelet_sequence with
  | [] => (s_left_centerline, s_right_centerline)
  | it :: rest =>
      let is_left_done := negb (is_some s_left_bound) || is_some s_left_centerline in
      let is_right_done := negb (is_some s_right_bound) || is_some s_right_centerline in
      if is_left_done && is_right_done
      then (s_left_centerline, s_right_centerline)
      else
        let centerline_length := getLaneletLength2d it in
        let left_bound_length := geometry_length (leftBound2d it) in
        let right_bound_length := geometry_length (rightBound2d it) in
        arc_length_on_centerline_from rest s_left_bound s_right_bound
          (s + centerline_length) (s_left + left_bound_length)
          (s_right + right_bound_length)
          (project_to_centerline is_left_done s_left_bound s s_left
             left_bound_length (centerline2d it) (leftBound2d it)
             s_left_centerline)
          (project_to_centerline is_right_done s_right_bound s s_right
             right_bound_length (centerline2d it) (rightBound2d it)
             s_right_centerline)
  end.

(** A negative input arc length is answered with zero before the loop. *)
Definition zero_if_negative (s_bound : option Q) : option Q :=
  match s_bound with
  | Some b => if ltb b 0 then Some 0 else None
  | None => None
  end.

Definition or_else (a b : option Q) : option Q :=
  match a with Some _ => a | None => b end.

Definition get_arc_length_on_centerline
    (lanelet_sequence : LaneletSequence) (s_left_bound s_right_bound : option Q)
    : PathRange (option Q) :=
  let '(s_left_centerline, s_right_centerline) :=
    arc_length_on_centerline_from lanelet_sequence s_left_bound s_right_bound
      0 0 0 (zero_if_negative s_left_bound) (zero_if_negative s_right_bound) in
  {| left := or_else s_left_centerline s_left_bound;
     right := or_else s_right_centerline s_right_bound |}.

(** A lanelet whose left bound runs along the centerline at equal arc
    length, as with straight parallel bounds and square ends: both line
    strings have the same length ([getLaneletLength2d] being the
    centerline's), and projecting the point at distance [d] of one onto
    the other gives arc length [d]. *)
Definition left_bound_at_equal_arc_length (l : ConstLanelet) : Prop :=
  0 <= geometry_length (centerline2d l)
  /\ geometry_length (leftBound2d l) == geometry_length (centerline2d l)
  /\ getLaneletLength2d l == geometry_length (centerline2d l)
  /\ forall d, 0 <= d <= geometry_length (centerline2d l) ->
       toArcCoordinates_length (leftBound2d l)
         (interpolatedPointAtDistance (centerline2d l) d) == d
       /\ toArcCoordinates_length (centerline2d l)
            (interpolatedPointAtDistance (leftBound2d l) d) == d.

(** The round trip of the arc-length property: centerline to left bound
    and back. *)
Definition left_round_trip (lanelet_sequence : LaneletSequence) (s : Q)
    : option Q :=
  left (get_arc_length_on_centerline lanelet_sequence
          (Some (left (get_arc_length_on_bounds lanelet_sequence s))) None).

End ArcLength.

End PathGenerator.

(** ** Invariants of the obstacle-stop module *)

Module ObstacleStopInvariants.
Import Cxx ObstacleStop.

(** A candidate [c] is the first of the obstacles seen that attains the
    least combined distance of its label: the obstacles of its label
    before it are strictly farther, those after it at least as far. *)
Definition first_minimum_of_label
    (seen : list StopObstacle) (c : StopObstacle) : Prop :=
  exists before after,
    seen = before ++ c :: after
    /\ (forall o, In o before ->
                  label (classification o) = label (classification c) ->
                  combined_dist c < combined_dist o)
    /\ (forall o, In o after ->
                  label (classification o) = label (classification c) ->
                  combined_dist c <= combined_dist o).

(** The labels of a list in the order of their first appearance. *)
Definition labels_in_order_of_appearance (l : list StopObstacle) : list Z :=
  rev (nodup Z.eq_dec (rev (map (fun o => label (classification o)) l))).

(** A stop obstacle as [create_stop_obstacle_for_point_cloud] makes it:
    the all-zero UUID, the default classification, a bounding box
    without velocity and without braking distance. *)
Definition is_point_cloud_obstacle (so : StopObstacle) : Prop :=
  uuid so = zero_uuid_str
  /\ classification so = {| label := 0%Z; probability := 0 |}
  /\ shape so = Some BOUNDING_BOX
  /\ velocity so = 0
  /\ braking_dist so = None.

Section PointCloudInvariants.
Context {CM : Cmath} {MU : MotionUtils} {PB : PathLengthBufferOps}.

(** A point passes the two lateral tests of the point-cloud filter. *)
Definition within_lateral_margins
    (m : ObstacleStopModule) (traj_points : TrajectoryPoints)
    (decimated_traj_polys : list Polygon2d) (vehicle_info : VehicleInfo)
    (point : geometry_msgs.Point) : bool :=
  negb (geb (min_lat_dist_to_traj_poly traj_points vehicle_info point)
            (max_lat_margin (obstacle_filtering_param_ m)))
  && negb (x_geb (get_dist_to_traj_poly point decimated_traj_polys)
                 (max_lat_margin (obstacle_filtering_param_ m))).

(** An entry of the history has been held for the hold time. *)
Definition is_expired
    (m : ObstacleStopModule) (odom_time : Time) (entry : StopObstacle) : bool :=
  geb (seconds_between odom_time (stamp entry))
      (stop_obstacle_hold_time_threshold (obstacle_filtering_param_ m)).

End PointCloudInvariants.

End ObstacleStopInvariants.

(** ** Lengths along a lanelet sequence *)

Module PathGeneratorInvariants.
Import Cxx PathGenerator.

Section Lengths.
Context {L : Lanelet2}.

(** The sum of the lengths of one line string of every lanelet. *)
Definition total_length
    (line : ConstLanelet -> ConstLineString2d)
    (lanelet_sequence : LaneletSequence) : Q :=
  fold_right (fun l acc => geometry_length (line l) + acc) 0 lanelet_sequence.

End Lengths.

End PathGeneratorInvariants.

(** ** The common utilities of the motion velocity planner *)

Module PlannerCommonUtils.
Import Cxx.

(** What a call comes to: it returns, it throws [std::logic_error], it
    reads out of a container ([back()] of an empty vector, which the
    language leaves undefined), or it has not returned within the loop
    steps granted. *)
Inductive run (A : Type) : Type :=
| Returned (a : A)
| LogicError (what : string)
| Undefined
| OutOfFuel.
Arguments Returned {A} a.
Arguments LogicError {A} what.
Arguments Undefined {A}.
Arguments OutOfFuel {A}.

(** [geometry_msgs::msg::Pose] with [calc_offset_pose] of the geometry
    utilities. *)
Class PoseGeometry : Type :=
  { Pose : Type;
    calc_offset_pose : Pose -> Q -> Q -> Q -> Pose }.

Section ExtendedTrajectory.
Context {PG : PoseGeometry}.

(** The fields of [TrajectoryPoint] that [extend_trajectory_point]
    sets; the other fields of the message stay as its default
    constructor leaves them. *)
Record TrajectoryPoint : Type :=
  { pose : Pose;
    longitudinal_velocity_mps : Q;
    lateral_velocity_mps : Q;
    acceleration_mps2 : Q }.

(** [autoware::motion_utils::isDrivingForwardWithTwist]. *)
Variable isDrivingForwardWithTwist : list TrajectoryPoint -> option bool.

Definition extend_trajectory_point
    (extend_distance : Q) (goal_point : TrajectoryPoint)
    (is_driving_forward : bool) : TrajectoryPoint :=
  {| pose := calc_offset_pose (pose goal_point)
               (extend_distance * (if is_driving_forward then 1 else -1)) 0 0;
     longitudinal_velocity_mps := longitudinal_velocity_mps goal_point;
     lateral_velocity_mps := lateral_velocity_mps goal_point;
     acceleration_mps2 := acceleration_mps2 goal_point |}.

(** [input_points.back()]. *)
Definition back (input_points : list TrajectoryPoint) : option TrajectoryPoint :=
  match rev input_points with
  | [] => None
  | goal_point :: _ => Some goal_point
  end.

(** The [while] loop of [get_extended_trajectory_points], run for at
    most [fuel] evaluations of its condition. *)
Fixpoint extend_loop
    (fuel : nat) (extend_distance step_length : Q)
    (goal_point : TrajectoryPoint) (is_driving_forward : bool)
    (extend_sum : Q) (output_points : list TrajectoryPoint)
    : option (list TrajectoryPoint) :=
  match fuel with
  | O => None
  | S fuel' =>
      if leb extend_sum (extend_distance - step_length)
      then
        extend_loop fuel' extend_distance step_length goal_point
          is_driving_forward (extend_sum + step_length)
          (output_points
           ++ [extend_trajectory_point extend_sum goal_point is_driving_forward])
      else Some output_points
  end.

Definition get_extended_trajectory_points
    (fuel : nat) (input_points : list TrajectoryPoint)
    (extend_distance step_length : Q) : run (list TrajectoryPoint) :=
  let output_points := input_points in
  let is_driving_forward :=
    match isDrivingForwardWithTwist input_points with
    | Some forward => forward
    | None => true
    end in
  if ltb extend_distance epsilon then Returned output_points
  else
    match back input_points with
    | None => Undefined
    | Some goal_point =>
        match extend_loop fuel extend_distance step_length goal_point
                is_driving_forward 0 output_points with
        | None => OutOfFuel
        | Some output_points' =>
            Returned
              (output_points'
               ++ [extend_trajectory_point extend_distance goal_point
                     is_driving_forward])
        end
    end.

(** The value of [extend_sum] after [k] rounds of the loop. *)
Definition extend_sum_after (step_length : Q) (k : nat) : Q :=
  Nat.iter k (fun extend_sum => extend_sum + step_length) 0.

End ExtendedTrajectory.

(** [autoware_perception_msgs::msg::Shape]: its type, one of the three
    the perception messages define or another value of the [uint8_t],
    its dimensions and its footprint. *)
Record Shape : Type :=
  { type : option ObstacleStop.Shape;
    dimensions_x : Q;
    dimensions_y : Q;
    footprint : list geometry_msgs.Point }.

Section ObjectExtent.
Context {CM : ObstacleStop.Cmath}.

(** The body of the loop over the footprint points of a polygon. *)
Definition max_length_to_point_step
    (max_length_to_point : Q) (rel_point : geometry_msgs.Point) : Q :=
  let length_to_point :=
    ObstacleStop.hypot (geometry_msgs.x rel_point) (geometry_msgs.y rel_point) in
  if ltb max_length_to_point length_to_point
  then length_to_point
  else max_length_to_point.

Definition calc_object_possible_max_dist_from_center (shape : Shape) : run Q :=
  match type shape with
  | Some ObstacleStop.BOUNDING_BOX =>
      Returned (ObstacleStop.hypot (dimensions_x shape / 2)
                                   (dimensions_y shape / 2))
  | Some ObstacleStop.CYLINDER => Returned (dimensions_x shape / 2)
  | Some ObstacleStop.POLYGON =>
      Returned (fold_left max_length_to_point_step (footprint shape) 0)
  | None =>
      LogicError
        "The shape type is not supported in motion_velocity_planner_common."
  end.

(** [utils::calc_possible_min_dist_from_obj_to_traj_poly], on the
    object's shape and its lateral distance to the trajectory
    ([object->get_dist_to_traj_lateral(traj_points)]). *)
Definition calc_possible_min_dist_from_obj_to_traj_poly
    (shape : Shape) (dist_to_traj_lateral : Q)
    (vehicle_info : ObstacleStop.VehicleInfo) : run Q :=
  match calc_object_possible_max_dist_from_center shape with
  | Returned object_possible_max_dist =>
      let ego_possible_max_dist :=
        ObstacleStop.hypot
          (ObstacleStop.max_longitudinal_offset_m vehicle_info)
          (ObstacleStop.vehicle_width_m vehicle_info / 2) in
      Returned (std_abs dist_to_traj_lateral - ego_possible_max_dist
                - object_possible_max_dist)
  | LogicError what => LogicError what
  | Undefined => Undefined
  | OutOfFuel => OutOfFuel
  end.

End ObjectExtent.

End PlannerCommonUtils.

(** ** The path generator's walk along the route *)

Module PathGeneratorRoute.
Import Cxx PathGenerator.

(** The routing graph of lanelet2 ([previous], [following]) and what
    the walk reads of a lanelet: [operator==] and [id()]. *)
Class RoutingGraph (L : Lanelet2) : Type :=
  { lanelet_eqb : ConstLanelet -> ConstLanelet -> bool;
    lanelet_id : ConstLanelet -> Z;
    previous : ConstLanelet -> list ConstLanelet;
    following : ConstLanelet -> list ConstLanelet }.

Section Route.
Context {L : Lanelet2} {RG : RoutingGraph L}.

(** The lanelet lists of the path generator's [PlannerData]. *)
Record PlannerData : Type :=
  { route_lanelets : list ConstLanelet;
    preferred_lanelets : list ConstLanelet;
    start_lanelets : list ConstLanelet;
    goal_lanelets : list ConstLanelet }.

(** [exists(vec, item)]: [std::find] with [operator==]. *)
Definition exists_ (vec : list ConstLanelet) (item : ConstLanelet) : bool :=
  existsb (fun element => lanelet_eqb element item) vec.

Definition get_previous_lanelet_within_route
    (lanelet : ConstLanelet) (planner_data : PlannerData) : option ConstLanelet :=
  if exists_ (start_lanelets planner_data) lanelet then None
  else
    let prev_lanelets := previous lanelet in
    match prev_lanelets with
    | [] => None
    | _ :: _ =>
        find (fun l => exists_ (route_lanelets planner_data) l) prev_lanelets
    end.

Definition get_next_lanelet_within_route
    (lanelet : ConstLanelet) (planner_data : PlannerData) : option ConstLanelet :=
  match preferred_lanelets planner_data with
  | [] => None
  | preferred_front :: _ =>
      if exists_ (goal_lanelets planner_data) lanelet then None
      else
        let next_lanelets := following lanelet in
        match next_lanelets with
        | [] => None
        | next_front :: _ =>
            if (lanelet_id next_front =? lanelet_id preferred_front)%Z
            then None
            else
              find (fun l => exists_ (route_lanelets planner_data) l)
                   next_lanelets
        end
  end.

(** The [while] loop that [get_lanelets_within_route_up_to] and
    [get_lanelets_within_route_after] share but for the step
    ([get_previous_lanelet_within_route] in the one,
    [get_next_lanelet_within_route] in the other), run for at most [fuel]
    evaluations of its condition.  [rclcpp_ok k] is what [rclcpp::ok()]
    answers when the condition is evaluated after [k] rounds. *)
Fixpoint lanelets_within_route_loop
    (fuel : nat) (step : ConstLanelet -> option ConstLanelet)
    (rclcpp_ok : nat -> bool) (distance : Q)
    (current_lanelet : ConstLanelet) (length : Q) (lanelets : list ConstLanelet)
    : option (list ConstLanelet) :=
  match fuel with
  | O => None
  | S fuel' =>
      if rclcpp_ok 0%nat && ltb length distance then
        match step current_lanelet with
        | None => Some lanelets
        | Some lanelet =>
            lanelets_within_route_loop fuel' step (fun k => rclcpp_ok (S k))
              distance lanelet
              (length + getLaneletLength2d lanelet) (lanelets ++ [lanelet])
        end
      else Some lanelets
  end.

(** The outer [option] is empty when the loop has not ended within
    [fuel] steps, the inner one is the [std::optional] of the source. *)
Definition get_lanelets_within_route_up_to
    (fuel : nat) (rclcpp_ok : nat -> bool) (lanelet : ConstLanelet)
    (planner_data : PlannerData) (distance : Q)
    : option (option (list ConstLanelet)) :=
  if negb (exists_ (route_lanelets planner_data) lanelet) then Some None
  else
    match lanelets_within_route_loop fuel
            (fun current => get_previous_lanelet_within_route current planner_data)
            rclcpp_ok distance lanelet 0 [] with
    | None => None
    | Some lanelets => Some (Some (rev lanelets))
    end.

Definition get_lanelets_within_route_after
    (fuel : nat) (rclcpp_ok : nat -> bool) (lanelet : ConstLanelet)
    (planner_data : PlannerData) (distance : Q)
    : option (option (list ConstLanelet)) :=
  if negb (exists_ (route_lanelets planner_data) lanelet) then Some None
  else
    match lanelets_within_route_loop fuel
            (fun current => get_next_lanelet_within_route current planner_data)
            rclcpp_ok distance lanelet 0 [] with
    | None => None
    | Some lanelets => Some (Some lanelets)
    end.

(** [lanelets] are met one after the other from [start] by [step]. *)
Fixpoint is_walk
    (step : ConstLanelet -> option ConstLanelet) (start : ConstLanelet)
    (lanelets : list ConstLanelet) : Prop :=
  match lanelets with
  | [] => True
  | lanelet :: rest => step start = Some lanelet /\ is_walk step lanelet rest
  end.

(** The sum of [getLaneletLength2d] over the lanelets. *)
Definition route_length (lanelets : list ConstLanelet) : Q :=
  fold_right (fun l acc => getLaneletLength2d l + acc) 0 lanelets.

End Route.

End PathGeneratorRoute.

(** ** Crossing obstacles of the obstacle-stop module *)

Module ObstacleStopCrossing.
Import Cxx ObstacleStop.

(** [std::sort] with a comparison.  The order it gives to elements
    that compare equal is not specified, so the sort is any function
    with the two guarantees of the standard below. *)
Class StdSort : Type :=
  { std_sort : forall {A : Type}, (A -> A -> bool) -> list A -> list A }.

(** The result of [std::sort] is a rearrangement of its input ... *)
Definition std_sort_rearranges (SO : StdSort) : Prop :=
  forall (A : Type) (comp : A -> A -> bool) (l : list A),
    Permutation l (std_sort comp l).

(** ... in which, for a comparison that is irreflexive and transitive,
    no element is ordered before an earlier one. *)
Definition std_sort_orders (SO : StdSort) : Prop :=
  forall (A : Type) (comp : A -> A -> bool) (l : list A),
    (forall a, comp a a = false) ->
    (forall a b c, comp a b = true -> comp b c = true -> comp a c = true) ->
    StronglySorted (fun a b => comp b a = false) (std_sort comp l).

(** The fields of [ObstacleFilteringParam] that the crossing test, the
    cut-in test and the collision time margin read. *)
Record CrossingParam : Type :=
  { crossing_obstacle_collision_time_margin : Q;
    crossing_obstacle_traj_angle_threshold : Q;
    min_velocity_to_reach_collision_point : Q;
    outside_max_lateral_velocity : Q }.

(** [M_PI], the double nearest to pi. *)
Definition M_PI : Q := 884279719003555 # 281474976710656.

Section PredictedPaths.
Context {SO : StdSort}.

(** [PredictedPath]: its confidence and its poses (positions here). *)
Record PredictedPath : Type :=
  { confidence : Q;
    path : list geometry_msgs.Point }.

(** [autoware::object_recognition_utils::resamplePredictedPath]. *)
Variable resamplePredictedPath : PredictedPath -> Q -> Q -> PredictedPath.

(** The loop that selects the first [num_paths] of the sorted paths:
    the paths selected so far and their count. *)
Definition select_path_step
    (num_paths : nat) (state : list PredictedPath * nat) (path_ : PredictedPath)
    : list PredictedPath * nat :=
  let '(selected_paths, path_count) := state in
  if (path_count <? num_paths)%nat
  then (selected_paths ++ [path_], S path_count)
  else (selected_paths, path_count).

Definition resample_highest_confidence_predicted_paths
    (predicted_paths : list PredictedPath) (time_interval time_horizon : Q)
    (num_paths : nat) : list PredictedPath :=
  let sorted_paths :=
    std_sort (fun a b => gtb (confidence a) (confidence b)) predicted_paths in
  let selected_paths :=
    fst (fold_left (select_path_step num_paths) sorted_paths ([], 0%nat)) in
  flat_map
    (fun path_ =>
       if (List.length (path path_) <? 2)%nat then []
       else [resamplePredictedPath path_ time_interval time_horizon])
    selected_paths.

End PredictedPaths.

Section TimeMargins.
Context {MU : MotionUtils}.

(** [calcSignedArcLength] between two points. *)
Variable calcSignedArcLength_point_point :
  TrajectoryPoints -> geometry_msgs.Point -> geometry_msgs.Point -> Q.

(** The part of [Odometry] read here: the position and
    [twist.twist.linear.x]. *)
Record Odometry : Type :=
  { odometry_position_ : geometry_msgs.Point;
    odometry_linear_x : Q }.

Definition calc_time_to_reach_collision_point
    (odometry : Odometry) (collision_point_ : geometry_msgs.Point)
    (traj_points : TrajectoryPoints) (dist_to_bumper : Q)
    (min_velocity_to_reach_collision_point_ : Q) : Q :=
  let dist_from_ego_to_obstacle :=
    std_abs (calcSignedArcLength_point_point traj_points
               (odometry_position_ odometry) collision_point_)
    - dist_to_bumper in
  dist_from_ego_to_obstacle
  / std_max min_velocity_to_reach_collision_point_
            (std_abs (odometry_linear_x odometry)).

(** [polygon_utils::PointWithStamp]. *)
Record PointWithStamp : Type :=
  { point : geometry_msgs.Point;
    point_stamp : Time }.

(** [calc_collision_time_margin]; [now_front] and [now_back] are the
    two readings of the clock.  [None] stands for [front()] and [back()]
    of an empty vector. *)
Definition calc_collision_time_margin
    (stop_planning_param : StopPlanningParam) (crossing_param : CrossingParam)
    (now_front now_back : Time) (odometry : Odometry)
    (collision_points : list PointWithStamp)
    (traj_points : TrajectoryPoints) (dist_to_bumper : Q) : option Q :=
  match collision_points, rev collision_points with
  | front :: _, back_ :: _ =>
      let time_to_reach_stop_point :=
        calc_time_to_reach_collision_point odometry (point front) traj_points
          (min_behavior_stop_margin stop_planning_param + dist_to_bumper)
          (min_velocity_to_reach_collision_point crossing_param) in
      let time_to_leave_collision_point :=
        time_to_reach_stop_point
        + dist_to_bumper
          / std_max (min_velocity_to_reach_collision_point crossing_param)
                    (odometry_linear_x odometry) in
      let time_to_start_cross := seconds_between (point_stamp front) now_front in
      let time_to_end_cross := seconds_between (point_stamp back_) now_back in
      if ltb time_to_leave_collision_point time_to_start_cross
      then Some (time_to_start_cross - time_to_reach_stop_point)
      else if ltb time_to_end_cross time_to_reach_stop_point
      then Some (time_to_reach_stop_point - time_to_end_cross)
      else Some 0
  | _, _ => None
  end.

End TimeMargins.

Section Crossing.
Context {MU : MotionUtils} {PO : PlannerObjects MU} {SO : StdSort}.

Variable calcSignedArcLength_point_point :
  TrajectoryPoints -> geometry_msgs.Point -> geometry_msgs.Point -> Q.

(** [calc_diff_angle_against_trajectory] of the object's initial pose. *)
Variable calc_diff_angle_against_trajectory : TrajectoryPoints -> Object -> Q.

(** [predicted_object.kinematics.predicted_paths]. *)
Variable predicted_paths : Object -> list PredictedPath.

Variable resamplePredictedPath : PredictedPath -> Q -> Q -> PredictedPath.

(** [autoware::object_recognition_utils::calcInterpolatedPose]. *)
Variable calcInterpolatedPose : PredictedPath -> Q -> option geometry_msgs.Point.

(** [is_crossing_transient_obstacle].  Its only caller passes a
    collision point that has a value; [get_collision_point] is asked
    about the object's shape placed at the future pose. *)
Definition is_crossing_transient_obstacle
    (stop_planning_param : StopPlanningParam) (crossing_param : CrossingParam)
    (clock_now : Time) (odometry : Odometry)
    (traj_points decimated_traj_points : TrajectoryPoints) (object : Object)
    (dist_to_bumper : Q) (decimated_traj_polys_with_lat_margin : list Polygon2d)
    (collision_point_ : geometry_msgs.Point * Q) : bool :=
  let diff_angle := calc_diff_angle_against_trajectory traj_points object in
  let near_zero :=
    ltb (- crossing_obstacle_traj_angle_threshold crossing_param) diff_angle
    && ltb diff_angle (crossing_obstacle_traj_angle_threshold crossing_param) in
  let near_pi :=
    ltb (M_PI - crossing_obstacle_traj_angle_threshold crossing_param)
        (std_abs diff_angle)
    && ltb (std_abs diff_angle)
           (M_PI + crossing_obstacle_traj_angle_threshold crossing_param) in
  if near_zero || near_pi then false
  else
  let time_to_reach_stop_point :=
    calc_time_to_reach_collision_point calcSignedArcLength_point_point
      odometry (fst collision_point_) traj_points
      (min_behavior_stop_margin stop_planning_param + dist_to_bumper)
      (min_velocity_to_reach_collision_point crossing_param) in
  if leb time_to_reach_stop_point
         (crossing_obstacle_collision_time_margin crossing_param)
  then false
  else
  let resampled_predicted_paths :=
    resample_highest_confidence_predicted_paths resamplePredictedPath
      (predicted_paths object) 0.1 10 1 in
  match resampled_predicted_paths with
  | [] => false
  | front :: _ =>
      match rev (path front) with
      | [] => false
      | back_ :: _ =>
          let future_obj_pose :=
            match calcInterpolatedPose front
                    (time_to_reach_stop_point
                     - crossing_obstacle_collision_time_margin crossing_param)
            with
            | Some opt_future_obj_pose => opt_future_obj_pose
            | None => back_
            end in
          let future_collision_point :=
            get_collision_point decimated_traj_points
              decimated_traj_polys_with_lat_margin future_obj_pose clock_now
              object dist_to_bumper in
          match future_collision_point with
          | Some _ => false
          | None => true
          end
      end
  end.

End Crossing.

End ObstacleStopCrossing.

(** ** The trajectory polygons kept per lateral margin *)

Module TrajectoryPolygonCache.
Import Cxx ObstacleStop.

Section Cache.
Context {MU : MotionUtils}.

(** [polygon_utils::create_one_step_polygons], with all its arguments. *)
Variable polygon_utils_create_one_step_polygons :
  TrajectoryPoints -> VehicleInfo -> geometry_msgs.Point -> Q ->
  bool -> Q -> Q -> list Polygon2d.

(** [std::unordered_map<double, std::vector<Polygon2d>>]: only [count],
    [emplace], [at] and [clear] are used, so the order of the entries
    does not show. *)
Definition PolygonMap : Type := list (Q * list Polygon2d).

Definition count (map_ : PolygonMap) (key : Q) : nat :=
  if existsb (fun entry => Qeq_bool (fst entry) key) map_ then 1%nat else 0%nat.

(** [emplace] leaves an entry that is already there. *)
Definition emplace (map_ : PolygonMap) (key : Q) (value : list Polygon2d)
    : PolygonMap :=
  if existsb (fun entry => Qeq_bool (fst entry) key) map_
  then map_
  else map_ ++ [(key, value)].

Definition at_ (map_ : PolygonMap) (key : Q) : result (list Polygon2d) :=
  match find (fun entry => Qeq_bool (fst entry) key) map_ with
  | Some entry => Ok (snd entry)
  | None => Throw out_of_range
  end.

Definition clear (map_ : PolygonMap) : PolygonMap := [].

(** [get_trajectory_polygon]: what it returns and
    [trajectory_polygon_for_inside_map_] after it. *)
Definition get_trajectory_polygon
    (trajectory_polygon_for_inside_map_ : PolygonMap)
    (decimated_traj_points : TrajectoryPoints) (vehicle_info : VehicleInfo)
    (current_ego_pose : geometry_msgs.Point) (lat_margin : Q)
    (enable_to_consider_current_pose : bool)
    (time_to_convergence decimate_trajectory_step_length : Q)
    : result (list Polygon2d) * PolygonMap :=
  let map_ :=
    if (count trajectory_polygon_for_inside_map_ lat_margin =? 0)%nat
    then
      let traj_polys :=
        polygon_utils_create_one_step_polygons decimated_traj_points
          vehicle_info current_ego_pose lat_margin
          enable_to_consider_current_pose time_to_convergence
          decimate_trajectory_step_length in
      emplace trajectory_polygon_for_inside_map_ lat_margin traj_polys
    else trajectory_polygon_for_inside_map_ in
  (at_ map_ lat_margin, map_).

End Cache.

End TrajectoryPolygonCache.

(** ** Connecting the path to the goal *)

Module PathGeneratorGoal.
Import Cxx PathGenerator.

(** [experimental::trajectory::Trajectory<PathPointWithLaneId>] as the
    goal connection reads it: its length, the pose of the point computed
    at an arc length, and the alignment of its orientations;
    [lanelet::utils::isInLanelet]; and [connect_path_to_goal]. *)
Class PathTrajectory (L : Lanelet2) : Type :=
  { Path : Type;
    Pose : Type;
    length : Path -> Q;
    compute_pose : Path -> Q -> Pose;
    align_orientation_with_trajectory_direction : Path -> Path;
    isInLanelet : Pose -> ConstLanelet -> bool;
    connect_path_to_goal : Path -> Pose -> Z -> Q -> Q -> Path }.

Section GoalConnection.
Context {L : Lanelet2} {PT : PathTrajectory L}.

Definition is_pose_inside_lanelets
    (pose : Pose) (lanelets : list ConstLanelet) : bool :=
  existsb (fun l => isInLanelet pose l) lanelets.

(** The [for] loop of [is_path_inside_lanelets] from the arc length [s]
    on, run for at most [fuel] evaluations of its condition. *)
Fixpoint is_path_inside_lanelets_from
    (fuel : nat) (path : Path) (lanelets : list ConstLanelet) (s : Q)
    : option bool :=
  match fuel with
  | O => None
  | S fuel' =>
      if ltb s (length path) then
        if negb (is_pose_inside_lanelets (compute_pose path s) lanelets)
        then Some false
        else is_path_inside_lanelets_from fuel' path lanelets (s + 0.1)
      else Some true
  end.

Definition is_path_inside_lanelets
    (fuel : nat) (path : Path) (lanelets : list ConstLanelet) : option bool :=
  is_path_inside_lanelets_from fuel path lanelets 0.

(** The arc length the loop looks at in its round [k]. *)
Definition sampled_arc_length (k : nat) : Q :=
  Nat.iter k (fun s => s + 0.1) 0.

(** The [for] loop of [connect_path_to_goal_inside_lanelets] from the
    section length [m] on; [None] when it, or a call of
    [is_path_inside_lanelets] in it, has not ended within the steps
    granted. *)
Fixpoint connect_path_to_goal_inside_lanelets_from
    (fuel inner_fuel : nat) (path : Path) (lanelets : list ConstLanelet)
    (goal_pose : Pose) (goal_lane_id : Z) (pre_goal_offset : Q) (m : Q)
    : option (option Path) :=
  match fuel with
  | O => None
  | S fuel' =>
      if gtb m 0 then
        let path_to_goal :=
          connect_path_to_goal path goal_pose goal_lane_id m pre_goal_offset in
        match is_path_inside_lanelets inner_fuel path_to_goal lanelets with
        | None => None
        | Some false =>
            connect_path_to_goal_inside_lanelets_from fuel' inner_fuel path
              lanelets goal_pose goal_lane_id pre_goal_offset (m - 0.1)
        | Some true =>
            Some (Some (align_orientation_with_trajectory_direction path_to_goal))
        end
      else Some None
  end.

Definition connect_path_to_goal_inside_lanelets
    (fuel inner_fuel : nat) (path : Path) (lanelets : list ConstLanelet)
    (goal_pose : Pose) (goal_lane_id : Z)
    (connection_section_length pre_goal_offset : Q) : option (option Path) :=
  connect_path_to_goal_inside_lanelets_from fuel inner_fuel path lanelets
    goal_pose goal_lane_id pre_goal_offset connection_section_length.

(** The section length the loop tries in its round [k]. *)
Definition tried_section_length (connection_section_length : Q) (k : nat) : Q :=
  Nat.iter k (fun m => m - 0.1) connection_section_length.

End GoalConnection.

End PathGeneratorGoal.

(** ** Arc length on the path *)

Module PathGeneratorPath.
Import Cxx PathGenerator.

(** [PathPointWithLaneId] as [get_arc_length_on_path] reads it. *)
Record PathPointWithLaneId : Type :=
  { lane_ids : list Z;
    position : geometry_msgs.Point }.

(** [id()] of a lanelet, [autoware_utils::calc_distance2d] of two path
    points, the conversion of a position to a [BasicPoint2d], and
    [toArcCoordinates(...).length] on a [BasicLineString2d]. *)
Class PathGeometry (L : Lanelet2) : Type :=
  { id : ConstLanelet -> Z;
    calc_distance2d : PathPointWithLaneId -> PathPointWithLaneId -> Q;
    basicPoint2d : geometry_msgs.Point -> BasicPoint2d;
    toArcCoordinates_length_on_points : list BasicPoint2d -> BasicPoint2d -> Q }.

Section ArcLengthOnPath.
Context {L : Lanelet2} {PG : PathGeometry L}.

(** The loop over the lanelet sequence: the lanelet the arc length falls
    into and the point on its centerline. *)
Fixpoint find_target_lanelet
    (lanelet_sequence : LaneletSequence) (s s_centerline : Q)
    : option (Z * BasicPoint2d) :=
  match lanelet_sequence with
  | [] => None
  | it :: rest =>
      let centerline_length := geometry_length (centerline2d it) in
      if ltb (s + centerline_length) s_centerline
      then find_target_lanelet rest (s + centerline_length) s_centerline
      else
        Some (id it,
              interpolatedPointAtDistance (centerline2d it) (s_centerline - s))
  end.

Definition has_lane_id (target_lanelet_id : Z) (it : PathPointWithLaneId) : bool :=
  existsb (fun lane_id => (lane_id =? target_lanelet_id)%Z) (lane_ids it).

(** The loop over the path: [s_path] and [target_path_segment] when it
    ends. *)
Fixpoint collect_target_path_segment
    (target_lanelet_id : Z) (path : list PathPointWithLaneId)
    (s_path : Q) (target_path_segment : list BasicPoint2d)
    : Q * list BasicPoint2d :=
  match path with
  | [] => (s_path, target_path_segment)
  | it :: rest =>
      if negb (has_lane_id target_lanelet_id it) then
        match target_path_segment, rest with
        | [], next :: _ =>
            collect_target_path_segment target_lanelet_id rest
              (s_path + calc_distance2d it next) target_path_segment
        | _, _ => (s_path, target_path_segment)
        end
      else
        collect_target_path_segment target_lanelet_id rest s_path
          (target_path_segment ++ [basicPoint2d (position it)])
  end.

Definition get_arc_length_on_path
    (lanelet_sequence : LaneletSequence) (path : list PathPointWithLaneId)
    (s_centerline : Q) : Q :=
  match lanelet_sequence, path with
  | [], _ => 0
  | _, [] => 0
  | _ :: _, _ :: _ =>
      if ltb s_centerline 0 then 0
      else
        match find_target_lanelet lanelet_sequence 0 s_centerline with
        | None => s_centerline
        | Some (target_lanelet_id, point_on_centerline) =>
            let '(s_path, target_path_segment) :=
              collect_target_path_segment target_lanelet_id path 0 [] in
            s_path
            + toArcCoordinates_length_on_points target_path_segment
                point_on_centerline
        end
  end.

(** The sum of the distances between the consecutive points. *)
Fixpoint chain_length (points : list PathPointWithLaneId) : Q :=
  match points with
  | it :: ((next :: _) as rest) => calc_distance2d it next + chain_length rest
  | _ => 0
  end.

End ArcLengthOnPath.

End PathGeneratorPath.

(** ** Straight-road instances of the library interfaces

    The examples run on a road along the x axis, where arc length is the x
    coordinate and lateral offset the y coordinate, so that every library
    call has an exact rational value. *)

Module StraightRoad.
Import Cxx ObstacleStop.

Definition pt (px py : Q) : geometry_msgs.Point :=
  {| geometry_msgs.x := px; geometry_msgs.y := py; geometry_msgs.z := 0 |}.

(** Square root, exact on the squares of rationals. *)
Definition sqrt_q (q : Q) : Q :=
  Z.sqrt (Qnum q * Zpos (Qden q)) # Qden q.

#[export] Instance cmath : Cmath :=
  {| hypot := fun a b => sqrt_q (a * a + b * b) |}.

(** A trajectory point on the x axis with its longitudinal velocity. *)
Record TrajectoryPoint : Type :=
  { px : Q; longitudinal_velocity_mps : Q }.

Definition x_at (t : list TrajectoryPoint) (i : nat) : Q :=
  nth i (map px t) 0.

Definition count_before (t : list TrajectoryPoint) (p : Q) : nat :=
  List.length (filter (fun tp => leb (px tp) p) t).

Definition segment_index (t : list TrajectoryPoint) (p : geometry_msgs.Point) : nat :=
  Nat.min (count_before t (geometry_msgs.x p) - 1) (List.length t - 2).

Fixpoint nearest_from
    (t : list TrajectoryPoint) (p : Q) (i best : nat) (best_dist : xdouble) : nat :=
  match t with
  | [] => best
  | tp :: rest =>
      let d := Qabs (px tp - p) in
      if ltb_x d best_dist
      then nearest_from rest p (S i) i (Finite d)
      else nearest_from rest p (S i) best best_dist
  end.

Fixpoint zero_velocity_from (t : list TrajectoryPoint) (i from : nat) : option nat :=
  match t with
  | [] => None
  | tp :: rest =>
      if (from <=? i)%nat && ltb (Qabs (longitudinal_velocity_mps tp)) 0.001
      then Some i
      else zero_velocity_from rest (S i) from
  end.

(** A stop point at arc length [dist] from the first point: the points
    before it are kept, those after it get velocity zero. *)
Definition insert_stop (dist : Q) (t : list TrajectoryPoint)
    : option (nat * list TrajectoryPoint) :=
  let target := x_at t 0 + dist in
  if ltb dist 0 || gtb target (x_at t (List.length t - 1)) then None
  else
    let before := filter (fun tp => ltb (px tp) target) t in
    let after := filter (fun tp => negb (ltb (px tp) target)) t in
    Some (List.length before,
          before
          ++ {| px := target; longitudinal_velocity_mps := 0 |}
          :: map (fun tp => {| px := px tp; longitudinal_velocity_mps := 0 |}) after).

(** The footprint swept over one trajectory segment, widened by a
    lateral margin. *)
Record Footprint : Type := { x_lo : Q; x_hi : Q; half_width : Q }.

Fixpoint footprints (t : list TrajectoryPoint) (front half : Q) : list Footprint :=
  match t with
  | a :: ((b :: _) as rest) =>
      {| x_lo := px a; x_hi := px b + front; half_width := half |}
      :: footprints rest front half
  | _ => []
  end.

Definition footprint_distance (f : Footprint) (p : geometry_msgs.Point) : Q :=
  let dx := std_max (std_max (x_lo f - geometry_msgs.x p)
                             (geometry_msgs.x p - x_hi f)) 0 in
  let dy := std_max (Qabs (geometry_msgs.y p) - half_width f) 0 in
  hypot dx dy.

#[export] Instance motion_utils : MotionUtils :=
  {| TrajectoryPoints := list TrajectoryPoint;
     Polygon2d := Footprint;
     size := @List.length TrajectoryPoint;
     front_position := fun t => pt (x_at t 0) 0;
     position_at := fun t i => pt (x_at t i) 0;
     calcLateralOffset := fun _ p => geometry_msgs.y p;
     calcSignedArcLength_idx_idx := fun t i j => x_at t j - x_at t i;
     calcSignedArcLength_idx_point := fun t i p => geometry_msgs.x p - x_at t i;
     calcSignedArcLength_idx_point_seg := fun t i p _ => geometry_msgs.x p - x_at t i;
     findNearestIndex := fun t p => nearest_from t (geometry_msgs.x p) 0 0 PosInf;
     find_segment_index := segment_index;
     findFirstNearestSegmentIndexWithSoftConstraints := segment_index;
     searchZeroVelocityIndex := fun t from => zero_velocity_from t 0 from;
     insertStopPoint := insert_stop;
     create_one_step_polygons :=
       fun t vi _ lat_margin =>
         footprints t (max_longitudinal_offset_m vi)
                    (vehicle_width_m vi / 2 + lat_margin);
     bg_distance := footprint_distance |}.

(** Modelled from the spec: the path-length debounce buffer, declared
    in a header of the module.  The spec has it apply "minimum
    on/off durations before allowing a stop to appear or disappear": a
    stop enters the buffer inactive and becomes active once it has been
    reported for longer than the minimum on-duration; an active stop that
    has not been reported for longer than the minimum off-duration is
    dropped; a report within the update distance of a buffered stop
    refreshes that stop. *)
Record BufferedStop : Type :=
  { item : BufferedStopDistanceItem;
    stop_distance : Q;
    start_time : Time;
    last_reported : Time;
    is_active : bool }.

Record DebounceBuffer : Type :=
  { update_distance_th : Q;
    min_off_duration : Q;
    min_on_duration : Q;
    stops : list BufferedStop }.

Definition refresh (b : DebounceBuffer) (clock_now : Time)
    (it : BufferedStopDistanceItem) (d : Q) (bs : BufferedStop) : BufferedStop :=
  {| item := it;
     stop_distance := std_min d (stop_distance bs);
     start_time := start_time bs;
     last_reported := clock_now;
     is_active :=
       is_active bs
       || gtb (seconds_between clock_now (start_time bs)) (min_on_duration b) |}.

Fixpoint refresh_first (b : DebounceBuffer) (clock_now : Time)
    (it : BufferedStopDistanceItem) (d : Q) (l : list BufferedStop)
    : option (list BufferedStop) :=
  match l with
  | [] => None
  | bs :: rest =>
      if leb (Qabs (stop_distance bs - d)) (update_distance_th b)
      then Some (refresh b clock_now it d bs :: rest)
      else option_map (cons bs) (refresh_first b clock_now it d rest)
  end.

Definition debounce_update
    (b : DebounceBuffer) (stop_point_ : option geometry_msgs.Point)
    (arc_length : geometry_msgs.Point -> Q) (clock_now : Time)
    (so : StopObstacle) (margin : Q) : DebounceBuffer :=
  let kept :=
    filter (fun bs =>
              negb (is_active bs
                    && gtb (seconds_between clock_now (last_reported bs))
                           (min_off_duration b)))
           (stops b) in
  let stops' :=
    match stop_point_ with
    | None => kept
    | Some p =>
        let it := {| stop_point := p;
                     determined_stop_obstacle := so;
                     determined_desired_stop_margin := margin |} in
        match refresh_first b clock_now it (arc_length p) kept with
        | Some l => l
        | None =>
            kept ++ [{| item := it;
                        stop_distance := arc_length p;
                        start_time := clock_now;
                        last_reported := clock_now;
                        is_active := false |}]
        end
    end in
  {| update_distance_th := update_distance_th b;
     min_off_duration := min_off_duration b;
     min_on_duration := min_on_duration b;
     stops := stops' |}.

Fixpoint nearest_active (l : list BufferedStop) (best : option BufferedStop)
    : option BufferedStop :=
  match l with
  | [] => best
  | bs :: rest =>
      if is_active bs
      then
        match best with
        | Some b0 =>
            if ltb (stop_distance bs) (stop_distance b0)
            then nearest_active rest (Some bs)
            else nearest_active rest best
        | None => nearest_active rest (Some bs)
        end
      else nearest_active rest best
  end.

#[export] Instance path_length_buffer : PathLengthBufferOps :=
  {| PathLengthBuffer := DebounceBuffer;
     make_buffer := fun th off on =>
       {| update_distance_th := th; min_off_duration := off;
          min_on_duration := on; stops := [] |};
     update_buffer := debounce_update;
     get_nearest_active_item := fun b => option_map item (nearest_active (stops b) None) |}.

(** A perceived object with its measurements relative to the road. *)
Record RoadObject : Type :=
  { perceived : PredictedObject.t;
    position : geometry_msgs.Point;
    lon_vel : Q;
    lat_vel : Q }.

Definition inside_footprints
    (polys : list Footprint) (p : geometry_msgs.Point) : bool :=
  existsb (fun f => leb (footprint_distance f p) 0) polys.

#[export] Instance planner_objects : PlannerObjects motion_utils :=
  {| Object := RoadObject;
     predicted_object := perceived;
     get_dist_from_ego_longitudinal :=
       fun o _ ego => geometry_msgs.x (position o) - geometry_msgs.x ego;
     get_lat_vel_relative_to_traj := fun o _ => lat_vel o;
     get_lon_vel_relative_to_traj := fun o _ => lon_vel o;
     get_dist_to_traj_poly_of :=
       fun o polys =>
         match get_dist_to_traj_poly (position o) polys with
         | Finite d => d
         | PosInf => 1000000
         end;
     get_predicted_current_pose := fun o _ _ => position o;
     possible_min_dist_from_obj_to_traj_poly :=
       fun o t vi => min_lat_dist_to_traj_poly t vi (position o);
     decimate_trajectory_points_from_ego := fun t _ => t;
     get_collision_point :=
       fun t polys obj_pose _ _ dist_to_bumper =>
         if inside_footprints polys obj_pose
         then Some (obj_pose, geometry_msgs.x obj_pose - x_at t 0 - dist_to_bumper)
         else None;
     check_outside_cut_in_obstacle := fun _ _ _ _ _ _ _ => None;
     is_crossing_transient_obstacle := fun _ _ _ _ _ _ => false |}.

(** On a straight road the straight line from the first point of the
    short trajectory already meets the obstacle. *)
#[export] Instance curve_geometry : CurveGeometry motion_utils :=
  {| probe_curve := fun _ _ _ => CollisionAtFirstIndex |}.

End StraightRoad.

(** ** Straight lanelets and line strings *)

Module StraightLane.
Import Cxx PathGenerator.

(** A line string that is one segment parallel to the x axis, from
    [x_from] to [x_to] at height [y_of]. *)
Record Segment : Type := { x_from : Q; x_to : Q; y_of : Q }.

Record Lanelet : Type :=
  { center : Segment; left_bound : Segment; right_bound : Segment }.

Definition segment_length (ls : Segment) : Q := x_to ls - x_from ls.

(** [interpolatedPointAtDistance]: the point at the given distance from
    the start (from the end for a negative distance), and the last point
    beyond the line string. *)
Definition point_at_distance (ls : Segment) (dist : Q) : Q * Q :=
  if ltb dist 0
  then (x_to ls - std_min (- dist) (segment_length ls), y_of ls)
  else (x_from ls + std_min dist (segment_length ls), y_of ls).

(** [toArcCoordinates(...).length]: the arc length of the closest point of
    the line string. *)
Definition arc_length_of (ls : Segment) (p : Q * Q) : Q :=
  std_clamp (fst p - x_from ls) 0 (segment_length ls).

#[export] Instance lanelet2 : Lanelet2 :=
  {| ConstLanelet := Lanelet;
     ConstLineString2d := Segment;
     BasicPoint2d := Q * Q;
     centerline2d := center;
     leftBound2d := left_bound;
     rightBound2d := right_bound;
     geometry_length := segment_length;
     getLaneletLength2d := fun l => segment_length (center l);
     interpolatedPointAtDistance := point_at_distance;
     toArcCoordinates_length := arc_length_of |}.

(** A line string along the x axis, cropped by arc length with linear
    interpolation of the two ends. *)
Definition arc_of (line : list geometry_msgs.Point) (p : geometry_msgs.Point) : Q :=
  match line with
  | [] => 0
  | p0 :: _ => geometry_msgs.x p - geometry_msgs.x p0
  end.

Definition point_on (line : list geometry_msgs.Point) (s : Q) : geometry_msgs.Point :=
  match line with
  | [] => {| geometry_msgs.x := s; geometry_msgs.y := 0; geometry_msgs.z := 0 |}
  | p0 :: _ =>
      {| geometry_msgs.x := geometry_msgs.x p0 + s;
         geometry_msgs.y := geometry_msgs.y p0;
         geometry_msgs.z := geometry_msgs.z p0 |}
  end.

Definition crop_along_x (line : list geometry_msgs.Point) (start len : Q)
    : list geometry_msgs.Point :=
  point_on line start
  :: filter (fun p => ltb start (arc_of line p) && ltb (arc_of line p) (start + len))
       line
  ++ [point_on line (start + len)].

#[export] Instance trajectory_container : TrajectoryContainer :=
  {| Trajectory := list geometry_msgs.Point;
     build := fun line =>
       match line with
       | _ :: _ :: _ => Some line
       | _ => None
       end;
     crop := crop_along_x;
     restore := fun t => t |}.

End StraightLane.

(** ** Scenarios *)

Module Scenario.
Import Cxx ObstacleStop StraightRoad.

(** A road of 100 m sampled every 10 m, driven at 5 m/s. *)
Definition road : list TrajectoryPoint :=
  map (fun k => {| px := inject_Z (10 * Z.of_nat k);
                   longitudinal_velocity_mps := 5 |})
      (seq 0 11).

Definition vehicle : VehicleInfo :=
  {| max_longitudinal_offset_m := 4;
     min_longitudinal_offset_m := -1;
     vehicle_width_m := 6 |}.

Definition filtering : ObstacleFilteringParam :=
  {| use_pointcloud := true;
     inside_stop_object_types :=
       [UNKNOWN; CAR; TRUCK; BUS; TRAILER; MOTORCYCLE; BICYCLE; PEDESTRIAN];
     outside_stop_object_types := [PEDESTRIAN; BICYCLE];
     max_lat_margin := 0.3;
     max_lat_margin_against_predicted_object_unknown := 0.3;
     outside_estimation_time_horizon := 1;
     outside_pedestrian_deceleration := 1;
     outside_bicycle_deceleration := 2;
     stop_obstacle_hold_time_threshold := 1 |}.

Definition rss : RSSParam :=
  {| use_rss_stop := true;
     two_wheel_objects_deceleration := -5;
     vehicle_objects_deceleration := -6;
     no_wheel_objects_deceleration := -10;
     velocity_offset := 1 |}.

(** Pedestrians are abandoned on a sudden stop, bicycles are stopped for
    with their own limit, every other label takes the default policy. *)
Definition param_type (c : ObjectClassification) : string :=
  if (label c =? PEDESTRIAN)%Z then "pedestrian"
  else if (label c =? BICYCLE)%Z then "bicycle"
  else "default".

Definition type_param (c : ObjectClassification) : ObjectTypeSpecificParams :=
  {| limit_min_acc := -3;
     sudden_object_acc_threshold := -1;
     sudden_object_dist_threshold := 1000;
     abandon_to_stop := (label c =? PEDESTRIAN)%Z |}.

Definition stop_planning : StopPlanningParam :=
  {| stop_margin := 5;
     terminal_stop_margin := 3;
     min_behavior_stop_margin := 3;
     max_negative_velocity := -0.1;
     stop_margin_opposing_traffic := 10;
     effective_deceleration_opposing_traffic := 4;
     enable_approaching_on_curve := false;
     min_stop_margin_on_curve := 3;
     hold_stop_velocity_threshold := 0.01;
     hold_stop_distance_threshold := 0.3;
     obstacle_velocity_threshold_enter_fixed_stop := 3;
     obstacle_velocity_threshold_exit_fixed_stop := 3.5;
     rss_params := rss;
     get_param_type := param_type;
     get_param := type_param |}.

Definition common : CommonParam :=
  {| limit_max_accel := 2; limit_min_accel := -2.5 |}.

Definition node (mask_lat_margin : Q) (suppress : bool) : NodeParameters :=
  {| option_ignore_crossing_obstacle := true;
     option_suppress_sudden_stop := suppress;
     node_common_param := common;
     node_stop_planning_param := stop_planning;
     node_obstacle_filtering_param := filtering;
     pointcloud_mask_lat_margin := mask_lat_margin;
     stop_planning_update_distance_th := 0.5;
     stop_planning_min_off_duration := 1;
     stop_planning_min_on_duration := 0.3 |}.

(** The module as [init] leaves it for a consistent configuration. *)
Definition fresh (suppress : bool) : ObstacleStopModule :=
  match init (node 1 suppress) with
  | Ok m => m
  | Throw _ =>
      {| ignore_crossing_obstacle_ := true;
         suppress_sudden_stop_ := suppress;
         common_param_ := common;
         stop_planning_param_ := stop_planning;
         obstacle_filtering_param_ := filtering;
         path_length_buffer_ := make_buffer 0.5 1 0.3;
         prev_stop_obstacles_ := [];
         prev_closest_stop_obstacles_ := [];
         stop_pointcloud_obstacle_history_ := [];
         prev_stop_distance_info_ := None |}
  end.

(** The ego at the start of the road. *)
Definition ego (v : Q) : PlannerData :=
  {| current_position := pt 0 0;
     current_velocity := v;
     is_driving_forward := true;
     vehicle_info_ := vehicle |}.

Definition obstacle
    (id : string) (lbl : Z) (stamp_ : Time) (at_x at_y vel dist : Q)
    (braking : option Q) : StopObstacle :=
  {| uuid := id;
     stamp := stamp_;
     classification := {| label := lbl; probability := 1 |};
     pose := pt at_x at_y;
     shape := Some BOUNDING_BOX;
     velocity := vel;
     collision_point := pt at_x at_y;
     dist_to_collide_on_decimated_traj := dist;
     braking_dist := braking |}.

(** *** Point-cloud history (history pass) *)

(** A point-cloud obstacle recorded at time 0 at 50 m, now 20 m to the
    side of the trajectory, looked at 0.1 s later. *)
Definition stale_entry : StopObstacle :=
  create_stop_obstacle_for_point_cloud road 0%Z (pt 50 20) 4.

Definition module_with_history : ObstacleStopModule :=
  set_history (fresh false) [stale_entry].

Definition empty_cloud : Pointcloud :=
  {| pointcloud_stamp := 100000000%Z; clusters := [] |}.

(** *** Oncoming and stationary obstacles (plan_stop) *)

Definition oncoming_car : StopObstacle :=
  obstacle "car-1" CAR 0%Z 50 0 (-10) 46 None.

Definition stationary_car : StopObstacle :=
  obstacle "car-2" CAR 0%Z 50 0 0 46 None.

(** A path-length buffer that keeps the stop points [update_buffer] is
    called with, in the order of the calls, and in which no stop is
    active: whether [plan_stop] went through the buffer shows in it,
    whatever the debouncing of the buffer in use. *)
Definition call_record : PathLengthBufferOps :=
  {| PathLengthBuffer := list (option geometry_msgs.Point);
     make_buffer := fun _ _ _ => [];
     update_buffer := fun calls stop_point_ _ _ _ _ => calls ++ [stop_point_];
     get_nearest_active_item := fun _ => None |}.

(** The module of the consistent configuration over that buffer. *)
Definition recording : ObstacleStopModule (PB := call_record) :=
  {| ignore_crossing_obstacle_ := true;
     suppress_sudden_stop_ := false;
     common_param_ := common;
     stop_planning_param_ := stop_planning;
     obstacle_filtering_param_ := filtering;
     path_length_buffer_ := make_buffer (PathLengthBufferOps := call_record) 0.5 1 0.3;
     prev_stop_obstacles_ := [];
     prev_closest_stop_obstacles_ := [];
     stop_pointcloud_obstacle_history_ := [];
     prev_stop_distance_info_ := None |}.

(** Two cars and a pedestrian, the second car the closer one. *)
Definition far_car : StopObstacle := obstacle "car-3" CAR 0%Z 80 0 0 76 None.
Definition near_car : StopObstacle := obstacle "car-4" CAR 0%Z 40 0 0 36 None.
Definition pedestrian : StopObstacle :=
  obstacle "ped-1" PEDESTRIAN 0%Z 60 0 0 56 None.

(** *** Opposing traffic (default margin) *)

(** The ego stands still, an oncoming obstacle is 8 m ahead. *)
Definition oncoming_close : StopObstacle :=
  obstacle "car-5" CAR 0%Z 12 0 (-5) 8 None.

(** The ego reverses at 3 m/s, the obstacle follows it at 1 m/s. *)
Definition following_reversing_ego : StopObstacle :=
  obstacle "car-6" CAR 0%Z 24 0 (-1) 20 None.

(** *** Predicted objects (hysteresis, exceptions) *)

Definition perceived_car (id : string) (vx : Q) : PredictedObject.t :=
  {| PredictedObject.object_id := id;
     PredictedObject.classification := [{| label := CAR; probability := 1 |}];
     PredictedObject.twist_linear_x := vx;
     PredictedObject.twist_linear_y := 0;
     PredictedObject.shape := Some BOUNDING_BOX |}.

(** A car 50 m ahead on the trajectory, driving along it at [v]. *)
Definition car_ahead (v : Q) : RoadObject :=
  {| perceived := perceived_car "car-7" v;
     position := pt 50 0;
     lon_vel := v;
     lat_vel := 0 |}.

(** An object that perception delivered without any classification. *)
Definition unclassified : RoadObject :=
  {| perceived :=
       {| PredictedObject.object_id := "obj-8";
          PredictedObject.classification := [];
          PredictedObject.twist_linear_x := 0;
          PredictedObject.twist_linear_y := 0;
          PredictedObject.shape := Some BOUNDING_BOX |};
     position := pt 50 0;
     lon_vel := 0;
     lat_vel := 0 |}.

(** A car whose shape type is none of the three the message defines. *)
Definition of_unknown_shape : RoadObject :=
  {| perceived :=
       {| PredictedObject.object_id := "obj-10";
          PredictedObject.classification := [{| label := CAR; probability := 1 |}];
          PredictedObject.twist_linear_x := 0;
          PredictedObject.twist_linear_y := 0;
          PredictedObject.shape := None |};
     position := pt 50 0;
     lon_vel := 0;
     lat_vel := 0 |}.

Definition cycle (t : Time) (objs : list RoadObject) : CycleInput :=
  {| now := t;
     odometry_position := pt 0 0;
     odometry_stamp := t;
     predicted_objects_stamp := t;
     traj_points_in := road;
     decimated_traj_points_in := road;
     objects := objs;
     vehicle_info_in := vehicle;
     dist_to_bumper_in := 4 |}.

(** The module after a cycle in which the car ahead caused a fixed stop. *)
Definition module_with_fixed_stop : ObstacleStopModule :=
  set_prev_obstacles (fresh false)
    [obstacle "car-7" CAR 0%Z 50 0 2.9 46 None]
    [obstacle "car-7" CAR 0%Z 50 0 2.9 46 None].

(** The first cycle sees the car at 3.6 m/s, above the exit threshold. *)
Definition first_cycle : CycleInput := cycle 100000000%Z [car_ahead 3.6].

Definition after_first_cycle : ObstacleStopModule :=
  match filter_stop_obstacle_for_predicted_object module_with_fixed_stop
          first_cycle with
  | Ok r => fst r
  | Throw _ => module_with_fixed_stop
  end.

Definition first_cycle_obstacles : list StopObstacle :=
  match filter_stop_obstacle_for_predicted_object module_with_fixed_stop
          first_cycle with
  | Ok r => snd r
  | Throw _ => []
  end.

(** *** Hysteresis without RSS stops *)

Definition without_rss : RSSParam :=
  {| use_rss_stop := false;
     two_wheel_objects_deceleration := -5;
     vehicle_objects_deceleration := -6;
     no_wheel_objects_deceleration := -10;
     velocity_offset := 1 |}.

Definition stop_planning_without_rss : StopPlanningParam :=
  {| stop_margin := 5;
     terminal_stop_margin := 3;
     min_behavior_stop_margin := 3;
     max_negative_velocity := -0.1;
     stop_margin_opposing_traffic := 10;
     effective_deceleration_opposing_traffic := 4;
     enable_approaching_on_curve := false;
     min_stop_margin_on_curve := 3;
     hold_stop_velocity_threshold := 0.01;
     hold_stop_distance_threshold := 0.3;
     obstacle_velocity_threshold_enter_fixed_stop := 3;
     obstacle_velocity_threshold_exit_fixed_stop := 3.5;
     rss_params := without_rss;
     get_param_type := param_type;
     get_param := type_param |}.

Definition node_without_rss : NodeParameters :=
  {| option_ignore_crossing_obstacle := true;
     option_suppress_sudden_stop := false;
     node_common_param := common;
     node_stop_planning_param := stop_planning_without_rss;
     node_obstacle_filtering_param := filtering;
     pointcloud_mask_lat_margin := 1;
     stop_planning_update_distance_th := 0.5;
     stop_planning_min_off_duration := 1;
     stop_planning_min_on_duration := 0.3 |}.

(** The module as [init] leaves it with RSS stops switched off. *)
Definition fresh_without_rss : ObstacleStopModule :=
  {| ignore_crossing_obstacle_ := true;
     suppress_sudden_stop_ := false;
     common_param_ := common;
     stop_planning_param_ := stop_planning_without_rss;
     obstacle_filtering_param_ := filtering;
     path_length_buffer_ := make_buffer 0.5 1 0.3;
     prev_stop_obstacles_ := [];
     prev_closest_stop_obstacles_ := [];
     stop_pointcloud_obstacle_history_ := [];
     prev_stop_distance_info_ := None |}.

(** The car 50 m ahead heads across the road: its twist has a
    [linear.x] of 2 m/s, its velocity along the trajectory is [v]. *)
Definition drifting_car (v : Q) : RoadObject :=
  {| perceived := perceived_car "car-7" 2;
     position := pt 50 0;
     lon_vel := v;
     lat_vel := 0 |}.

(** The module as the predicted-object filter leaves it. *)
Definition module_after
    (m : ObstacleStopModule) (c : CycleInput) : ObstacleStopModule :=
  match filter_stop_obstacle_for_predicted_object m c with
  | Ok r => fst r
  | Throw _ => m
  end.

(** Cycles 0.1 s apart see the car at 2.9, 3.6 and 3.4 m/s. *)
Definition drift_cycle_0 : CycleInput := cycle 0%Z [drifting_car 2.9].
Definition drift_cycle_1 : CycleInput := cycle 100000000%Z [drifting_car 3.6].
Definition drift_cycle_2 : CycleInput := cycle 200000000%Z [drifting_car 3.4].

(** The record the car leaves when it causes a fixed stop at 2.9 m/s. *)
Definition fixed_stop_record : StopObstacle :=
  obstacle "car-7" CAR 0%Z 50 0 2.9 46 None.

Definition module_without_rss : ObstacleStopModule :=
  module_after fresh_without_rss drift_cycle_0.
Definition after_drift_1 : ObstacleStopModule :=
  module_after module_without_rss drift_cycle_1.
Definition after_drift_2 : ObstacleStopModule :=
  module_after after_drift_1 drift_cycle_2.

(** A bicycle and a pedestrian close ahead of an ego driving at 5 m/s. *)
Definition bicycle_close : StopObstacle :=
  obstacle "bike-1" BICYCLE 0%Z 12 0 0 8 None.
Definition pedestrian_close : StopObstacle :=
  obstacle "ped-2" PEDESTRIAN 0%Z 12 0 0 8 None.

(** A pedestrian and a bicycle for the estimation time. *)
Definition perceived_as (lbl : Z) (vx vy : Q) : PredictedObject.t :=
  {| PredictedObject.object_id := "obj-9";
     PredictedObject.classification := [{| label := lbl; probability := 1 |}];
     PredictedObject.twist_linear_x := vx;
     PredictedObject.twist_linear_y := vy;
     PredictedObject.shape := Some CYLINDER |}.

End Scenario.

(** A lanelet whose left bound starts 2 m before its centerline, and one
    with straight parallel bounds of the centerline's length. *)
Module LaneScenario.
Import StraightLane.

Definition seg (a b h : Q) : Segment := {| x_from := a; x_to := b; y_of := h |}.

Definition long_left_bound : Lanelet :=
  {| center := seg 0 10 0; left_bound := seg (-2) 10 1; right_bound := seg 0 10 (-1) |}.

(** Both bounds as long as the centerline, the left one shifted by 2 m
    along the lane. *)
Definition sheared : Lanelet :=
  {| center := seg 0 10 0; left_bound := seg 2 12 1; right_bound := seg 0 10 (-1) |}.

Definition rectangular (a b : Q) : Lanelet :=
  {| center := seg a b 0; left_bound := seg a b 1; right_bound := seg a b (-1) |}.

Definition line_along_x : list geometry_msgs.Point :=
  [StraightRoad.pt 0 0; StraightRoad.pt 5 0; StraightRoad.pt 10 0].

End LaneScenario.

(** ** Further scenarios on the straight road *)

Module FurtherScenario.
Import Cxx ObstacleStop ObstacleStopCrossing StraightRoad Scenario.

(** *** Point-cloud history *)

(** A point-cloud obstacle recorded 0.1 s ago on the trajectory at 50 m. *)
Definition held_entry : StopObstacle :=
  create_stop_obstacle_for_point_cloud road 1900000000%Z (pt 50 0) 4.

(** A history looked at at 2 s: its first entry is 2 s old, its second
    0.1 s. *)
Definition module_with_two_entries : ObstacleStopModule :=
  set_history (fresh false) [stale_entry; held_entry].

Definition later_cloud : Pointcloud :=
  {| pointcloud_stamp := 2000000000%Z; clusters := [] |}.

(** *** Sorting by insertion *)

Fixpoint insert_sorted {A : Type} (comp : A -> A -> bool) (a : A) (l : list A)
    : list A :=
  match l with
  | [] => [a]
  | b :: rest => if comp a b then a :: l else b :: insert_sorted comp a rest
  end.

Definition insertion_sort {A : Type} (comp : A -> A -> bool) (l : list A)
    : list A :=
  fold_right (insert_sorted comp) [] l.

#[export] Instance sort_by_insertion : StdSort :=
  {| std_sort := @insertion_sort |}.

(** *** Predicted paths *)

(** A path that leaves the road sideways at 50 m, one pose per metre. *)
Definition sideways_path (confidence_ : Q) (poses : nat) : PredictedPath :=
  {| confidence := confidence_;
     path := map (fun k => pt 50 (inject_Z (Z.of_nat k))) (seq 0 poses) |}.

(** Paths that are sampled as wanted already. *)
Definition resample_as_is (p : PredictedPath) (time_interval time_horizon : Q)
    : PredictedPath := p.

(** No pose is interpolated: the last pose of the path is taken. *)
Definition no_interpolated_pose (p : PredictedPath) (t : Q)
    : option geometry_msgs.Point := None.

Definition arc_length_along_x
    (t : list TrajectoryPoint) (a b : geometry_msgs.Point) : Q :=
  geometry_msgs.x b - geometry_msgs.x a.

Definition crossing : CrossingParam :=
  {| crossing_obstacle_collision_time_margin := 1;
     crossing_obstacle_traj_angle_threshold := 0.1;
     min_velocity_to_reach_collision_point := 1;
     outside_max_lateral_velocity := 5 |}.

(** The ego at the start of the road, driving at 5 m/s. *)
Definition odometry_at_start : Odometry :=
  {| odometry_position_ := pt 0 0; odometry_linear_x := 5 |}.

(** An object at 50 m, heading across the road at 1.5 rad. *)
Definition heading_across (t : list TrajectoryPoint) (o : RoadObject) : Q := 1.5.

(** Its most confident path leads off the road; a less confident one
    stays. *)
Definition paths_leaving (o : RoadObject) : list PredictedPath :=
  [ {| confidence := 0.2; path := [pt 50 0; pt 50 0] |}; sideways_path 0.8 6 ].

(** The polygons of the road with a lateral margin of 0.3 m. *)
Definition road_polygons : list Footprint :=
  create_one_step_polygons road vehicle (pt 0 0) 0.3.

(** The obstacle crosses between 10 s and 12 s from now. *)
Definition crossing_points : list PointWithStamp :=
  [ {| point := pt 50 0; point_stamp := 10000000000%Z |};
    {| point := pt 50 1; point_stamp := 12000000000%Z |} ].

End FurtherScenario.

(** A trajectory on the x axis to extend, and a polygon to measure. *)
Module CommonUtilsScenario.
Import Cxx PlannerCommonUtils.

(** Poses on the x axis: the offset along the heading adds to [x]. *)
#[export] Instance poses_on_x_axis : PoseGeometry :=
  {| Pose := Q;
     calc_offset_pose := fun pose_ dx _ _ => pose_ + dx |}.

Definition point_at (at_x : Q) : TrajectoryPoint :=
  {| pose := at_x;
     longitudinal_velocity_mps := 3;
     lateral_velocity_mps := 0;
     acceleration_mps2 := 0 |}.

Definition always_forward (points : list TrajectoryPoint) : option bool :=
  Some true.

(** A triangle with a corner 5 m from the center. *)
Definition triangle : Shape :=
  {| type := Some ObstacleStop.POLYGON;
     dimensions_x := 0;
     dimensions_y := 0;
     footprint := [StraightRoad.pt 3 4; StraightRoad.pt (-1) 0;
                   StraightRoad.pt 0 (-2)] |}.

End CommonUtilsScenario.

(** A route of four straight lanelets of 10 m, one after the other. *)
Module RouteScenario.
Import Cxx PathGenerator PathGeneratorRoute StraightLane LaneScenario.

#[export] Instance chain_of_lanelets : RoutingGraph lanelet2 :=
  {| lanelet_eqb :=
       fun a b => Qeq_bool (x_from (center a)) (x_from (center b));
     lanelet_id := fun l => Qfloor (x_from (center l));
     previous :=
       fun l => [rectangular (x_from (center l) - 10) (x_from (center l))];
     following :=
       fun l => [rectangular (x_to (center l)) (x_to (center l) + 10)] |}.

Definition route : PlannerData :=
  {| route_lanelets :=
       [rectangular 0 10; rectangular 10 20; rectangular 20 30;
        rectangular 30 40];
     preferred_lanelets :=
       [rectangular 0 10; rectangular 10 20; rectangular 20 30;
        rectangular 30 40];
     start_lanelets := [rectangular 0 10];
     goal_lanelets := [rectangular 30 40] |}.

(** The node keeps running. *)
Definition running (k : nat) : bool := true.

End RouteScenario.

(** Paths beside a straight lanelet, and a path along two lanelets. *)
Module GoalScenario.
Import Cxx PathGenerator PathGeneratorGoal PathGeneratorPath.
Import StraightLane LaneScenario.

(** A straight path from the origin that runs at a lateral offset from
    the x axis. *)
Record OffsetPath : Type := { path_length : Q; lateral_offset : Q }.

(** A lanelet reaches 1 m to each side of its centerline.  Connecting
    to the goal over more than 0.25 m leaves the lanelet by 2 m. *)
#[export] Instance offset_paths : PathTrajectory lanelet2 :=
  {| Path := OffsetPath;
     Pose := Q * Q;
     length := path_length;
     compute_pose := fun p s => (s, lateral_offset p);
     align_orientation_with_trajectory_direction := fun p => p;
     isInLanelet :=
       fun pose_ l =>
         leb (x_from (center l)) (fst pose_)
         && leb (fst pose_) (x_to (center l))
         && leb (Qabs (snd pose_)) 1;
     connect_path_to_goal :=
       fun p _ _ m _ =>
         {| path_length := path_length p;
            lateral_offset := if gtb m 0.25 then 2 else 0 |} |}.

Definition short_path : OffsetPath :=
  {| path_length := 0.5; lateral_offset := 0 |}.

#[export] Instance points_along_x : PathGeometry lanelet2 :=
  {| id := fun l => Qfloor (x_from (center l));
     calc_distance2d :=
       fun a b => Qabs (geometry_msgs.x (position b)
                        - geometry_msgs.x (position a));
     basicPoint2d := fun p => (geometry_msgs.x p, geometry_msgs.y p);
     toArcCoordinates_length_on_points :=
       fun points p =>
         match points with
         | [] => 0
         | first :: _ => fst p - fst first
         end |}.

Definition path_point (lane : Z) (at_x : Q) : PathPointWithLaneId :=
  {| lane_ids := [lane]; position := StraightRoad.pt at_x 0 |}.

(** Two points on the lanelet from 0 m, two on the lanelet from 10 m. *)
Definition path_along_two_lanelets : list PathPointWithLaneId :=
  [path_point 0 0; path_point 0 5; path_point 10 10; path_point 10 15].

End GoalScenario.

(** The polygons of the straight road, whatever the flags. *)
Module CacheScenario.
Import Cxx ObstacleStop StraightRoad Scenario.

Definition polygons_of
    (t : list TrajectoryPoint) (vi : VehicleInfo) (ego_pose : geometry_msgs.Point)
    (lat_margin : Q) (enable_to_consider_current_pose : bool)
    (time_to_convergence decimate_trajectory_step_length : Q)
    : list Footprint :=
  create_one_step_polygons t vi ego_pose lat_margin.

(** The road cut to its first 20 m. *)
Definition short_road : list TrajectoryPoint := firstn 3 road.

End CacheScenario.

(* ================================================================== *)
(** * Part II -- properties                                            *)
(* ================================================================== *)

Unset Implicit Arguments.

(** ** Comparisons, [std::max], [std::min] and [std::clamp] *)

Module CxxFacts.
Import Cxx.

Lemma ltb_spec (a b : Q) : reflect (a < b) (ltb a b).
Proof. unfold ltb. destruct (Qlt_le_dec a b); constructor; lra. Qed.

Lemma leb_spec (a b : Q) : reflect (a <= b) (leb a b).
Proof. unfold leb. destruct (Qlt_le_dec b a); constructor; lra. Qed.

Lemma gtb_spec (a b : Q) : reflect (b < a) (gtb a b).
Proof. unfold gtb. apply ltb_spec. Qed.

Lemma geb_spec (a b : Q) : reflect (b <= a) (geb a b).
Proof. unfold geb. apply leb_spec. Qed.

Lemma ltb_true (a b : Q) : ltb a b = true <-> a < b.
Proof. destruct (ltb_spec a b); split; intros; try easy; lra. Qed.

Lemma ltb_false (a b : Q) : ltb a b = false <-> b <= a.
Proof. destruct (ltb_spec a b); split; intros; try easy; lra. Qed.

Lemma leb_true (a b : Q) : leb a b = true <-> a <= b.
Proof. destruct (leb_spec a b); split; intros; try easy; lra. Qed.

Lemma leb_false (a b : Q) : leb a b = false <-> b < a.
Proof. destruct (leb_spec a b); split; intros; try easy; lra. Qed.

Lemma std_max_cases (a b : Q) :
  (a < b /\ std_max a b = b) \/ (b <= a /\ std_max a b = a).
Proof. unfold std_max. destruct (ltb_spec a b); [left | right]; split; auto; lra. Qed.

Lemma std_min_cases (a b : Q) :
  (b < a /\ std_min a b = b) \/ (a <= b /\ std_min a b = a).
Proof. unfold std_min. destruct (ltb_spec b a); [left | right]; split; auto; lra. Qed.

Lemma std_max_lub (a b : Q) : a <= std_max a b /\ b <= std_max a b.
Proof. destruct (std_max_cases a b) as [[H ->] | [H ->]]; lra. Qed.

Lemma std_min_glb (a b : Q) : std_min a b <= a /\ std_min a b <= b.
Proof. destruct (std_min_cases a b) as [[H ->] | [H ->]]; lra. Qed.

Lemma std_clamp_bounds (v lo hi : Q) :
  lo <= hi -> lo <= std_clamp v lo hi <= hi.
Proof.
  intros Hb. unfold std_clamp.
  destruct (std_max_cases v lo) as [[H1 ->] | [H1 ->]];
    destruct (std_min_cases lo hi) as [[H2 E2] | [H2 E2]];
    destruct (std_min_cases v hi) as [[H3 E3] | [H3 E3]];
    rewrite ?E2, ?E3; lra.
Qed.

Lemma x_clamp_bounds (v : xdouble) (lo hi : Q) :
  lo <= hi -> lo <= x_clamp v lo hi <= hi.
Proof.
  intros Hb. destruct v as [q |]; simpl.
  - now apply std_clamp_bounds.
  - lra.
Qed.

End CxxFacts.

(** ** The obstacle-stop module *)

Module ObstacleStopProofs.
Import Cxx CxxFacts ObstacleStop.

Section Properties.
Context {CM : Cmath} {MU : MotionUtils} {PB : PathLengthBufferOps}
        {PO : PlannerObjects MU} {CG : CurveGeometry MU}.

(** *** Estimation time *)

(** C10.  For a predicted object whose first classification label is not
    among the outside stop-object types, [calc_estimation_time] returns
    exactly 0.  For a pedestrian or a bicycle among them the result lies
    in [0, outside_estimation_time_horizon] (the horizon being
    non-negative, as [std::clamp] requires); it is the clamped value of
    v / (2 * deceleration) for a deceleration above the machine epsilon,
    and the full horizon for a non-positive deceleration: no division
    takes place there. *)
Theorem calc_estimation_time_spec
    (po : PredictedObject.t) (p : ObstacleFilteringParam)
    (c0 : ObjectClassification) (rest : list ObjectClassification) :
  PredictedObject.classification po = c0 :: rest ->
  let speed := hypot (PredictedObject.twist_linear_x po)
                     (PredictedObject.twist_linear_y po) in
  let horizon := outside_estimation_time_horizon p in
  (is_in_vector (label c0) (outside_stop_object_types p) = false ->
   calc_estimation_time po p = Ok 0)
  /\ (is_in_vector (label c0) (outside_stop_object_types p) = true ->
      label c0 = PEDESTRIAN \/ label c0 = BICYCLE ->
      0 <= horizon ->
      exists t, calc_estimation_time po p = Ok t /\ 0 <= t <= horizon)
  /\ (is_in_vector (label c0) (outside_stop_object_types p) = true ->
      (label c0 = PEDESTRIAN ->
       (outside_pedestrian_deceleration p <= 0 ->
        calc_estimation_time po p = Ok horizon)
       /\ (epsilon < outside_pedestrian_deceleration p ->
           calc_estimation_time po p
           = Ok (std_clamp (speed * 0.5 / outside_pedestrian_deceleration p)
                           0 horizon)))
      /\ (label c0 = BICYCLE ->
          (outside_bicycle_deceleration p <= 0 ->
           calc_estimation_time po p = Ok horizon)
          /\ (epsilon < outside_bicycle_deceleration p ->
              calc_estimation_time po p
              = Ok (std_clamp (speed * 0.5 / outside_bicycle_deceleration p)
                              0 horizon)))).
Proof.
  intros Hc speed horizon. unfold calc_estimation_time. rewrite Hc.
  assert (Heps : 0 < epsilon) by (unfold epsilon; reflexivity).
  split; [| split].
  - intros ->. reflexivity.
  - intros -> Hl Hh. simpl.
    destruct Hl as [-> | ->]; simpl; eexists; (split; [reflexivity |]);
      apply x_clamp_bounds; exact Hh.
  - intros ->. simpl. split; intros ->; simpl; unfold equivalent_estimation_time.
    + split; intros Hd.
      * destruct (leb_spec (outside_pedestrian_deceleration p) epsilon);
          [reflexivity | lra].
      * destruct (leb_spec (outside_pedestrian_deceleration p) epsilon);
          [lra | reflexivity].
    + split; intros Hd.
      * destruct (leb_spec (outside_bicycle_deceleration p) epsilon);
          [reflexivity | lra].
      * destruct (leb_spec (outside_bicycle_deceleration p) epsilon);
          [lra | reflexivity].
Qed.

(** *** Start-up and per-cycle exceptions *)

Lemma pick_stop_obstacle_throws_out_of_range
    (m : ObstacleStopModule) (c : CycleInput) (o : Object) (d : Q)
    (e : exception) :
  pick_stop_obstacle_from_predicted_object m c o d = Throw e ->
  e = out_of_range
  /\ PredictedObject.classification (predicted_object o) = [].
Proof.
  unfold pick_stop_obstacle_from_predicted_object, calc_estimation_time.
  destruct (PredictedObject.classification (predicted_object o)) as [| c0 cs].
  - intros [= <-]. auto.
  - repeat match goal with
           | |- context [if ?b then _ else _] => destruct b
           | |- context [match ?x with Some _ => _ | None => _ end] => destruct x
           end; discriminate.
Qed.

Lemma calc_possible_min_dist_from_obj_to_traj_poly_cases
    (o : Object) (traj_points : TrajectoryPoints) (vehicle_info : VehicleInfo) :
  (PredictedObject.shape (predicted_object o) = None
   /\ calc_possible_min_dist_from_obj_to_traj_poly o traj_points vehicle_info
      = Throw (logic_error
                 "The shape type is not supported in motion_velocity_planner_common."))
  \/ (PredictedObject.shape (predicted_object o) <> None
      /\ calc_possible_min_dist_from_obj_to_traj_poly o traj_points vehicle_info
         = Ok (possible_min_dist_from_obj_to_traj_poly o traj_points
                 vehicle_info)).
Proof.
  unfold calc_possible_min_dist_from_obj_to_traj_poly.
  destruct (PredictedObject.shape (predicted_object o));
    [right; split; [discriminate | reflexivity] | left; split; reflexivity].
Qed.

(** What the loop throws is the exception of the first object that does
    not pass. *)
Lemma pick_stop_obstacles_throws
    (m : ObstacleStopModule) (c : CycleInput) (objs : list Object)
    (e : exception) :
  pick_stop_obstacles m c objs = Throw e ->
  exists before o after,
    objs = before ++ o :: after
    /\ (forall b, In b before -> passes_without_error c b)
    /\ throws_at c o e.
Proof.
  induction objs as [| o objs IH]; simpl; [discriminate |].
  assert (Hrest : passes_without_error c o ->
                  pick_stop_obstacles m c objs = Throw e ->
                  exists before x after,
                    o :: objs = before ++ x :: after
                    /\ (forall b, In b before -> passes_without_error c b)
                    /\ throws_at c x e).
  { intros Ho H. destruct (IH H) as (before & x & after & -> & Hb & Hx).
    exists (o :: before), x, after. split; [reflexivity |].
    split; [| exact Hx]. intros b [<- | Hin]; [exact Ho | now apply Hb]. }
  destruct (ltb_spec (get_dist_from_ego_longitudinal o (traj_points_in c)
                        (odometry_position c)) 0) as [Hbehind | Hfront].
  { apply Hrest. now left. }
  assert (Hf : 0 <= get_dist_from_ego_longitudinal o (traj_points_in c)
                      (odometry_position c)) by lra.
  destruct (calc_possible_min_dist_from_obj_to_traj_poly_cases o
              (traj_points_in c) (vehicle_info_in c)) as [[Hs ->] | [Hs ->]].
  { intros [= <-]. exists [], o, objs. split; [reflexivity |].
    split; [intros b [] |]. split; [exact Hf | left; now split]. }
  destruct (PredictedObject.classification (predicted_object o))
    as [| c0 cs] eqn:Ec.
  { intros [= <-]. exists [], o, objs. split; [reflexivity |].
    split; [intros b [] |]. split; [exact Hf | right; now repeat split]. }
  assert (Ho : passes_without_error c o).
  { right. split; [exact Hs |]. rewrite Ec. discriminate. }
  destruct (ltb _ _); [now apply Hrest |].
  destruct (pick_stop_obstacle_from_predicted_object _ _ _ _) eqn:Ep.
  - destruct (pick_stop_obstacles m c objs) eqn:Er; [discriminate |].
    intros [= <-]. now apply Hrest.
  - intros [= <-].
    apply pick_stop_obstacle_throws_out_of_range in Ep as [_ Hp].
    congruence.
Qed.

(** The loop throws whenever some object does not pass. *)
Lemma pick_stop_obstacles_raises
    (m : ObstacleStopModule) (c : CycleInput) (objs : list Object) :
  (exists o, In o objs /\ ~ passes_without_error c o) ->
  raises (pick_stop_obstacles m c objs) = true.
Proof.
  induction objs as [| o objs IH]; simpl; [intros (? & [] & _) |].
  intros (x & Hx & Hnot).
  assert (Hrest : passes_without_error c o ->
                  raises (pick_stop_obstacles m c objs) = true).
  { intros Ho. apply IH. exists x. split; [| exact Hnot].
    destruct Hx as [<- | Hx]; [contradiction | exact Hx]. }
  destruct (ltb_spec (get_dist_from_ego_longitudinal o (traj_points_in c)
                        (odometry_position c)) 0) as [Hbehind | Hfront].
  { apply Hrest. now left. }
  destruct (calc_possible_min_dist_from_obj_to_traj_poly_cases o
              (traj_points_in c) (vehicle_info_in c)) as [[Hs ->] | [Hs ->]];
    [reflexivity |].
  destruct (PredictedObject.classification (predicted_object o))
    as [| c0 cs] eqn:Ec; [reflexivity |].
  assert (Ho : passes_without_error c o).
  { right. split; [exact Hs |]. rewrite Ec. discriminate. }
  specialize (Hrest Ho).
  destruct (ltb _ _); [exact Hrest |].
  destruct (pick_stop_obstacle_from_predicted_object _ _ _ _) eqn:Ep.
  - destruct (pick_stop_obstacles m c objs); [discriminate | reflexivity].
  - reflexivity.
Qed.


(** *** Sudden-stop suppression *)


(** *** Opposing traffic *)

Lemma Qdiv_nonpos_num (a b : Q) : 0 < b -> a / b <= 0 -> a <= 0.
Proof.
  intros Hb H. assert (E : a == a / b * b) by (field; lra).
  rewrite E. nra.
Qed.

(** C6 (as amended).  For an obstacle whose velocity is below the
    oncoming threshold and which the ego closes in on (the relative
    velocity is positive and not degenerate), whenever the coasting
    time clamps to 0 the default stop margin is at most the configured
    opposing-traffic stop margin, reduced by the distance the obstacle
    covers while the ego brakes; it is at most the plain default stop
    margin when the opposing-traffic margin is.  The effective
    deceleration, by which the model divides, is taken positive.  For a
    degenerate relative velocity the default stop margin is the plain
    one. *)
Theorem default_stop_margin_coast_zero
    (m : ObstacleStopModule) (planner_data : PlannerData)
    (traj_points : TrajectoryPoints) (stop_obstacle : StopObstacle)
    (dist_to_collide_on_ref_traj : Q) :
  let sp := stop_planning_param_ m in
  let v_ego := current_velocity planner_data in
  let v_obs := velocity stop_obstacle in
  let margin :=
    default_stop_margin m planner_data traj_points stop_obstacle
      dist_to_collide_on_ref_traj in
  v_obs < max_negative_velocity sp ->
  (std_abs (v_ego - v_obs) <= 0.000001 -> margin = stop_margin sp)
  /\ (0 < effective_deceleration_opposing_traffic sp ->
      0.000001 < v_ego - v_obs ->
      T_coast sp v_ego stop_obstacle == 0 ->
      margin
      <= stop_margin_opposing_traffic sp
         - std_abs (v_obs * (v_ego / effective_deceleration_opposing_traffic sp))
      /\ margin <= stop_margin_opposing_traffic sp
      /\ (stop_margin_opposing_traffic sp <= stop_margin sp ->
          margin <= stop_margin sp)).
Proof.
  intros sp v_ego v_obs margin Hobs. split.
  - intros Hdeg. subst margin sp v_ego v_obs. unfold default_stop_margin.
    match goal with
    | |- context [ltb ?a ?b] => destruct (ltb_spec a b); [| lra]
    end.
    match goal with
    | |- context [leb ?a ?b] => destruct (leb_spec a b); [reflexivity | lra]
    end.
  - intros _ Hrel HT.
    assert (Hsolved : solved_coasting_time sp v_ego stop_obstacle <= 0).
    { unfold T_coast in HT.
      destruct (std_max_cases (solved_coasting_time sp v_ego stop_obstacle) 0)
        as [[H _] | [H E]]; [lra | rewrite E in HT; lra]. }
    unfold solved_coasting_time in Hsolved. fold v_obs in Hsolved.
    apply Qdiv_nonpos_num in Hsolved; [| lra].
    pose proof (Qabs_nonneg
                  (v_obs * (v_ego / effective_deceleration_opposing_traffic sp)))
      as Habs.
    unfold std_abs in *.
    assert (Hm : margin
                 == dist_to_collide_on_decimated_traj stop_obstacle
                    - v_ego * v_ego
                      / (2 * effective_deceleration_opposing_traffic sp)).
    { subst margin sp v_ego v_obs. unfold default_stop_margin.
      match goal with
      | |- context [ltb ?a ?b] => destruct (ltb_spec a b); [| lra]
      end.
      match goal with
      | |- context [leb ?a ?b] => destruct (leb_spec a b) as [Hle | _]
      end.
      - unfold std_abs in Hle. rewrite Qabs_pos in Hle by lra. lra.
      - rewrite HT. lra. }
    rewrite Hm. repeat split; intros; lra.
Qed.

(** *** The history pass of the point-cloud filter *)

(** A loop state that the body maps to itself is never left. *)
Lemma history_loop_stuck
    (m : ObstacleStopModule) (odom_time : Time)
    (traj_points decimated_traj_points : TrajectoryPoints)
    (decimated_traj_polys : list Polygon2d) (vehicle_info : VehicleInfo)
    (dist_to_bumper : Q) (st : HistoryLoop) :
  history_loop_step m odom_time traj_points decimated_traj_points
    decimated_traj_polys vehicle_info dist_to_bumper st = Some st ->
  forall fuel,
    history_loop fuel m odom_time traj_points decimated_traj_points
      decimated_traj_polys vehicle_info dist_to_bumper st = None.
Proof.
  intros Hstep fuel. induction fuel as [| fuel IH]; simpl.
  - reflexivity.
  - rewrite Hstep. exact IH.
Qed.

(** An entry younger than the hold time whose collision point fails
    the rough lateral test leaves the loop state as it is: the
    iterator is neither advanced nor the entry erased. *)
Lemma history_loop_step_outside_margin
    (m : ObstacleStopModule) (odom_time : Time)
    (traj_points decimated_traj_points : TrajectoryPoints)
    (decimated_traj_polys : list Polygon2d) (vehicle_info : VehicleInfo)
    (dist_to_bumper : Q) (st : HistoryLoop) (entry : StopObstacle) :
  nth_error (history st) (itr st) = Some entry ->
  seconds_between odom_time (stamp entry)
  < stop_obstacle_hold_time_threshold (obstacle_filtering_param_ m) ->
  max_lat_margin (obstacle_filtering_param_ m)
  <= min_lat_dist_to_traj_poly traj_points vehicle_info (collision_point entry) ->
  history_loop_step m odom_time traj_points decimated_traj_points
    decimated_traj_polys vehicle_info dist_to_bumper st = Some st.
Proof.
  intros Hn Hage Hlat. unfold history_loop_step. rewrite Hn.
  destruct (geb_spec (seconds_between odom_time (stamp entry))
              (stop_obstacle_hold_time_threshold (obstacle_filtering_param_ m)));
    [lra |].
  destruct (geb_spec
              (min_lat_dist_to_traj_poly traj_points vehicle_info
                 (collision_point entry))
              (max_lat_margin (obstacle_filtering_param_ m)));
    [reflexivity | lra].
Qed.

Lemma erase_length {A : Type} (i : nat) (l : list A) :
  (i < List.length l)%nat -> List.length (erase i l) = (List.length l - 1)%nat.
Proof.
  intros Hi. unfold erase.
  rewrite length_app, length_firstn, length_skipn. lia.
Qed.

Lemma erase_In {A : Type} (i : nat) (l : list A) (a : A) :
  In a (erase i l) -> In a l.
Proof.
  unfold erase. intros H. apply in_app_or in H as [H | H].
  - rewrite <- (firstn_skipn i l). apply in_or_app. now left.
  - rewrite <- (firstn_skipn (S i) l). apply in_or_app. now right.
Qed.

(** The loop exits when no entry is both younger than the hold time and
    outside one of the lateral margins: every step then erases an entry
    or advances the iterator. *)
Lemma history_loop_exits_without_stale_entry
    (m : ObstacleStopModule) (odom_time : Time)
    (traj_points decimated_traj_points : TrajectoryPoints)
    (decimated_traj_polys : list Polygon2d) (vehicle_info : VehicleInfo)
    (dist_to_bumper : Q) (n : nat) :
  forall st,
    (List.length (history st) - itr st <= n)%nat ->
    (forall entry, In entry (history st) ->
       geb (seconds_between odom_time (stamp entry))
           (stop_obstacle_hold_time_threshold (obstacle_filtering_param_ m)) = true
       \/ (geb (min_lat_dist_to_traj_poly traj_points vehicle_info
                  (collision_point entry))
               (max_lat_margin (obstacle_filtering_param_ m)) = false
           /\ x_geb (get_dist_to_traj_poly (collision_point entry)
                       decimated_traj_polys)
                    (max_lat_margin (obstacle_filtering_param_ m)) = false)) ->
    exists st',
      history_loop (S n) m odom_time traj_points decimated_traj_points
        decimated_traj_polys vehicle_info dist_to_bumper st = Some st'.
Proof.
  induction n as [| n IH]; intros st Hn Hall.
  - simpl. unfold history_loop_step.
    assert (E : nth_error (history st) (itr st) = None)
      by (apply nth_error_None; lia).
    rewrite E. eauto.
  - cbn [history_loop]. unfold history_loop_step at 1.
    destruct (nth_error (history st) (itr st)) as [entry |] eqn:E; [| eauto].
    assert (Hlt : (itr st < List.length (history st))%nat)
      by (apply nth_error_Some; congruence).
    destruct (Hall entry (nth_error_In _ _ E)) as [Hold | [Hlat Hpoly]].
    + rewrite Hold. apply IH; simpl.
      * rewrite erase_length by exact Hlt. lia.
      * intros e He. apply Hall. now apply erase_In in He.
    + destruct (geb (seconds_between odom_time (stamp entry)) _).
      * apply IH; simpl.
        -- rewrite erase_length by exact Hlt. lia.
        -- intros e He. apply Hall. now apply erase_In in He.
      * rewrite Hlat, Hpoly. apply IH; simpl; [lia | exact Hall].
Qed.

(** *** The velocity branch of [plan_stop] *)

(** C3 (as amended).  In a cycle in which a stop obstacle is determined:
    if the determined obstacle's velocity is at or above
    [max_negative_velocity], [plan_stop] returns the stop point as
    computed and leaves the path-length buffer as it is; if the velocity
    is below [max_negative_velocity] (a fast oncoming obstacle), the
    computed stop point is fed into the path-length buffer, the updated
    buffer is stored, and the stop point of the buffer's nearest active
    item is returned, or none if the buffer holds no active item. *)
Theorem plan_stop_velocity_branch
    (m : ObstacleStopModule) (clock_now : Time) (planner_data : PlannerData)
    (traj_points : TrajectoryPoints) (stop_obstacles : list StopObstacle)
    (dist_to_bumper : Q) (d : Determined) :
  stop_obstacles <> [] ->
  determine_stop m planner_data traj_points stop_obstacles dist_to_bumper
  = Some d ->
  let computed :=
    calc_stop_point m traj_points
      (hold_previous_stop_if_necessary m planner_data traj_points
         (determined_zero_vel_dist d)) in
  let buffer :=
    update_buffer (path_length_buffer_ (fst computed)) (snd computed)
      (fun point => calcSignedArcLength_idx_point traj_points 0 point)
      clock_now (determined_obstacle d) (determined_margin d) in
  (max_negative_velocity (stop_planning_param_ m)
   <= velocity (determined_obstacle d) ->
   plan_stop m clock_now planner_data traj_points stop_obstacles dist_to_bumper
   = computed)
  /\ (velocity (determined_obstacle d)
      < max_negative_velocity (stop_planning_param_ m) ->
      plan_stop m clock_now planner_data traj_points stop_obstacles
        dist_to_bumper
      = (set_path_length_buffer (fst computed) buffer,
         option_map stop_point (get_nearest_active_item buffer))).
Proof.
  intros Hne Hd computed buffer. subst buffer computed.
  unfold plan_stop. destruct stop_obstacles as [| so sos]; [congruence |].
  rewrite Hd.
  destruct (calc_stop_point m traj_points _) as [m1 sp] eqn:Ec. simpl.
  split; intros Hv.
  - destruct (geb_spec (velocity (determined_obstacle d))
                (max_negative_velocity (stop_planning_param_ m)));
      [reflexivity | lra].
  - destruct (geb_spec (velocity (determined_obstacle d))
                (max_negative_velocity (stop_planning_param_ m)));
      [lra |].
    destruct (get_nearest_active_item _); reflexivity.
Qed.

(** *** The closest obstacle of each label *)

Local Abbreviation lbl c := (label (classification c)).

Lemma update_candidates_In (so : StopObstacle) (cs : list StopObstacle) x :
  In x (update_candidates so cs) -> x = so \/ In x cs.
Proof.
  induction cs as [| co rest IH]; simpl.
  - intros [<- | []]. now left.
  - destruct (Z.eqb_spec (lbl co) (lbl so)).
    + destruct (ltb _ _); simpl; intros [<- | H]; auto.
    + simpl. intros [<- | H]; auto. destruct (IH H); auto.
Qed.

Lemma update_candidates_labels (so : StopObstacle) (cs : list StopObstacle) :
  map (fun c => lbl c) (update_candidates so cs)
  = if existsb (fun c => (lbl c =? lbl so)%Z) cs
    then map (fun c => lbl c) cs
    else map (fun c => lbl c) cs ++ [lbl so].
Proof.
  induction cs as [| co rest IH]; simpl; [reflexivity |].
  destruct (Z.eqb_spec (lbl co) (lbl so)) as [E | E]; simpl.
  - destruct (ltb _ _); simpl; congruence.
  - rewrite IH. now destruct (existsb _ rest).
Qed.

Lemma update_candidates_choice (so : StopObstacle) (cs : list StopObstacle) :
  NoDup (map (fun c => lbl c) cs) ->
  forall c, In c (update_candidates so cs) ->
    (In c cs /\ (lbl c = lbl so -> combined_dist c <= combined_dist so))
    \/ (c = so
        /\ forall c', In c' cs -> lbl c' = lbl so ->
                      combined_dist so < combined_dist c').
Proof.
  induction cs as [| co rest IH]; simpl; intros Hnd c.
  - intros [<- | []]. right. split; [reflexivity | intros _ []].
  - inversion Hnd as [| ? ? Hnotin Hnd']; subst.
    assert (Hrest : forall c', In c' rest -> lbl c' <> lbl co).
    { intros c' Hin E. apply Hnotin. rewrite <- E.
      now apply (in_map (fun c => lbl c)). }
    destruct (Z.eqb_spec (lbl co) (lbl so)) as [E | E].
    + destruct (ltb_spec (combined_dist so) (combined_dist co)) as [Hlt | Hge];
        simpl; intros [<- | Hin].
      * right. split; [reflexivity |].
        intros c' [<- | Hin'] E'; [exact Hlt |].
        exfalso. apply (Hrest c' Hin'). congruence.
      * left. split; [now right |].
        intros E'. exfalso. apply (Hrest c Hin). congruence.
      * left. split; [now left | intros _; lra].
      * left. split; [now right |].
        intros E'. exfalso. apply (Hrest c Hin). congruence.
    + simpl. intros [<- | Hin].
      * left. split; [now left | intros E'; congruence].
      * destruct (IH Hnd' c Hin) as [[Hc Hle] | [-> Hall]].
        -- left. split; [now right | exact Hle].
        -- right. split; [reflexivity |].
           intros c' [<- | Hin'] E'; [congruence | now apply Hall].
Qed.

Lemma update_candidates_closest
    (so : StopObstacle) (seen cs : list StopObstacle) :
  closest_per_label seen cs ->
  closest_per_label (so :: seen) (update_candidates so cs).
Proof.
  intros (Hnd & Hsub & Hmin & Hcov).
  assert (Hlabels := update_candidates_labels so cs).
  split; [| split; [| split]].
  - rewrite Hlabels.
    destruct (existsb (fun c => (lbl c =? lbl so)%Z) cs) eqn:Ex; [exact Hnd |].
    apply NoDup_app; repeat split; auto.
    + constructor; [intros [] | constructor].
    + intros l Hl [<- | []].
      apply in_map_iff in Hl as (c & Ec & Hc).
      assert (Hex : existsb (fun c => (lbl c =? lbl so)%Z) cs = true).
      { apply existsb_exists. exists c. split; [exact Hc |].
        now apply Z.eqb_eq. }
      congruence.
  - intros c Hc. apply update_candidates_In in Hc as [-> | Hc];
      [now left | right; now apply Hsub].
  - intros c o Hc Ho E.
    destruct (update_candidates_choice so cs Hnd c Hc) as [[Hin Hle] | [-> Hall]].
    + destruct Ho as [<- | Ho]; [apply Hle; congruence | now apply Hmin].
    + destruct Ho as [<- | Ho]; [lra |].
      destruct (Hcov o Ho) as (c' & Hc' & Ec').
      assert (combined_dist so < combined_dist c')
        by (apply Hall; [exact Hc' | congruence]).
      assert (combined_dist c' <= combined_dist o)
        by (apply Hmin; [exact Hc' | exact Ho | congruence]).
      lra.
  - intros o Ho.
    assert (Hin : In (lbl o) (map (fun c => lbl c) (update_candidates so cs))).
    { rewrite Hlabels.
      destruct Ho as [<- | Ho].
      - destruct (existsb (fun c => (lbl c =? lbl so)%Z) cs) eqn:Ex.
        + apply existsb_exists in Ex as (c & Hc & Ec).
          apply Z.eqb_eq in Ec. rewrite <- Ec.
          now apply (in_map (fun c => lbl c)).
        + apply in_or_app. right. now left.
      - destruct (Hcov o Ho) as (c & Hc & Ec). rewrite <- Ec.
        assert (In (lbl c) (map (fun c => lbl c) cs))
          by now apply (in_map (fun c => lbl c)).
        destruct (existsb _ cs); [assumption | apply in_or_app; now left]. }
    apply in_map_iff in Hin as (c & Ec & Hc). eauto.
Qed.

Lemma fold_update_candidates_closest (sos : list StopObstacle) :
  forall seen cs,
    closest_per_label seen cs ->
    closest_per_label (rev sos ++ seen)
      (fold_left (fun candidates stop_obstacle =>
                    update_candidates stop_obstacle candidates) sos cs).
Proof.
  induction sos as [| so sos IH]; simpl; intros seen cs H; [exact H |].
  rewrite <- app_assoc. simpl. apply IH. now apply update_candidates_closest.
Qed.

(** [get_closest_stop_obstacles] keeps, for every label among the stop
    obstacles, one obstacle of least combined distance. *)
Lemma get_closest_stop_obstacles_closest (sos : list StopObstacle) :
  closest_per_label sos (get_closest_stop_obstacles sos).
Proof.
  unfold get_closest_stop_obstacles.
  assert (H0 : closest_per_label [] []).
  { repeat split; try constructor; intros; contradiction. }
  apply (fold_update_candidates_closest sos) in H0.
  rewrite app_nil_r in H0.
  destruct H0 as (Hnd & Hsub & Hmin & Hcov).
  repeat split; auto.
  - intros c Hc. apply in_rev. auto.
  - intros c o Hc Ho. apply Hmin; [exact Hc | now apply in_rev in Ho].
  - intros o Ho. apply Hcov. now apply in_rev in Ho.
Qed.

Lemma plan_stop_step_cases
    (m : ObstacleStopModule) (planner_data : PlannerData)
    (traj_points : TrajectoryPoints) (dist_to_bumper : Q)
    (determined : option Determined) (so : StopObstacle) :
  let next := plan_stop_step m planner_data traj_points dist_to_bumper
                determined so in
  next = determined
  \/ exists d, next = Some d /\ determined_obstacle d = so.
Proof.
  unfold plan_stop_step. simpl.
  destruct (calc_candidate_zero_vel_dist _ _ _ _ _ _); [| now left].
  destruct determined as [d |].
  - destruct (keeps_determined _ _ _); [now left | right; eauto].
  - right; eauto.
Qed.

Lemma fold_plan_stop_step_In
    (m : ObstacleStopModule) (planner_data : PlannerData)
    (traj_points : TrajectoryPoints) (dist_to_bumper : Q)
    (cs : list StopObstacle) :
  forall determined d,
    fold_left (plan_stop_step m planner_data traj_points dist_to_bumper)
      cs determined = Some d ->
    determined = Some d \/ In (determined_obstacle d) cs.
Proof.
  induction cs as [| so cs IH]; simpl; intros determined d H; [now left |].
  apply IH in H as [H | H]; [| right; now right].
  destruct (plan_stop_step_cases m planner_data traj_points dist_to_bumper
              determined so) as [E | (d' & E & Ed)].
  - left. congruence.
  - right. left. congruence.
Qed.

(** The test of [plan_stop] reads, for an obstacle of the determined
    obstacle's label, the obstacle's distance to collision twice and no
    braking distance; for another label it compares the candidate stop
    distances. *)
Lemma keeps_determined_by_label
    (d : Determined) (so : StopObstacle) (candidate_zero_vel_dist : Q) :
  keeps_determined d so candidate_zero_vel_dist
  = if (lbl so =? lbl (determined_obstacle d))%Z
    then gtb (dist_to_collide_on_decimated_traj so
              + dist_to_collide_on_decimated_traj so)
             (combined_dist (determined_obstacle d))
    else gtb candidate_zero_vel_dist (determined_zero_vel_dist d).
Proof.
  unfold keeps_determined, combined_dist.
  destruct (lbl so =? lbl (determined_obstacle d))%Z; simpl.
  - apply orb_false_r.
  - reflexivity.
Qed.

(** In the loop of [plan_stop] that test never meets an obstacle of the
    determined obstacle's label: the loop runs over the closest obstacle
    of each label. *)
Lemma plan_stop_compares_distinct_labels
    (m : ObstacleStopModule) (planner_data : PlannerData)
    (traj_points : TrajectoryPoints) (dist_to_bumper : Q)
    (stop_obstacles prefix suffix : list StopObstacle)
    (so : StopObstacle) (d : Determined) :
  get_closest_stop_obstacles stop_obstacles = prefix ++ so :: suffix ->
  fold_left (plan_stop_step m planner_data traj_points dist_to_bumper)
    prefix None = Some d ->
  lbl so <> lbl (determined_obstacle d).
Proof.
  intros Hsplit Hd E.
  destruct (get_closest_stop_obstacles_closest stop_obstacles) as (Hnd & _).
  rewrite Hsplit, map_app in Hnd. simpl in Hnd.
  apply NoDup_remove_2 in Hnd. apply Hnd.
  apply in_or_app. left. rewrite E.
  apply fold_plan_stop_step_In in Hd as [Hd | Hd]; [discriminate |].
  now apply (in_map (fun c => lbl c)).
Qed.

(** C1.  Whatever obstacle [plan_stop] determines in a cycle, it is one
    of the cycle's stop obstacles and none of the stop obstacles of
    its classification label has a smaller combined distance
    (distance to collision plus braking distance, 0 when absent); of
    two stop obstacles of one label that both yield a candidate stop
    distance, the one with the smaller combined distance is the
    determined one; and the selection between obstacles of one label is
    made by [get_closest_stop_obstacles] alone: whenever the loop of
    [plan_stop] holds a determined obstacle and meets the next
    candidate, the two labels differ, so the same-label test of
    [keeps_determined] decides nothing. *)
Theorem plan_stop_same_label_selection
    (m : ObstacleStopModule) (planner_data : PlannerData)
    (traj_points : TrajectoryPoints) (dist_to_bumper : Q) :
  (forall stop_obstacles d,
      determine_stop m planner_data traj_points stop_obstacles dist_to_bumper
      = Some d ->
      In (determined_obstacle d) stop_obstacles
      /\ forall o, In o stop_obstacles ->
                   lbl o = lbl (determined_obstacle d) ->
                   combined_dist (determined_obstacle d) <= combined_dist o)
  /\ (forall a b,
         lbl a = lbl b ->
         plan_stop_step m planner_data traj_points dist_to_bumper None a
         <> None ->
         plan_stop_step m planner_data traj_points dist_to_bumper None b
         <> None ->
         option_map determined_obstacle
           (determine_stop m planner_data traj_points [a; b] dist_to_bumper)
         = Some (if ltb (combined_dist b) (combined_dist a) then b else a))
  /\ (forall stop_obstacles prefix so suffix d,
         get_closest_stop_obstacles stop_obstacles = prefix ++ so :: suffix ->
         fold_left (plan_stop_step m planner_data traj_points dist_to_bumper)
           prefix None = Some d ->
         lbl so <> lbl (determined_obstacle d)).
Proof.
  split; [| split].
  - intros sos d Hd. unfold determine_stop in Hd.
    apply fold_plan_stop_step_In in Hd as [Hd | Hd]; [discriminate |].
    destruct (get_closest_stop_obstacles_closest sos)
      as (_ & Hsub & Hmin & _).
    split; [now apply Hsub | intros o Ho E; now apply Hmin].
  - intros a b E Ha Hb.
    unfold determine_stop, get_closest_stop_obstacles. simpl.
    rewrite (proj2 (Z.eqb_eq _ _) E).
    destruct (ltb (combined_dist b) (combined_dist a)); simpl.
    + destruct (plan_stop_step_cases m planner_data traj_points
                  dist_to_bumper None b) as [H | (d & H & Hd)];
        simpl in H; [congruence | rewrite H; simpl; congruence].
    + destruct (plan_stop_step_cases m planner_data traj_points
                  dist_to_bumper None a) as [H | (d & H & Hd)];
        simpl in H; [congruence | rewrite H; simpl; congruence].
  - intros sos prefix so suffix d.
    apply plan_stop_compares_distinct_labels.
Qed.

(** *** Fixed-stop hysteresis *)

Local Abbreviation id_of o := (PredictedObject.object_id (predicted_object o)).

Lemma is_prev_object_requires_fixed_stop_true
    (prev : list StopObstacle) (u : string) :
  is_prev_object_requires_fixed_stop prev u = true ->
  exists so, In so prev /\ uuid so = u /\ braking_dist so = None.
Proof.
  unfold is_prev_object_requires_fixed_stop, get_obstacle_from_uuid.
  destruct (find _ prev) as [so |] eqn:E; [| discriminate].
  apply find_some in E as [Hin Heq]. apply String.eqb_eq in Heq.
  destruct (braking_dist so) eqn:Eb; simpl; [discriminate | eauto].
Qed.

Lemma pick_stop_obstacle_emits
    (m : ObstacleStopModule) (c : CycleInput) (o : Object) (d : Q)
    (so : StopObstacle) :
  pick_stop_obstacle_from_predicted_object m c o d = Ok (Some so) ->
  uuid so = id_of o
  /\ (braking_dist so = None ->
      is_obstacle_velocity_requiring_fixed_stop m o (traj_points_in c) = true).
Proof.
  unfold pick_stop_obstacle_from_predicted_object.
  destruct (calc_estimation_time _ _); [| discriminate].
  destruct (PredictedObject.classification (predicted_object o));
    [discriminate |].
  destruct (negb _); [discriminate |].
  destruct (leb _ _); [discriminate |].
  match goal with
  | |- context [match ?x with Some _ => _ | None => _ end] =>
      destruct x; [| discriminate]
  end.
  destruct (_ && _); [discriminate |].
  destruct (is_obstacle_velocity_requiring_fixed_stop m o (traj_points_in c)).
  - intros [= <-]. simpl. auto.
  - destruct (use_rss_stop _); [| discriminate].
    intros [= <-]. simpl. split; [reflexivity | discriminate].
Qed.

Lemma pick_stop_obstacles_emits
    (m : ObstacleStopModule) (c : CycleInput) (objs : list Object) :
  forall picks,
    pick_stop_obstacles m c objs = Ok picks ->
    forall so, In so picks ->
      exists o, In o objs /\ uuid so = id_of o
                /\ (braking_dist so = None ->
                    is_obstacle_velocity_requiring_fixed_stop m o
                      (traj_points_in c) = true).
Proof.
  induction objs as [| o objs IH]; simpl; intros picks H so Hso.
  - injection H as <-. contradiction.
  - assert (Hrest : forall picks', pick_stop_obstacles m c objs = Ok picks' ->
                      In so picks' ->
                      exists o', In o' (o :: objs) /\ uuid so = id_of o'
                        /\ (braking_dist so = None ->
                            is_obstacle_velocity_requiring_fixed_stop m o'
                              (traj_points_in c) = true)).
    { intros picks' H' Hin. destruct (IH picks' H' so Hin) as (o' & ? & ?).
      exists o'. split; [now right | assumption]. }
    destruct (ltb _ 0); [now apply (Hrest picks) |].
    destruct (calc_possible_min_dist_from_obj_to_traj_poly _ _ _);
      [| discriminate].
    destruct (PredictedObject.classification (predicted_object o));
      [discriminate |].
    destruct (ltb _ _); [now apply (Hrest picks) |].
    destruct (pick_stop_obstacle_from_predicted_object _ _ _ _)
      as [picked |] eqn:Ep; [| discriminate].
    destruct (pick_stop_obstacles m c objs) as [more |] eqn:Em; [| discriminate].
    injection H as <-.
    destruct picked as [so0 |]; [| now apply (Hrest more)].
    destruct Hso as [<- | Hso]; [| now apply (Hrest more)].
    exists o. split; [now left |]. now apply pick_stop_obstacle_emits in Ep.
Qed.

Lemma check_consistency_step_In
    (m : ObstacleStopModule) (t : Time) (objs : list Object)
    (sos : list StopObstacle) (prev so : StopObstacle) :
  In so (check_consistency_step m t objs sos prev) ->
  In so sos
  \/ exists o, In o objs /\ id_of o = uuid so
               /\ PredictedObject.twist_linear_x (predicted_object o)
                  < obstacle_velocity_threshold_enter_fixed_stop
                      (stop_planning_param_ m)
               /\ forall p, In p sos -> uuid p <> uuid so.
Proof.
  unfold check_consistency_step.
  destruct (find _ objs) as [o |] eqn:Ef; [| now left].
  destruct (forallb _ sos) eqn:Ed; [| now left].
  destruct (ltb_spec (PredictedObject.twist_linear_x (predicted_object o))
              (obstacle_velocity_threshold_enter_fixed_stop
                 (stop_planning_param_ m))) as [Hv | Hv];
    simpl; [| now left].
  destruct (ltb _ _); [| now left].
  intros Hin. apply in_app_or in Hin as [Hin | [<- | []]]; [now left |].
  right. apply find_some in Ef as [Ho Eo]. apply String.eqb_eq in Eo.
  exists o. repeat split; auto.
  intros p Hp E. rewrite forallb_forall in Ed. specialize (Ed p Hp).
  apply negb_true_iff in Ed. apply String.eqb_neq in Ed. contradiction.
Qed.

Lemma check_consistency_step_incl
    (m : ObstacleStopModule) (t : Time) (objs : list Object)
    (sos : list StopObstacle) (prev p : StopObstacle) :
  In p sos -> In p (check_consistency_step m t objs sos prev).
Proof.
  intros Hp. unfold check_consistency_step.
  destruct (find _ objs); [| exact Hp].
  destruct (forallb _ sos); [| exact Hp].
  destruct (_ && _); [apply in_or_app; now left | exact Hp].
Qed.

Lemma check_consistency_In
    (m : ObstacleStopModule) (t : Time) (objs : list Object)
    (prevs : list StopObstacle) :
  forall sos so,
    In so (fold_left (check_consistency_step m t objs) prevs sos) ->
    In so sos
    \/ exists o, In o objs /\ id_of o = uuid so
                 /\ PredictedObject.twist_linear_x (predicted_object o)
                    < obstacle_velocity_threshold_enter_fixed_stop
                        (stop_planning_param_ m)
                 /\ forall p, In p sos -> uuid p <> uuid so.
Proof.
  induction prevs as [| prev prevs IH]; simpl; intros sos so H; [now left |].
  apply IH in H as [H | (o & Ho & Eo & Hv & Hnone)].
  - now apply check_consistency_step_In in H.
  - right. exists o. repeat split; auto.
    intros p Hp. apply Hnone. now apply check_consistency_step_incl.
Qed.

(** What a cycle of the predicted-object filter leaves for the next one:
    the parameters are untouched, and the list records an object as a fixed
    stop only if an object of that UUID was classified as requiring a fixed
    stop in this cycle.  The consistency pass can re-admit the previous
    closest obstacle of an object that is missing from the picked stop
    obstacles, and it decides so on the object's own longitudinal twist;
    the record is therefore taken from this cycle when the object is among
    the picked obstacles or that twist is no lower than the enter
    threshold. *)
Lemma filter_records_fixed_stop_as_classified
    (m m' : ObstacleStopModule) (c : CycleInput)
    (stop_obstacles : list StopObstacle) (u : string) :
  filter_stop_obstacle_for_predicted_object m c = Ok (m', stop_obstacles) ->
  ((exists picks so,
       pick_stop_obstacles m c (objects c) = Ok picks
       /\ In so picks /\ uuid so = u)
   \/ (forall o, In o (objects c) -> id_of o = u ->
                 obstacle_velocity_threshold_enter_fixed_stop (stop_planning_param_ m)
                 <= PredictedObject.twist_linear_x (predicted_object o))) ->
  stop_planning_param_ m' = stop_planning_param_ m
  /\ (is_prev_object_requires_fixed_stop (prev_stop_obstacles_ m') u = true ->
      exists o, In o (objects c) /\ id_of o = u
                /\ is_obstacle_velocity_requiring_fixed_stop m o (traj_points_in c)
                   = true).
Proof.
  intros Hf Hkept.
  unfold filter_stop_obstacle_for_predicted_object in Hf.
  destruct (pick_stop_obstacles m c (objects c)) as [picks |] eqn:Ep;
    [| discriminate].
  injection Hf as <- <-. simpl. split; [reflexivity |].
  intros Er.
  apply is_prev_object_requires_fixed_stop_true in Er as (so & Hin & Eu & Eb).
  unfold check_consistency in Hin.
  apply check_consistency_In in Hin as [Hin | (o & Ho & Eo & Hlow & Hnone)].
  - destruct (pick_stop_obstacles_emits m c (objects c) picks Ep so Hin)
      as (o & Ho & Eo & Hfixed).
    exists o. repeat split; auto. congruence.
  - exfalso. destruct Hkept as [(picks' & so' & Ep' & Hin' & Eu') | Htwist].
    + assert (picks' = picks) by congruence. subst picks'.
      apply (Hnone so' Hin'). congruence.
    + assert (obstacle_velocity_threshold_enter_fixed_stop (stop_planning_param_ m)
              <= PredictedObject.twist_linear_x (predicted_object o))
        by (apply Htwist; [exact Ho | congruence]).
      lra.
Qed.

(** C4 (as amended).  If the previous cycle's stop-obstacle list records
    the object (by UUID) as a fixed stop, one without braking distance,
    [is_obstacle_velocity_requiring_fixed_stop] returns true exactly
    when the relative longitudinal velocity does not exceed the exit
    threshold; if it is not so recorded, exactly when the velocity is
    strictly below the enter threshold.  The classification does not
    toggle back under a condition on the record: if the next cycle's list
    records the object as a fixed stop only if this cycle classified it
    so, an object classified as not requiring a fixed stop is classified
    so again in the next cycle whenever its relative velocity is not below
    the enter threshold, be it above or below the exit threshold.  The list
    the predicted-object filter leaves is of that kind when the object is
    among the cycle's picked stop obstacles, or when the [twist.linear.x]
    of the objects of that UUID is not below the enter threshold, so that
    [check_consistency] does not re-admit the previous record. *)
Theorem fixed_stop_hysteresis
    (m : ObstacleStopModule) (object : Object)
    (traj_points : TrajectoryPoints) :
  let sp := stop_planning_param_ m in
  let enter := obstacle_velocity_threshold_enter_fixed_stop sp in
  let exit := obstacle_velocity_threshold_exit_fixed_stop sp in
  let recorded :=
    is_prev_object_requires_fixed_stop (prev_stop_obstacles_ m) (id_of object) in
  let v := get_lon_vel_relative_to_traj object traj_points in
  (recorded = true ->
   (is_obstacle_velocity_requiring_fixed_stop m object traj_points = true
    <-> v <= exit))
  /\ (recorded = false ->
      (is_obstacle_velocity_requiring_fixed_stop m object traj_points = true
       <-> v < enter))
  /\ (forall (m' : ObstacleStopModule) object' traj_points',
         stop_planning_param_ m' = sp ->
         (is_prev_object_requires_fixed_stop (prev_stop_obstacles_ m')
            (id_of object') = true ->
          is_obstacle_velocity_requiring_fixed_stop m object traj_points = true) ->
         is_obstacle_velocity_requiring_fixed_stop m object traj_points = false ->
         enter <= get_lon_vel_relative_to_traj object' traj_points' ->
         is_obstacle_velocity_requiring_fixed_stop m' object' traj_points'
         = false)
  /\ (forall c m' stop_obstacles,
         filter_stop_obstacle_for_predicted_object m c = Ok (m', stop_obstacles) ->
         (forall o, In o (objects c) -> id_of o = id_of object ->
                    is_obstacle_velocity_requiring_fixed_stop m o
                      (traj_points_in c) = false) ->
         ((exists picks so,
              pick_stop_obstacles m c (objects c) = Ok picks
              /\ In so picks /\ uuid so = id_of object)
          \/ (forall o, In o (objects c) -> id_of o = id_of object ->
                        enter <= PredictedObject.twist_linear_x
                                   (predicted_object o))) ->
         forall object' traj_points',
           id_of object' = id_of object ->
           enter <= get_lon_vel_relative_to_traj object' traj_points' ->
           is_obstacle_velocity_requiring_fixed_stop m' object' traj_points'
           = false).
Proof.
  intros sp enter exit recorded v.
  assert (Hstay : forall (m' : ObstacleStopModule) object' traj',
             stop_planning_param_ m' = sp ->
             is_prev_object_requires_fixed_stop (prev_stop_obstacles_ m')
               (id_of object') = false ->
             enter <= get_lon_vel_relative_to_traj object' traj' ->
             is_obstacle_velocity_requiring_fixed_stop m' object' traj' = false).
  { intros m' object' traj' Esp Er Hv.
    unfold is_obstacle_velocity_requiring_fixed_stop. rewrite Er, Esp.
    fold enter.
    destruct (ltb_spec (get_lon_vel_relative_to_traj object' traj') enter);
      [lra | reflexivity]. }
  split; [| split; [| split]].
  - intros Hr. unfold is_obstacle_velocity_requiring_fixed_stop.
    fold recorded. rewrite Hr. fold sp exit v.
    destruct (ltb_spec exit v); split; intros; try easy; lra.
  - intros Hr. unfold is_obstacle_velocity_requiring_fixed_stop.
    fold recorded. rewrite Hr. fold sp enter v.
    destruct (ltb_spec v enter); split; intros; try easy; lra.
  - intros m' object' traj' Esp Hlink Hnot Hv.
    apply Hstay; [exact Esp | | exact Hv].
    destruct (is_prev_object_requires_fixed_stop (prev_stop_obstacles_ m')
                (id_of object')) eqn:Er;
      [| reflexivity].
    rewrite (Hlink eq_refl) in Hnot. discriminate.
  - intros c m' sos Hf Hnot Hkept object' traj' Eid Hv.
    destruct (filter_records_fixed_stop_as_classified m m' c sos (id_of object)
                Hf Hkept) as [Esp Hrec].
    apply Hstay; [exact Esp | | exact Hv].
    rewrite Eid.
    destruct (is_prev_object_requires_fixed_stop (prev_stop_obstacles_ m')
                (id_of object)) eqn:Er;
      [| reflexivity].
    destruct (Hrec eq_refl) as (o & Ho & Eo & Hfixed).
    rewrite (Hnot o Ho Eo) in Hfixed. discriminate.
Qed.

End Properties.

End ObstacleStopProofs.

(** ** The path generator's utilities *)

Module PathGeneratorProofs.
Import Cxx CxxFacts PathGenerator.

Section CropProperties.
Context {TC : TrajectoryContainer}.

(** C8.  For every line string and crop bounds with
    [s_start > s_end], [crop_line_string] returns the line string it
    was given, unchanged: it neither fails nor returns an empty
    result. *)
Theorem crop_line_string_degenerate
    (line_string : list geometry_msgs.Point) (s_start s_end : Q) :
  s_end < s_start ->
  crop_line_string line_string s_start s_end = line_string.
Proof.
  intros H. unfold crop_line_string.
  destruct (ltb s_start 0); [reflexivity |].
  destruct (gtb_spec s_start s_end); [reflexivity | lra].
Qed.

End CropProperties.

Section ArcLengthProperties.
Context {L : Lanelet2}.

(** Centerline to left bound: along lanelets of equal arc length the
    projection is the identity, within the sequence and beyond it. *)
Lemma arc_length_on_bounds_from_left (seq : LaneletSequence) :
  forall s_centerline s s_left s_right,
    Forall left_bound_at_equal_arc_length seq ->
    s_left == s -> s <= s_centerline ->
    left (arc_length_on_bounds_from seq s_centerline s s_left s_right)
    == s_centerline.
Proof.
  induction seq as [| it rest IH]; simpl; intros sc s sl sr Hall Hs Hle.
  - reflexivity.
  - inversion Hall as [| ? ? (Hlen & Hll & _ & Hproj) Hall']; subst.
    destruct (ltb_spec (s + geometry_length (centerline2d it)) sc) as [Hlt | Hge].
    + apply IH; [assumption | lra | lra].
    + simpl. destruct (Hproj (sc - s)) as [Hp _]; [lra |]. lra.
Qed.

Lemma arc_length_on_centerline_from_done
    (seq : LaneletSequence) (b s s_left s_right r : Q) (rc : option Q) :
  arc_length_on_centerline_from seq (Some b) None s s_left s_right (Some r) rc
  = (Some r, rc).
Proof. destruct seq; reflexivity. Qed.

(** Left bound to centerline: the arc length found, if any, is the one
    asked for. *)
Lemma arc_length_on_centerline_from_left (seq : LaneletSequence) (b : Q) :
  forall s s_left s_right rc,
    Forall left_bound_at_equal_arc_length seq ->
    s_left == s -> s <= b ->
    match fst (arc_length_on_centerline_from seq (Some b) None
                 s s_left s_right None rc) with
    | Some r => r == b
    | None => True
    end.
Proof.
  induction seq as [| it rest IH]; simpl; intros s sl sr rc Hall Hs Hle.
  - exact I.
  - inversion Hall as [| ? ? (Hlen & Hll & Hl2d & Hproj) Hall']; subst.
    destruct (gtb_spec (sl + geometry_length (leftBound2d it)) b) as [Hgt | Hngt].
    + rewrite arc_length_on_centerline_from_done. simpl.
      destruct (Hproj (b - sl)) as [_ Hp]; [lra |]. lra.
    + apply IH; [assumption | lra | lra].
Qed.


End ArcLengthProperties.

End PathGeneratorProofs.

(** ** The properties on the scenarios *)

Module ScenarioProofs.
Import Cxx CxxFacts ObstacleStop ObstacleStopProofs StraightRoad Scenario.

Ltac by_computation :=
  vm_compute; first [reflexivity | discriminate | (intro; discriminate)].

(** A walking pedestrian of speed 5 m/s, assumed to brake at 1 m/s^2, is
    given the full horizon of 1 s. *)
Lemma calc_estimation_time_spec_witness :
  exists t, calc_estimation_time (perceived_as PEDESTRIAN 3 4) filtering = Ok t
            /\ 0 <= t <= 1.
Proof.
  destruct (calc_estimation_time_spec (perceived_as PEDESTRIAN 3 4) filtering
              {| label := PEDESTRIAN; probability := 1 |} [] eq_refl)
    as (_ & H & _).
  apply H; [reflexivity | left; reflexivity | by_computation].
Defined.




(** C6, counterexample.  The ego stands still and an oncoming obstacle
    is 8 m ahead: the coasting time clamps to 0 and the default stop
    margin is 8 m, above the plain default stop margin of 5 m.  The ego
    reverses away from an obstacle that follows it more slowly: the
    coasting time clamps to 0 and the margin exceeds both configured
    margins. *)
Lemma default_stop_margin_above_plain_margin :
  (velocity oncoming_close < max_negative_velocity stop_planning
   /\ T_coast stop_planning 0 oncoming_close == 0
   /\ default_stop_margin (fresh false) (ego 0) road oncoming_close 8 == 8
   /\ ~ default_stop_margin (fresh false) (ego 0) road oncoming_close 8
        <= stop_margin stop_planning)
  /\ (velocity following_reversing_ego < max_negative_velocity stop_planning
      /\ T_coast stop_planning (-3) following_reversing_ego == 0
      /\ ~ default_stop_margin (fresh false) (ego (-3)) road
             following_reversing_ego 20
           <= stop_margin stop_planning
      /\ ~ default_stop_margin (fresh false) (ego (-3)) road
             following_reversing_ego 20
           <= stop_margin_opposing_traffic stop_planning).
Proof.
  repeat split; try by_computation;
    intro H; vm_compute in H; apply H; reflexivity.
Qed.

Lemma default_stop_margin_coast_zero_witness :
  default_stop_margin (fresh false) (ego 0) road oncoming_close 8
  <= stop_margin_opposing_traffic stop_planning.
Proof.
  assert (Hobs : velocity oncoming_close < max_negative_velocity stop_planning)
    by by_computation.
  assert (Hdec : 0 < effective_deceleration_opposing_traffic stop_planning)
    by by_computation.
  assert (Hrel : 0.000001 < 0 - velocity oncoming_close) by by_computation.
  assert (HT : T_coast stop_planning 0 oncoming_close == 0) by by_computation.
  exact (proj1 (proj2 (proj2 (default_stop_margin_coast_zero (fresh false)
                                (ego 0) road oncoming_close 8 Hobs)
                         Hdec Hrel HT))).
Defined.

(** C2.  The history holds a point-cloud obstacle recorded 0.1 s ago
    (the hold time is 1 s) whose collision point now lies 20 m beside
    the trajectory, 15 m beyond the footprint and so outside the lateral
    margin of 0.3 m.  The history pass does not exit, whatever the number
    of loop steps granted: the entry is neither erased nor passed. *)
Theorem history_pass_never_exits_on_stale_entry :
  seconds_between 100000000%Z (stamp stale_entry)
  < stop_obstacle_hold_time_threshold filtering
  /\ max_lat_margin filtering
     <= min_lat_dist_to_traj_poly road vehicle (collision_point stale_entry)
  /\ forall fuel,
       filter_stop_obstacle_for_point_cloud fuel module_with_history
         (pt 0 0) 100000000%Z road road empty_cloud vehicle 4 0
       = None.
Proof.
  assert (Hage : seconds_between 100000000%Z (stamp stale_entry)
                 < stop_obstacle_hold_time_threshold filtering)
    by by_computation.
  assert (Hlat : max_lat_margin filtering
                 <= min_lat_dist_to_traj_poly road vehicle
                      (collision_point stale_entry))
    by by_computation.
  repeat split; try assumption.
  intros fuel. unfold filter_stop_obstacle_for_point_cloud.
  change (use_pointcloud (obstacle_filtering_param_ module_with_history))
    with true.
  cbv beta iota delta [negb].
  rewrite history_loop_stuck; [reflexivity |].
  apply history_loop_step_outside_margin with (entry := stale_entry);
    [reflexivity | exact Hage | exact Hlat].
Qed.

(** C3, counterexample.  Over a buffer that records its calls, an
    oncoming car at -10 m/s, below [max_negative_velocity] of -0.1 m/s,
    is determined: [plan_stop] calls [update_buffer] once, with the stop
    point it computed at 18.25 m, and returns what the buffer holds
    active, here none, not the computed point.  A standing car is
    determined: the buffer is not called and the computed stop point, at
    41 m, is returned. *)
Lemma plan_stop_feeds_buffer_below_max_negative_velocity :
  (velocity oncoming_car < max_negative_velocity (stop_planning_param_ recording)
   /\ option_map determined_obstacle
        (determine_stop recording (ego 5) road [oncoming_car] 4)
      = Some oncoming_car
   /\ match path_length_buffer_
              (fst (plan_stop recording 0%Z (ego 5) road [oncoming_car] 4)) with
      | [Some p] => geometry_msgs.x p == 18.25
      | _ => False
      end
   /\ snd (plan_stop recording 0%Z (ego 5) road [oncoming_car] 4) = None)
  /\ (max_negative_velocity (stop_planning_param_ recording)
      <= velocity stationary_car
      /\ option_map determined_obstacle
           (determine_stop recording (ego 5) road [stationary_car] 4)
         = Some stationary_car
      /\ path_length_buffer_
           (fst (plan_stop recording 0%Z (ego 5) road [stationary_car] 4))
         = []
      /\ match snd (plan_stop recording 0%Z (ego 5) road [stationary_car] 4) with
         | Some p => geometry_msgs.x p == 41
         | None => False
         end).
Proof. repeat split; by_computation. Qed.

(** The standing car is determined and the stop point computed for it is
    what [plan_stop] returns. *)
Lemma plan_stop_velocity_branch_witness :
  exists d,
    determine_stop (fresh false) (ego 5) road [stationary_car] 4 = Some d
    /\ plan_stop (fresh false) 0%Z (ego 5) road [stationary_car] 4
       = calc_stop_point (fresh false) road
           (hold_previous_stop_if_necessary (fresh false) (ego 5) road
              (determined_zero_vel_dist d)).
Proof.
  destruct (determine_stop (fresh false) (ego 5) road [stationary_car] 4)
    as [d |] eqn:E; [| vm_compute in E; discriminate].
  exists d. split; [reflexivity |].
  assert (Ed : determined_obstacle d = stationary_car)
    by (vm_compute in E; injection E as <-; reflexivity).
  apply (plan_stop_velocity_branch (fresh false) 0%Z (ego 5) road
           [stationary_car] 4 d); [discriminate | exact E |].
  rewrite Ed. by_computation.
Defined.

Lemma plan_stop_same_label_selection_witness :
  match determine_stop (fresh false) (ego 5) road
          [far_car; pedestrian; near_car] 4 with
  | Some d =>
      determined_obstacle d = near_car
      /\ combined_dist (determined_obstacle d) <= combined_dist far_car
  | None => False
  end
  /\ option_map determined_obstacle
       (determine_stop (fresh false) (ego 5) road [far_car; near_car] 4)
     = Some near_car.
Proof.
  destruct (plan_stop_same_label_selection (fresh false) (ego 5) road 4)
    as (H1 & H2 & _).
  split.
  - destruct (determine_stop (fresh false) (ego 5) road
                [far_car; pedestrian; near_car] 4) as [d |] eqn:E;
      [| vm_compute in E; discriminate].
    destruct (H1 _ d E) as [_ Hmin].
    assert (Ed : determined_obstacle d = near_car)
      by (vm_compute in E; injection E as <-; reflexivity).
    split; [exact Ed |].
    apply Hmin; [now left | rewrite Ed; reflexivity].
  - rewrite (H2 far_car near_car); [reflexivity | reflexivity | |];
      by_computation.
Defined.

(** C4, counterexample.  RSS stops are switched off and a car 50 m ahead
    heads across the road, its [twist.linear.x] 2 m/s below the enter
    threshold of 3 m/s.  Seen at 2.9 m/s along the trajectory it causes
    a fixed stop.  Seen at 3.6 m/s in the next cycle, above the exit
    threshold of 3.5 m/s, it is classified as not requiring a fixed stop
    and is not picked; [check_consistency] re-admits its previous record,
    which the filter stores.  Seen at 3.4 m/s in the cycle after, it is
    classified as requiring a fixed stop again, and at 3.6 m/s in the
    following one as not requiring one: the classification toggles with a
    velocity that moves about the exit threshold and stays at or above
    the enter threshold. *)
Lemma fixed_stop_classification_toggles :
  (obstacle_velocity_threshold_enter_fixed_stop
     (stop_planning_param_ module_without_rss) <= 3.4
   /\ 3.4 <= obstacle_velocity_threshold_exit_fixed_stop
               (stop_planning_param_ module_without_rss)
   /\ obstacle_velocity_threshold_exit_fixed_stop
        (stop_planning_param_ module_without_rss) < 3.6)
  /\ init node_without_rss = Ok fresh_without_rss
  /\ filter_stop_obstacle_for_predicted_object fresh_without_rss
       drift_cycle_0 = Ok (module_without_rss, [fixed_stop_record])
  /\ is_obstacle_velocity_requiring_fixed_stop module_without_rss
       (drifting_car 3.6) road = false
  /\ pick_stop_obstacles module_without_rss drift_cycle_1
       (objects drift_cycle_1) = Ok []
  /\ filter_stop_obstacle_for_predicted_object module_without_rss
       drift_cycle_1 = Ok (after_drift_1, [fixed_stop_record])
  /\ is_obstacle_velocity_requiring_fixed_stop after_drift_1
       (drifting_car 3.4) road = true
  /\ raises (filter_stop_obstacle_for_predicted_object after_drift_1
               drift_cycle_2) = false
  /\ is_obstacle_velocity_requiring_fixed_stop after_drift_2
       (drifting_car 3.6) road = false.
Proof.
  split; [repeat split; by_computation |].
  repeat split; reflexivity.
Qed.

(** The car that caused a fixed stop is seen at 3.6 m/s, above the exit
    threshold of 3.5 m/s, and leaves the fixed stop; seen at 3.4 m/s in
    the next cycle, below the exit and above the enter threshold of
    3 m/s, it does not return to it. *)
Lemma fixed_stop_hysteresis_witness :
  (is_obstacle_velocity_requiring_fixed_stop module_with_fixed_stop
     (car_ahead 3.6) road = true <-> 3.6 <= 3.5)
  /\ is_obstacle_velocity_requiring_fixed_stop after_first_cycle
       (car_ahead 3.4) road = false.
Proof.
  destruct (fixed_stop_hysteresis (PO := planner_objects)
              module_with_fixed_stop (car_ahead 3.6) road)
    as (H1 & _ & _ & H3).
  split; [apply H1; reflexivity |].
  apply (H3 first_cycle after_first_cycle first_cycle_obstacles).
  - reflexivity.
  - intros o [<- | []] _. by_computation.
  - right. intros o [<- | []] _. by_computation.
  - reflexivity.
  - by_computation.
Defined.

End ScenarioProofs.

Module LaneScenarioProofs.
Import Cxx PathGenerator PathGeneratorProofs StraightLane LaneScenario.

Lemma crop_line_string_degenerate_witness :
  crop_line_string line_along_x 7 3 = line_along_x.
Proof. apply crop_line_string_degenerate. reflexivity. Defined.


Lemma rectangular_at_equal_arc_length (a b : Q) :
  a <= b -> left_bound_at_equal_arc_length (rectangular a b).
Proof.
  intros Hab. unfold left_bound_at_equal_arc_length. simpl.
  unfold segment_length, point_at_distance, arc_length_of. simpl.
  repeat split; try lra.
  - destruct (CxxFacts.ltb_spec d 0); [lra |]. simpl.
    unfold segment_length. simpl.
    pose proof (CxxFacts.std_min_cases d (b - a)) as [[? E] | [? E]];
      rewrite E;
      match goal with
      | |- std_clamp ?v ?lo ?hi == _ =>
          pose proof (CxxFacts.std_clamp_bounds v lo hi);
          unfold std_clamp in *;
          destruct (CxxFacts.std_max_cases v lo) as [[? E1] | [? E1]];
          rewrite E1 in *;
          match goal with
          | |- std_min ?x ?y == _ =>
              destruct (CxxFacts.std_min_cases x y) as [[? E2] | [? E2]];
              rewrite E2; lra
          end
      end.
  - destruct (CxxFacts.ltb_spec d 0); [lra |]. simpl.
    unfold segment_length. simpl.
    pose proof (CxxFacts.std_min_cases d (b - a)) as [[? E] | [? E]];
      rewrite E;
      match goal with
      | |- std_clamp ?v ?lo ?hi == _ =>
          unfold std_clamp;
          destruct (CxxFacts.std_max_cases v lo) as [[? E1] | [? E1]];
          rewrite E1 in *;
          match goal with
          | |- std_min ?x ?y == _ =>
              destruct (CxxFacts.std_min_cases x y) as [[? E2] | [? E2]];
              rewrite E2; lra
          end
      end.
Qed.


End LaneScenarioProofs.

(* ================================================================== *)
(** * Part III -- further properties of the code                       *)
(* ================================================================== *)

(** ** Selection of the closest obstacle of each label *)

Module ClosestObstacleProofs.
Import Cxx CxxFacts ObstacleStop ObstacleStopInvariants ObstacleStopProofs.

Local Abbreviation lbl c := (label (classification c)).

Lemma update_candidates_first_minimum
    (so : StopObstacle) (seen cs : list StopObstacle) :
  closest_per_label seen cs ->
  (forall c, In c cs -> first_minimum_of_label seen c) ->
  forall c, In c (update_candidates so cs) ->
            first_minimum_of_label (seen ++ [so]) c.
Proof.
  intros (Hnd & Hsub & Hmin & Hcov) Hfm c Hc.
  destruct (update_candidates_choice so cs Hnd c Hc) as [[Hin Hle] | [-> Hall]].
  - destruct (Hfm c Hin) as (before & after & -> & Hb & Ha).
    exists before, (after ++ [so]). split; [| split].
    + rewrite <- app_assoc. reflexivity.
    + exact Hb.
    + intros o Ho E. apply in_app_or in Ho as [Ho | [<- | []]];
        [now apply Ha | now apply Hle].
  - exists seen, []. split; [reflexivity | split; [| intros o []]].
    intros o Ho E.
    destruct (Hcov o Ho) as (c' & Hc' & Ec').
    assert (combined_dist so < combined_dist c')
      by (apply Hall; [exact Hc' | congruence]).
    assert (combined_dist c' <= combined_dist o)
      by (apply Hmin; [exact Hc' | exact Ho | congruence]).
    lra.
Qed.

Lemma closest_per_label_seen
    (seen seen' cs : list StopObstacle) :
  (forall o, In o seen <-> In o seen') ->
  closest_per_label seen cs -> closest_per_label seen' cs.
Proof.
  intros Hiff (Hnd & Hsub & Hmin & Hcov). repeat split.
  - exact Hnd.
  - intros c Hc. apply Hiff. now apply Hsub.
  - intros c o Hc Ho. apply Hmin; [exact Hc | now apply Hiff].
  - intros o Ho. apply Hcov. now apply Hiff.
Qed.

Lemma fold_update_candidates_first_minimum (sos : list StopObstacle) :
  forall seen cs,
    closest_per_label seen cs ->
    (forall c, In c cs -> first_minimum_of_label seen c) ->
    forall c,
      In c (fold_left (fun candidates stop_obstacle =>
                         update_candidates stop_obstacle candidates) sos cs) ->
      first_minimum_of_label (seen ++ sos) c.
Proof.
  induction sos as [| so sos IH]; simpl; intros seen cs Hcl Hfm c Hc.
  - rewrite app_nil_r. now apply Hfm.
  - replace (seen ++ so :: sos) with ((seen ++ [so]) ++ sos)
      by (rewrite <- app_assoc; reflexivity).
    apply (IH (seen ++ [so]) (update_candidates so cs)); [| | exact Hc].
    + apply (closest_per_label_seen (so :: seen)).
      * intros o. simpl. rewrite in_app_iff. simpl. tauto.
      * now apply update_candidates_closest.
    + now apply update_candidates_first_minimum.
Qed.

(** X1.  [get_closest_stop_obstacles] keeps one obstacle for every
    classification label among the stop obstacles and no two of one
    label; the obstacle it keeps for a label is the first in the list
    that attains the least combined distance (distance to collision plus
    braking distance) of that label: of equally close obstacles the
    earlier one stays. *)
Theorem get_closest_stop_obstacles_first_minimum
    (stop_obstacles : list StopObstacle) :
  NoDup (map (fun c => lbl c) (get_closest_stop_obstacles stop_obstacles))
  /\ (forall o, In o stop_obstacles ->
        exists c, In c (get_closest_stop_obstacles stop_obstacles)
                  /\ lbl c = lbl o)
  /\ (forall c, In c (get_closest_stop_obstacles stop_obstacles) ->
        first_minimum_of_label stop_obstacles c).
Proof.
  destruct (get_closest_stop_obstacles_closest stop_obstacles)
    as (Hnd & _ & _ & Hcov).
  split; [exact Hnd | split; [exact Hcov |]].
  intros c Hc.
  apply (fold_update_candidates_first_minimum stop_obstacles [] []).
  - repeat split; try constructor; intros; contradiction.
  - intros c' [].
  - exact Hc.
Qed.

Lemma update_candidates_fresh (so : StopObstacle) (cs : list StopObstacle) :
  (forall c, In c cs -> lbl c <> lbl so) ->
  update_candidates so cs = cs ++ [so].
Proof.
  induction cs as [| co rest IH]; simpl; intros H; [reflexivity |].
  destruct (Z.eqb_spec (lbl co) (lbl so)) as [E | _].
  - exfalso. apply (H co); auto.
  - rewrite IH; [reflexivity | intros c Hc; apply H; now right].
Qed.

Lemma fold_update_candidates_distinct (l : list StopObstacle) :
  forall cs,
    NoDup (map (fun c => lbl c) (cs ++ l)) ->
    fold_left (fun candidates stop_obstacle =>
                 update_candidates stop_obstacle candidates) l cs
    = cs ++ l.
Proof.
  induction l as [| so l IH]; simpl; intros cs Hnd.
  - now rewrite app_nil_r.
  - rewrite update_candidates_fresh.
    + rewrite IH; rewrite <- app_assoc; [reflexivity | exact Hnd].
    + intros c Hc E. rewrite map_app in Hnd. simpl in Hnd.
      apply NoDup_remove_2 in Hnd. apply Hnd.
      apply in_or_app. left. rewrite <- E.
      now apply (in_map (fun c => lbl c)).
Qed.

Lemma first_appearance_snoc (pre : list Z) (a : Z) :
  rev (nodup Z.eq_dec (rev (pre ++ [a])))
  = if existsb (fun x => (x =? a)%Z) (rev (nodup Z.eq_dec (rev pre)))
    then rev (nodup Z.eq_dec (rev pre))
    else rev (nodup Z.eq_dec (rev pre)) ++ [a].
Proof.
  rewrite rev_app_distr. simpl.
  destruct (existsb _ _) eqn:Ex.
  - apply existsb_exists in Ex as (x & Hx & Ex). apply Z.eqb_eq in Ex. subst x.
    apply in_rev in Hx. apply nodup_In in Hx.
    destruct (in_dec Z.eq_dec a (rev pre)); [reflexivity | contradiction].
  - destruct (in_dec Z.eq_dec a (rev pre)) as [Hin | _]; [| reflexivity].
    exfalso. assert (Hex : existsb (fun x => (x =? a)%Z)
                             (rev (nodup Z.eq_dec (rev pre))) = true).
    { apply existsb_exists. exists a. split; [| apply Z.eqb_refl].
      apply in_rev. rewrite rev_involutive. now apply nodup_In. }
    congruence.
Qed.

Lemma fold_update_candidates_labels (sos : list StopObstacle) :
  forall pre cs,
    map (fun c => lbl c) cs = labels_in_order_of_appearance pre ->
    map (fun c => lbl c)
        (fold_left (fun candidates stop_obstacle =>
                      update_candidates stop_obstacle candidates) sos cs)
    = labels_in_order_of_appearance (pre ++ sos).
Proof.
  induction sos as [| so sos IH]; simpl; intros pre cs H.
  - now rewrite app_nil_r.
  - replace (pre ++ so :: sos) with ((pre ++ [so]) ++ sos)
      by (rewrite <- app_assoc; reflexivity).
    apply IH. rewrite update_candidates_labels.
    unfold labels_in_order_of_appearance in *.
    rewrite map_app. simpl. rewrite first_appearance_snoc, <- H.
    replace (existsb (fun x => (x =? lbl so)%Z) (map (fun c => lbl c) cs))
      with (existsb (fun c => (lbl c =? lbl so)%Z) cs); [reflexivity |].
    clear. induction cs as [| c cs IHc]; simpl; [reflexivity | now rewrite IHc].
Qed.

(** X2.  The obstacles [get_closest_stop_obstacles] returns carry the
    labels of its input in the order of their first appearance; it
    returns a list of pairwise different labels as it is, so that
    applying it twice is applying it once; and it never returns more
    obstacles than it was given. *)
Theorem get_closest_stop_obstacles_idempotent
    (stop_obstacles : list StopObstacle) :
  map (fun c => lbl c) (get_closest_stop_obstacles stop_obstacles)
  = labels_in_order_of_appearance stop_obstacles
  /\ (NoDup (map (fun c => lbl c) stop_obstacles) ->
      get_closest_stop_obstacles stop_obstacles = stop_obstacles)
  /\ get_closest_stop_obstacles (get_closest_stop_obstacles stop_obstacles)
     = get_closest_stop_obstacles stop_obstacles
  /\ (List.length (get_closest_stop_obstacles stop_obstacles)
      <= List.length stop_obstacles)%nat.
Proof.
  assert (Hlabels :
            map (fun c => lbl c) (get_closest_stop_obstacles stop_obstacles)
            = labels_in_order_of_appearance stop_obstacles)
    by (apply (fold_update_candidates_labels stop_obstacles [] []); reflexivity).
  assert (Hdistinct : forall l, NoDup (map (fun c => lbl c) l) ->
                                get_closest_stop_obstacles l = l)
    by (intros l Hl; apply (fold_update_candidates_distinct l []); exact Hl).
  split; [exact Hlabels | split; [apply Hdistinct | split]].
  - apply Hdistinct.
    now destruct (get_closest_stop_obstacles_closest stop_obstacles).
  - rewrite <- (length_map (fun c => lbl c)), Hlabels.
    unfold labels_in_order_of_appearance.
    rewrite length_rev.
    etransitivity; [apply NoDup_incl_length |].
    + apply NoDup_nodup.
    + intros x Hx. apply nodup_In in Hx. exact Hx.
    + now rewrite length_rev, length_map.
Qed.

End ClosestObstacleProofs.

(** ** The predicted-object filter *)

Module PredictedObjectFilterProofs.
Import Cxx CxxFacts ObstacleStop ObstacleStopProofs.

Section Filter.
Context {CM : Cmath} {MU : MotionUtils} {PB : PathLengthBufferOps}
        {PO : PlannerObjects MU} {CG : CurveGeometry MU}.

Local Abbreviation id_of o := (PredictedObject.object_id (predicted_object o)).

Lemma check_consistency_step_appends
    (m : ObstacleStopModule) (t : Time) (objs : list Object)
    (sos : list StopObstacle) (prev : StopObstacle) :
  check_consistency_step m t objs sos prev = sos
  \/ (check_consistency_step m t objs sos prev = sos ++ [prev]
      /\ (forall p, In p sos -> uuid p <> uuid prev)
      /\ (exists o,
             find (fun o => String.eqb (id_of o) (uuid prev)) objs = Some o
             /\ PredictedObject.twist_linear_x (predicted_object o)
                < obstacle_velocity_threshold_enter_fixed_stop
                    (stop_planning_param_ m))
      /\ seconds_between t (stamp prev)
         < stop_obstacle_hold_time_threshold (obstacle_filtering_param_ m)).
Proof.
  unfold check_consistency_step.
  destruct (find _ objs) as [o |] eqn:Ef; [| now left].
  destruct (forallb _ sos) eqn:Ed; [| now left].
  destruct (ltb_spec (PredictedObject.twist_linear_x (predicted_object o))
              (obstacle_velocity_threshold_enter_fixed_stop
                 (stop_planning_param_ m))) as [Hv | Hv];
    simpl; [| now left].
  destruct (ltb_spec (seconds_between t (stamp prev))
              (stop_obstacle_hold_time_threshold (obstacle_filtering_param_ m)))
    as [Ht | Ht]; [| now left].
  right. repeat split; eauto.
  intros p Hp E. rewrite forallb_forall in Ed. specialize (Ed p Hp).
  apply negb_true_iff in Ed. apply String.eqb_neq in Ed. contradiction.
Qed.

Lemma fold_check_consistency_step_appends
    (m : ObstacleStopModule) (t : Time) (objs : list Object)
    (prevs : list StopObstacle) :
  forall sos,
  exists readmitted,
    fold_left (check_consistency_step m t objs) prevs sos = sos ++ readmitted
    /\ NoDup (map uuid readmitted)
    /\ forall so, In so readmitted ->
         In so prevs
         /\ (forall p, In p sos -> uuid p <> uuid so)
         /\ (exists o,
                find (fun o => String.eqb (id_of o) (uuid so)) objs = Some o
                /\ PredictedObject.twist_linear_x (predicted_object o)
                   < obstacle_velocity_threshold_enter_fixed_stop
                       (stop_planning_param_ m))
         /\ seconds_between t (stamp so)
            < stop_obstacle_hold_time_threshold (obstacle_filtering_param_ m).
Proof.
  induction prevs as [| prev prevs IH]; simpl; intros sos.
  - exists []. rewrite app_nil_r. repeat split; [constructor | | | |];
      contradiction.
  - destruct (check_consistency_step_appends m t objs sos prev)
      as [-> | (-> & Hnone & Hobj & Hage)].
    + destruct (IH sos) as (r & -> & Hnd & Hr). exists r.
      split; [reflexivity | split; [exact Hnd |]].
      intros so Hso. destruct (Hr so Hso) as (? & ? & ? & ?). auto.
    + destruct (IH (sos ++ [prev])) as (r & -> & Hnd & Hr).
      exists (prev :: r). split; [now rewrite <- app_assoc | split].
      * simpl. constructor; [| exact Hnd].
        intros Hin. apply in_map_iff in Hin as (so & Eso & Hso).
        destruct (Hr so Hso) as (_ & Hdiff & _).
        apply (Hdiff prev); [apply in_or_app; right; now left | congruence].
      * intros so [<- | Hso]; [auto |].
        destruct (Hr so Hso) as (? & Hdiff & ? & ?).
        repeat split; auto.
        intros p Hp. apply Hdiff. apply in_or_app. now left.
Qed.

(** X3.  [check_consistency] only appends to the stop obstacles of the
    cycle: what it returns is the given list followed by re-admitted
    obstacles.  Each re-admitted obstacle is one of the previous cycle's
    closest obstacles whose UUID is not among the cycle's stop obstacles,
    whose object is still perceived with a longitudinal twist below the
    threshold to enter a fixed stop, and whose stamp is younger than the
    hold time; no UUID is re-admitted twice. *)
Theorem check_consistency_only_appends
    (m : ObstacleStopModule) (current_time : Time) (objs : list Object)
    (stop_obstacles : list StopObstacle) :
  exists readmitted,
    check_consistency m current_time objs stop_obstacles
    = stop_obstacles ++ readmitted
    /\ NoDup (map uuid readmitted)
    /\ forall so, In so readmitted ->
         In so (prev_closest_stop_obstacles_ m)
         /\ (forall p, In p stop_obstacles -> uuid p <> uuid so)
         /\ (exists o,
                find (fun o => String.eqb (id_of o) (uuid so)) objs = Some o
                /\ PredictedObject.twist_linear_x (predicted_object o)
                   < obstacle_velocity_threshold_enter_fixed_stop
                       (stop_planning_param_ m))
         /\ seconds_between current_time (stamp so)
            < stop_obstacle_hold_time_threshold (obstacle_filtering_param_ m).
Proof.
  unfold check_consistency. apply fold_check_consistency_step_appends.
Qed.

Lemma pick_stop_obstacle_from_predicted_object_emits
    (m : ObstacleStopModule) (c : CycleInput) (o : Object) (d : Q)
    (so : StopObstacle) :
  pick_stop_obstacle_from_predicted_object m c o d = Ok (Some so) ->
  let traj_points := traj_points_in c in
  uuid so = id_of o
  /\ stamp so = predicted_objects_stamp c
  /\ velocity so = get_lon_vel_relative_to_traj o traj_points
  /\ (exists rest,
         PredictedObject.classification (predicted_object o)
         = classification so :: rest)
  /\ is_in_vector (label (classification so))
       (inside_stop_object_types (obstacle_filtering_param_ m)) = true
  /\ d < std_max (get_max_lat_margin m (label (classification so))) 0.001
         + std_max (get_lat_vel_relative_to_traj o traj_points
                    * match calc_estimation_time (predicted_object o)
                              (obstacle_filtering_param_ m) with
                      | Ok estimation_time => estimation_time
                      | Throw _ => 0
                      end) 0
  /\ (braking_dist so = None
      <-> is_obstacle_velocity_requiring_fixed_stop m o traj_points = true)
  /\ (forall b, braking_dist so = Some b ->
        use_rss_stop (rss_params (stop_planning_param_ m)) = true
        /\ b = calc_braking_dist (label (classification so))
                 (get_lon_vel_relative_to_traj o traj_points)
                 (rss_params (stop_planning_param_ m))).
Proof.
  unfold pick_stop_obstacle_from_predicted_object.
  destruct (calc_estimation_time _ _) as [estimation_time |]; [| discriminate].
  destruct (PredictedObject.classification (predicted_object o)) as [| c0 rest];
    [discriminate |].
  destruct (is_in_vector (label c0) _) eqn:Einside; [| discriminate]. simpl.
  match goal with
  | |- context [leb ?a ?b] => destruct (leb_spec a b) as [| Hlat]
  end; [discriminate |].
  match goal with
  | |- context [match ?x with Some _ => _ | None => _ end] =>
      destruct x; [| discriminate]
  end.
  destruct (_ && _); [discriminate |].
  destruct (is_obstacle_velocity_requiring_fixed_stop m o (traj_points_in c)).
  - intros [= <-]. simpl. repeat split; eauto; try discriminate; lra.
  - destruct (use_rss_stop _) eqn:Erss; [| discriminate].
    intros [= <-]. simpl. repeat split; eauto; try discriminate; try lra.
    congruence.
Qed.

(** X4.  Every stop obstacle the loop of
    [filter_stop_obstacle_for_predicted_object] picks stems from an
    object of the cycle that is not behind the ego and whose first
    classification label is among the inside stop-object types; it
    carries that object's UUID and first classification, the stamp of
    the predicted objects and the object's longitudinal velocity
    relative to the trajectory.  It has no braking distance exactly when
    the velocity test asks for a fixed stop; otherwise RSS stopping is
    enabled and the braking distance is that of [calc_braking_dist]. *)
Theorem picked_stop_obstacles_stem_from_objects
    (m : ObstacleStopModule) (c : CycleInput) (objs : list Object) :
  forall picks,
    pick_stop_obstacles m c objs = Ok picks ->
    forall so, In so picks ->
      exists o,
        In o objs
        /\ 0 <= get_dist_from_ego_longitudinal o (traj_points_in c)
                  (odometry_position c)
        /\ uuid so = id_of o
        /\ stamp so = predicted_objects_stamp c
        /\ velocity so = get_lon_vel_relative_to_traj o (traj_points_in c)
        /\ (exists rest,
               PredictedObject.classification (predicted_object o)
               = classification so :: rest)
        /\ is_in_vector (label (classification so))
             (inside_stop_object_types (obstacle_filtering_param_ m)) = true
        /\ (braking_dist so = None
            <-> is_obstacle_velocity_requiring_fixed_stop m o (traj_points_in c)
                = true)
        /\ (forall b, braking_dist so = Some b ->
              use_rss_stop (rss_params (stop_planning_param_ m)) = true
              /\ b = calc_braking_dist (label (classification so))
                       (get_lon_vel_relative_to_traj o (traj_points_in c))
                       (rss_params (stop_planning_param_ m))).
Proof.
  induction objs as [| o objs IH]; simpl; intros picks H so Hso.
  - injection H as <-. contradiction.
  - assert (Hrest : forall picks',
               pick_stop_obstacles m c objs = Ok picks' -> In so picks' ->
               exists o', (o = o' \/ In o' objs)
                 /\ 0 <= get_dist_from_ego_longitudinal o' (traj_points_in c)
                           (odometry_position c)
                 /\ uuid so = id_of o'
                 /\ stamp so = predicted_objects_stamp c
                 /\ velocity so = get_lon_vel_relative_to_traj o' (traj_points_in c)
                 /\ (exists rest,
                        PredictedObject.classification (predicted_object o')
                        = classification so :: rest)
                 /\ is_in_vector (label (classification so))
                      (inside_stop_object_types (obstacle_filtering_param_ m))
                    = true
                 /\ (braking_dist so = None
                     <-> is_obstacle_velocity_requiring_fixed_stop m o'
                           (traj_points_in c) = true)
                 /\ (forall b, braking_dist so = Some b ->
                       use_rss_stop (rss_params (stop_planning_param_ m)) = true
                       /\ b = calc_braking_dist (label (classification so))
                                (get_lon_vel_relative_to_traj o' (traj_points_in c))
                                (rss_params (stop_planning_param_ m)))).
    { intros picks' H' Hin. destruct (IH picks' H' so Hin) as (o' & ? & ?).
      exists o'. split; [now right | assumption]. }
    destruct (ltb_spec (get_dist_from_ego_longitudinal o (traj_points_in c)
                          (odometry_position c)) 0) as [| Hfront];
      [now apply (Hrest picks) |].
    destruct (calc_possible_min_dist_from_obj_to_traj_poly _ _ _);
      [| discriminate].
    destruct (PredictedObject.classification (predicted_object o));
      [discriminate |].
    destruct (ltb _ _); [now apply (Hrest picks) |].
    destruct (pick_stop_obstacle_from_predicted_object _ _ _ _)
      as [picked |] eqn:Ep; [| discriminate].
    destruct (pick_stop_obstacles m c objs) as [more |] eqn:Em; [| discriminate].
    injection H as <-.
    destruct picked as [so0 |]; [| now apply (Hrest more)].
    destruct Hso as [<- | Hso]; [| now apply (Hrest more)].
    apply pick_stop_obstacle_from_predicted_object_emits in Ep.
    destruct Ep as (Hu & Hs & Hv & Hc & Hl & _ & Hb & Hr).
    exists o. split; [now left |].
    split; [lra |]. tauto.
Qed.

Lemma pick_stop_obstacle_from_predicted_object_returns
    (m : ObstacleStopModule) (c : CycleInput) (o : Object) (d : Q)
    (c0 : ObjectClassification) (rest : list ObjectClassification) :
  PredictedObject.classification (predicted_object o) = c0 :: rest ->
  raises (pick_stop_obstacle_from_predicted_object m c o d) = false.
Proof.
  intros E.
  destruct (pick_stop_obstacle_from_predicted_object m c o d) as [r | e] eqn:Ep;
    [reflexivity |].
  apply pick_stop_obstacle_throws_out_of_range in Ep as [_ Ep]. congruence.
Qed.


End Filter.

End PredictedObjectFilterProofs.

(** ** Stop planning *)

Module PlanStopProofs.
Import Cxx CxxFacts ObstacleStop ObstacleStopProofs.

Section PlanStop.
Context {CM : Cmath} {MU : MotionUtils} {PB : PathLengthBufferOps}
        {PO : PlannerObjects MU} {CG : CurveGeometry MU}.

Variables (m : ObstacleStopModule) (planner_data : PlannerData)
          (traj_points : TrajectoryPoints) (dist_to_bumper : Q).

Local Abbreviation lbl c := (label (classification c)).

(** The loop body on an empty determination: the candidate stop of one
    obstacle, if it has one. *)
Local Abbreviation candidate_of so :=
  (plan_stop_step m planner_data traj_points dist_to_bumper None so).

Local Abbreviation step :=
  (plan_stop_step m planner_data traj_points dist_to_bumper).

Lemma candidate_of_obstacle (so : StopObstacle) (d : Determined) :
  candidate_of so = Some d -> determined_obstacle d = so.
Proof.
  unfold plan_stop_step.
  destruct (calc_candidate_zero_vel_dist _ _ _ _ _ _); [| discriminate].
  intros [= <-]. reflexivity.
Qed.

Lemma plan_stop_step_other_label (d0 : Determined) (so : StopObstacle) :
  lbl so <> lbl (determined_obstacle d0) ->
  step (Some d0) so
  = match candidate_of so with
    | None => Some d0
    | Some d1 =>
        if gtb (determined_zero_vel_dist d1) (determined_zero_vel_dist d0)
        then Some d0
        else Some d1
    end.
Proof.
  intros Hl. unfold plan_stop_step.
  destruct (calc_candidate_zero_vel_dist _ _ _ _ _ _) as [c |]; [| reflexivity].
  rewrite keeps_determined_by_label.
  destruct (Z.eqb_spec (lbl so) (lbl (determined_obstacle d0)));
    [contradiction | reflexivity].
Qed.

Lemma fold_plan_stop_step_least (l : list StopObstacle) :
  forall d0,
    NoDup (map (fun c => lbl c) l) ->
    ~ In (lbl (determined_obstacle d0)) (map (fun c => lbl c) l) ->
    candidate_of (determined_obstacle d0) = Some d0 ->
    exists d,
      fold_left step l (Some d0) = Some d
      /\ determined_zero_vel_dist d <= determined_zero_vel_dist d0
      /\ (d = d0 \/ In (determined_obstacle d) l)
      /\ candidate_of (determined_obstacle d) = Some d
      /\ forall so d', In so l -> candidate_of so = Some d' ->
           determined_zero_vel_dist d <= determined_zero_vel_dist d'.
Proof.
  induction l as [| so l IH]; simpl; intros d0 Hnd Hfresh Hd0.
  - exists d0. repeat split; auto; try lra. intros so d' [].
  - inversion Hnd as [| ? ? Hso Hnd']; subst.
    rewrite plan_stop_step_other_label by (intros E; apply Hfresh; now left).
    destruct (candidate_of so) as [d1 |] eqn:Ec.
    + destruct (gtb_spec (determined_zero_vel_dist d1)
                  (determined_zero_vel_dist d0)) as [Hgt | Hle].
      * destruct (IH d0 Hnd') as (d & Hf & Hdist & Hin & Hc & Hall);
          [intros H; apply Hfresh; now right | exact Hd0 |].
        exists d. repeat split; auto.
        -- destruct Hin; auto.
        -- intros so' d' [<- | Hin'] Hc'; [| eauto].
           assert (d' = d1) by congruence. subst d'. lra.
      * assert (Eo : determined_obstacle d1 = so)
          by now apply candidate_of_obstacle.
        destruct (IH d1 Hnd') as (d & Hf & Hdist & Hin & Hc & Hall);
          [now rewrite Eo | now rewrite Eo |].
        exists d. repeat split; auto.
        -- lra.
        -- right. destruct Hin as [-> | Hin]; [left; now rewrite Eo | now right].
        -- intros so' d' [<- | Hin'] Hc'; [| eauto].
           assert (d' = d1) by congruence. subst d'. exact Hdist.
    + destruct (IH d0 Hnd') as (d & Hf & Hdist & Hin & Hc & Hall);
        [intros H; apply Hfresh; now right | exact Hd0 |].
      exists d. repeat split; auto.
      * destruct Hin; auto.
      * intros so' d' [<- | Hin'] Hc'; [congruence | eauto].
Qed.

Lemma fold_plan_stop_step_from_none (l : list StopObstacle) :
  NoDup (map (fun c => lbl c) l) ->
  match fold_left step l None with
  | None => forall so, In so l -> candidate_of so = None
  | Some d =>
      In (determined_obstacle d) l
      /\ candidate_of (determined_obstacle d) = Some d
      /\ forall so d', In so l -> candidate_of so = Some d' ->
           determined_zero_vel_dist d <= determined_zero_vel_dist d'
  end.
Proof.
  induction l as [| so l IH]; simpl; intros Hnd; [intros so [] |].
  inversion Hnd as [| ? ? Hso Hnd']; subst.
  destruct (candidate_of so) as [d1 |] eqn:Ec.
  - assert (Eo : determined_obstacle d1 = so) by now apply candidate_of_obstacle.
    destruct (fold_plan_stop_step_least l d1 Hnd') as (d & -> & Hdist & Hin & Hc & Hall);
      [now rewrite Eo | now rewrite Eo |].
    repeat split; auto.
    + destruct Hin as [-> | Hin]; [left; now rewrite Eo | now right].
    + intros so' d' [<- | Hin'] Hc'; [| eauto].
      assert (d' = d1) by congruence. subst d'. exact Hdist.
  - specialize (IH Hnd'). destruct (fold_left step l None) as [d |].
    + destruct IH as (Hin & Hc & Hall). repeat split; auto.
      intros so' d' [<- | Hin'] Hc'; [congruence | eauto].
    + intros so' [<- | Hin']; auto.
Qed.

(** X6.  Between the closest obstacles of different labels [plan_stop]
    determines the one whose candidate stop distance is least: the
    determined obstacle is one of the closest obstacles, its stop
    distance and margin are those computed for it, and no closest
    obstacle that yields a candidate stop distance yields a smaller
    one. *)
Theorem plan_stop_determines_least_stop_distance
    (stop_obstacles : list StopObstacle) (d : Determined) :
  determine_stop m planner_data traj_points stop_obstacles dist_to_bumper
  = Some d ->
  In (determined_obstacle d) (get_closest_stop_obstacles stop_obstacles)
  /\ candidate_of (determined_obstacle d) = Some d
  /\ forall so d',
       In so (get_closest_stop_obstacles stop_obstacles) ->
       candidate_of so = Some d' ->
       determined_zero_vel_dist d <= determined_zero_vel_dist d'.
Proof.
  intros Hd.
  destruct (get_closest_stop_obstacles_closest stop_obstacles) as (Hnd & _).
  pose proof (fold_plan_stop_step_from_none
                (get_closest_stop_obstacles stop_obstacles) Hnd) as H.
  unfold determine_stop in Hd. rewrite Hd in H. exact H.
Qed.

(** X7.  [plan_stop] determines no obstacle exactly when none of the
    closest obstacles yields a candidate stop distance; it then returns
    no stop point and forgets the previous stop distance.  Without
    sudden-stop suppression every obstacle yields a candidate, so that a
    non-empty list of stop obstacles always has a determined one. *)
Theorem plan_stop_determines_none_iff
    (clock_now : Time) (stop_obstacles : list StopObstacle) :
  (determine_stop m planner_data traj_points stop_obstacles dist_to_bumper
   = None
   <-> forall so, In so (get_closest_stop_obstacles stop_obstacles) ->
                  candidate_of so = None)
  /\ (determine_stop m planner_data traj_points stop_obstacles dist_to_bumper
      = None ->
      plan_stop m clock_now planner_data traj_points stop_obstacles
        dist_to_bumper
      = (set_prev_stop_distance_info m None, None))
  /\ (suppress_sudden_stop_ m = false -> stop_obstacles <> [] ->
      exists d,
        determine_stop m planner_data traj_points stop_obstacles dist_to_bumper
        = Some d).
Proof.
  destruct (get_closest_stop_obstacles_closest stop_obstacles)
    as (Hnd & _ & _ & Hcov).
  pose proof (fold_plan_stop_step_from_none
                (get_closest_stop_obstacles stop_obstacles) Hnd) as H.
  assert (Hiff :
            determine_stop m planner_data traj_points stop_obstacles
              dist_to_bumper = None
            <-> forall so, In so (get_closest_stop_obstacles stop_obstacles) ->
                           candidate_of so = None).
  { unfold determine_stop.
    destruct (fold_left step _ None) as [d |].
    - destruct H as (Hin & Hc & _). split; [discriminate |].
      intros Hall. rewrite (Hall _ Hin) in Hc. discriminate.
    - split; auto. }
  split; [exact Hiff | split].
  - intros Hd. unfold plan_stop. rewrite Hd. now destruct stop_obstacles.
  - intros Hs Hne.
    destruct (determine_stop m planner_data traj_points stop_obstacles
                dist_to_bumper) as [d |] eqn:Hd; [eauto |].
    exfalso. destruct stop_obstacles as [| o rest]; [congruence |].
    destruct (Hcov o (or_introl eq_refl)) as (c & Hc & _).
    pose proof (proj1 Hiff eq_refl c Hc) as Hcand.
    unfold plan_stop_step, calc_candidate_zero_vel_dist in Hcand.
    rewrite Hs in Hcand. discriminate.
Qed.

(** X8.  What [plan_stop] leaves of the module: the options, the three
    parameter sets, the previous stop obstacles and the point-cloud
    history are never modified.  The previous stop distance is reset
    when there are no stop obstacles; once an obstacle is determined it
    is replaced by the trajectory with the stop inserted and the stop
    distance used, and it stays as it was when the stop point cannot be
    inserted.  The path-length buffer is only touched for an obstacle
    slower than [max_negative_velocity]. *)
Theorem plan_stop_frame
    (clock_now : Time) (stop_obstacles : list StopObstacle) :
  let r := plan_stop m clock_now planner_data traj_points stop_obstacles
             dist_to_bumper in
  (ignore_crossing_obstacle_ (fst r) = ignore_crossing_obstacle_ m
   /\ suppress_sudden_stop_ (fst r) = suppress_sudden_stop_ m
   /\ common_param_ (fst r) = common_param_ m
   /\ stop_planning_param_ (fst r) = stop_planning_param_ m
   /\ obstacle_filtering_param_ (fst r) = obstacle_filtering_param_ m
   /\ prev_stop_obstacles_ (fst r) = prev_stop_obstacles_ m
   /\ prev_closest_stop_obstacles_ (fst r) = prev_closest_stop_obstacles_ m
   /\ stop_pointcloud_obstacle_history_ (fst r)
      = stop_pointcloud_obstacle_history_ m)
  /\ (stop_obstacles = [] -> r = (set_prev_stop_distance_info m None, None))
  /\ (forall d,
        determine_stop m planner_data traj_points stop_obstacles dist_to_bumper
        = Some d ->
        let zero_vel_dist :=
          hold_previous_stop_if_necessary m planner_data traj_points
            (determined_zero_vel_dist d) in
        (forall zero_vel_idx output_traj_points,
            insertStopPoint zero_vel_dist traj_points
            = Some (zero_vel_idx, output_traj_points) ->
            prev_stop_distance_info_ (fst r)
            = Some (output_traj_points, zero_vel_dist))
        /\ (insertStopPoint zero_vel_dist traj_points = None ->
            prev_stop_distance_info_ (fst r) = prev_stop_distance_info_ m)
        /\ (max_negative_velocity (stop_planning_param_ m)
            <= velocity (determined_obstacle d) ->
            path_length_buffer_ (fst r) = path_length_buffer_ m)).
Proof.
  intros r. subst r. unfold plan_stop.
  destruct stop_obstacles as [| so sos].
  { simpl. repeat split; auto. all: discriminate. }
  destruct (determine_stop m planner_data traj_points (so :: sos) dist_to_bumper)
    as [d |] eqn:Hd.
  2: { simpl. repeat split; auto; discriminate. }
  unfold calc_stop_point.
  destruct (insertStopPoint _ traj_points) as [[idx out] |] eqn:Ei;
    (destruct (geb_spec (velocity (determined_obstacle d))
                 (max_negative_velocity (stop_planning_param_ m))) as [Hv | Hv];
     [| destruct (get_nearest_active_item _)]);
    simpl; repeat split; auto; try discriminate; intros;
    repeat match goal with
           | H : Some _ = Some _ |- _ => injection H as <-
           end;
    simpl; try congruence; try contradiction.
Qed.

(** X9.  [hold_previous_stop_if_necessary] moves the stop distance by
    less than the hold distance threshold or not at all: its result is
    the determined distance itself, or the previous stop distance
    carried over to the current trajectory, and then the two differ by
    less than the threshold.  With no previous stop distance, or with
    the ego at or above the hold velocity threshold, the determined
    distance is returned. *)
Theorem hold_previous_stop_moves_less_than_threshold
    (determined_zero_vel_dist_ : Q) :
  let r := hold_previous_stop_if_necessary m planner_data traj_points
             determined_zero_vel_dist_ in
  let sp := stop_planning_param_ m in
  (r = determined_zero_vel_dist_
   \/ (std_abs (r - determined_zero_vel_dist_) < hold_stop_distance_threshold sp
       /\ std_abs (current_velocity planner_data)
          < hold_stop_velocity_threshold sp
       /\ exists prev_traj prev_dist,
            prev_stop_distance_info_ m = Some (prev_traj, prev_dist)
            /\ r = prev_dist
                   - calcSignedArcLength_idx_point_seg prev_traj 0
                       (front_position traj_points)
                       (findFirstNearestSegmentIndexWithSoftConstraints
                          prev_traj (front_position traj_points))))
  /\ (prev_stop_distance_info_ m = None -> r = determined_zero_vel_dist_)
  /\ (hold_stop_velocity_threshold sp
      <= std_abs (current_velocity planner_data) ->
      r = determined_zero_vel_dist_).
Proof.
  intros r sp. subst r sp. unfold hold_previous_stop_if_necessary.
  destruct (prev_stop_distance_info_ m) as [[prev_traj prev_dist] |].
  - destruct (ltb_spec (std_abs (current_velocity planner_data))
                (hold_stop_velocity_threshold (stop_planning_param_ m)))
      as [Hv | Hv].
    + match goal with
      | |- context [ltb ?a ?b] => destruct (ltb_spec a b) as [Hd | Hd]
      end.
      * split; [right | split; [discriminate | intros; lra]].
        split; [exact Hd | split; [exact Hv | eauto]].
      * split; [now left | split; [discriminate | reflexivity]].
    + split; [now left | split; [discriminate | reflexivity]].
  - split; [now left | split; reflexivity].
Qed.

(** X10.  For an obstacle that is not fast oncoming traffic, with the
    approach on curves disabled or the point cloud in use,
    [calc_desired_stop_margin] returns one of the three configured
    margins: the minimum behavior stop margin when a stop point of the
    behavior planner lies ahead of the obstacle stop by less than the
    default margin, and otherwise the default margin, which is the
    terminal stop margin for a collision beyond the end of the
    trajectory and the stop margin else. *)
Theorem desired_stop_margin_without_curve_approach
    (stop_obstacle : StopObstacle) (ego_segment_idx : nat)
    (dist_to_collide_on_ref_traj : Q) :
  let sp := stop_planning_param_ m in
  enable_approaching_on_curve sp = false
  \/ use_pointcloud (obstacle_filtering_param_ m) = true ->
  max_negative_velocity sp <= velocity stop_obstacle ->
  let r := calc_desired_stop_margin m planner_data traj_points stop_obstacle
             dist_to_bumper ego_segment_idx dist_to_collide_on_ref_traj in
  let default :=
    if gtb dist_to_collide_on_ref_traj
           (calcSignedArcLength_idx_idx traj_points 0 (size traj_points - 1))
    then terminal_stop_margin sp
    else stop_margin sp in
  (searchZeroVelocityIndex traj_points (ego_segment_idx + 1) = None ->
   r = default)
  /\ (forall closest_behavior_stop_idx,
        searchZeroVelocityIndex traj_points (ego_segment_idx + 1)
        = Some closest_behavior_stop_idx ->
        let stop_dist_diff :=
          calcSignedArcLength_idx_idx traj_points 0 closest_behavior_stop_idx
          - (dist_to_collide_on_ref_traj - default) in
        (0 < stop_dist_diff /\ stop_dist_diff < default ->
         r = min_behavior_stop_margin sp)
        /\ (stop_dist_diff <= 0 \/ default <= stop_dist_diff -> r = default)).
Proof.
  intros sp Hcurve Hv r default. subst r default sp.
  unfold calc_desired_stop_margin.
  assert (Ed : default_stop_margin m planner_data traj_points stop_obstacle
                 dist_to_collide_on_ref_traj
               = if gtb dist_to_collide_on_ref_traj
                        (calcSignedArcLength_idx_idx traj_points 0
                           (size traj_points - 1))
                 then terminal_stop_margin (stop_planning_param_ m)
                 else stop_margin (stop_planning_param_ m)).
  { unfold default_stop_margin.
    destruct (ltb_spec (velocity stop_obstacle)
                (max_negative_velocity (stop_planning_param_ m)));
      [lra | reflexivity]. }
  assert (Ec : forall d,
             calc_margin_from_obstacle_on_curve m traj_points stop_obstacle
               dist_to_bumper d = d).
  { intros d. unfold calc_margin_from_obstacle_on_curve.
    destruct Hcurve as [-> | ->]; [reflexivity |].
    now rewrite orb_true_r. }
  rewrite Ec, Ed.
  destruct (searchZeroVelocityIndex traj_points (ego_segment_idx + 1)) as [idx |].
  - split; [discriminate |]. intros idx' [= <-]. simpl.
    match goal with
    | |- context [ltb 0 ?a && ltb ?a ?b] =>
        destruct (ltb_spec 0 a); destruct (ltb_spec a b); simpl
    end; split; intros; try reflexivity; lra.
  - split; [reflexivity | discriminate].
Qed.

End PlanStop.

End PlanStopProofs.

(** ** The braking distance of an obstacle *)

Module BrakingDistProofs.
Import Cxx CxxFacts ObstacleStop.

Lemma half_square_over_positive (e a : Q) :
  0 < a -> 0 <= e * e * 0.5 / a.
Proof.
  intros Ha. unfold Qdiv.
  apply Qmult_le_0_compat; [nra |].
  apply Qlt_le_weak. now apply Qinv_lt_0_compat.
Qed.

Lemma half_square_over_positive_monotone (e e' a : Q) :
  0 < a -> 0 <= e -> e <= e' -> e * e * 0.5 / a <= e' * e' * 0.5 / a.
Proof.
  intros Ha He Hee. unfold Qdiv.
  apply Qmult_le_compat_r; [nra |].
  apply Qlt_le_weak. now apply Qinv_lt_0_compat.
Qed.

(** X11.  With the three configured decelerations negative, the braking
    distance of [calc_braking_dist] is never negative, it is zero for an
    obstacle whose longitudinal velocity plus the velocity offset is not
    positive, and it does not decrease when the velocity grows. *)
Theorem calc_braking_dist_nonnegative_monotone
    (obj_label : Z) (lon_vel lon_vel' : Q) (rss : RSSParam) :
  no_wheel_objects_deceleration rss < 0 ->
  two_wheel_objects_deceleration rss < 0 ->
  vehicle_objects_deceleration rss < 0 ->
  0 <= calc_braking_dist obj_label lon_vel rss
  /\ (lon_vel + velocity_offset rss <= 0 ->
      calc_braking_dist obj_label lon_vel rss == 0)
  /\ (lon_vel <= lon_vel' ->
      calc_braking_dist obj_label lon_vel rss
      <= calc_braking_dist obj_label lon_vel' rss).
Proof.
  intros Hn Ht Hv. unfold calc_braking_dist.
  set (braking_acc :=
         if ((obj_label =? UNKNOWN) || (obj_label =? PEDESTRIAN))%Z
         then no_wheel_objects_deceleration rss
         else if ((obj_label =? BICYCLE) || (obj_label =? MOTORCYCLE))%Z
              then two_wheel_objects_deceleration rss
              else vehicle_objects_deceleration rss).
  assert (Ha : 0 < - braking_acc).
  { subst braking_acc.
    destruct ((obj_label =? UNKNOWN) || (obj_label =? PEDESTRIAN))%Z; [lra |].
    destruct ((obj_label =? BICYCLE) || (obj_label =? MOTORCYCLE))%Z; lra. }
  pose proof (std_max_lub (lon_vel + velocity_offset rss) 0) as [_ He].
  split; [now apply half_square_over_positive | split].
  - intros Hle.
    destruct (std_max_cases (lon_vel + velocity_offset rss) 0) as [[H E] | [H E]].
    + rewrite E. unfold Qdiv. ring.
    + rewrite E.
      assert (E0 : lon_vel + velocity_offset rss == 0) by lra.
      rewrite E0. unfold Qdiv. ring.
  - intros Hle. apply half_square_over_positive_monotone; [exact Ha | exact He |].
    destruct (std_max_cases (lon_vel + velocity_offset rss) 0) as [[H E] | [H E]];
      destruct (std_max_cases (lon_vel' + velocity_offset rss) 0)
        as [[H' E'] | [H' E']]; rewrite E, E'; lra.
Qed.

End BrakingDistProofs.

(** ** The point-cloud filter *)

Module PointCloudFilterProofs.
Import Cxx CxxFacts ObstacleStop ObstacleStopInvariants ObstacleStopProofs.

Section PointCloud.
Context {CM : Cmath} {MU : MotionUtils} {PB : PathLengthBufferOps}
        {PO : PlannerObjects MU} {CG : CurveGeometry MU}.

Lemma ltb_x_finite (a b : Q) : ltb_x a (Finite b) = ltb a b.
Proof. reflexivity. Qed.

Lemma fold_x_min (point : geometry_msgs.Point) (polys : list Polygon2d) :
  forall acc,
    let r := fold_left
               (fun dist_to_traj_poly decimated_traj_poly =>
                  x_min dist_to_traj_poly
                        (Finite (bg_distance decimated_traj_poly point)))
               polys acc in
    (r = PosInf <-> acc = PosInf /\ polys = [])
    /\ forall d, r = Finite d ->
         (acc = Finite d
          \/ exists poly, In poly polys /\ d = bg_distance poly point)
         /\ (forall a, acc = Finite a -> d <= a)
         /\ forall poly, In poly polys -> d <= bg_distance poly point.
Proof.
  induction polys as [| poly polys IH]; simpl; intros acc.
  - split; [tauto |]. intros d ->. repeat split; auto.
    + intros a [= <-]. lra.
    + intros poly [].
  - specialize (IH (x_min acc (Finite (bg_distance poly point)))).
    simpl in IH. destruct IH as [Hinf Hfin]. split.
    + rewrite Hinf. split; [| intros [_ ?]; discriminate].
      intros [H _]. destruct acc; discriminate.
    + intros d Hd. destruct (Hfin d Hd) as (Hfrom & Hacc & Hall).
      destruct acc as [a |]; simpl in *.
      * pose proof (std_min_glb a (bg_distance poly point)) as [H1 H2].
        pose proof (Hacc _ eq_refl) as Hle.
        split; [| split].
        -- destruct Hfrom as [[= E] | (poly' & Hin & ->)]; [| eauto].
           destruct (std_min_cases a (bg_distance poly point))
             as [[_ E'] | [_ E']]; rewrite E' in E; subst d; eauto.
        -- intros a' [= <-]. lra.
        -- intros poly' [<- | Hin]; [lra | auto].
      * pose proof (Hacc _ eq_refl) as Hle.
        split; [| split].
        -- destruct Hfrom as [[= E] | (poly' & Hin & ->)]; [| eauto].
           subst d. eauto.
        -- discriminate.
        -- intros poly' [<- | Hin]; [lra | auto].
Qed.

(** X12.  [get_dist_to_traj_poly] is the least distance from the point
    to one of the trajectory polygons: infinite exactly when there is no
    polygon, and otherwise the distance to some polygon, below which no
    polygon lies. *)
Theorem get_dist_to_traj_poly_is_least_distance
    (point : geometry_msgs.Point) (decimated_traj_polys : list Polygon2d) :
  (get_dist_to_traj_poly point decimated_traj_polys = PosInf
   <-> decimated_traj_polys = [])
  /\ forall d,
       get_dist_to_traj_poly point decimated_traj_polys = Finite d ->
       (exists poly, In poly decimated_traj_polys
                     /\ d = bg_distance poly point)
       /\ forall poly, In poly decimated_traj_polys ->
                       d <= bg_distance poly point.
Proof.
  unfold get_dist_to_traj_poly.
  destruct (fold_x_min point decimated_traj_polys PosInf) as [Hinf Hfin].
  split.
  - rewrite Hinf. tauto.
  - intros d Hd. destruct (Hfin d Hd) as ([E | Hex] & _ & Hall);
      [discriminate | auto].
Qed.

Section Cluster.
Variables (m : ObstacleStopModule) (traj_points : TrajectoryPoints)
          (decimated_traj_polys : list Polygon2d) (vehicle_info : VehicleInfo)
          (ego_idx : nat).

Local Abbreviation passes q :=
  (within_lateral_margins m traj_points decimated_traj_polys vehicle_info q
   = true).
Local Abbreviation front q :=
  (calc_distance_to_front_object traj_points ego_idx q).

Lemma closest_point_of_cluster_from (cluster : list geometry_msgs.Point) :
  forall best_dist best,
    let r := closest_point_of_cluster m traj_points decimated_traj_polys
               vehicle_info ego_idx cluster best_dist best in
    (r = best
     /\ forall q dq, In q cluster -> passes q -> front q = Some dq ->
                     ltb_x dq best_dist = false)
    \/ (exists p dp,
           r = Some p /\ In p cluster /\ passes p /\ front p = Some dp
           /\ ltb_x dp best_dist = true
           /\ forall q dq, In q cluster -> passes q -> front q = Some dq ->
                           dp <= dq).
Proof.
  unfold within_lateral_margins.
  induction cluster as [| q cluster IH]; intros best_dist best; simpl.
  - left. split; [reflexivity | intros q dq []].
  - assert (Hskip :
              (within_lateral_margins m traj_points decimated_traj_polys
                 vehicle_info q = true ->
               forall dq, front q = Some dq -> ltb_x dq best_dist = false) ->
              let r := closest_point_of_cluster m traj_points
                         decimated_traj_polys vehicle_info ego_idx cluster
                         best_dist best in
              (r = best
               /\ forall q0 dq, (q = q0 \/ In q0 cluster) ->
                    negb (geb (min_lat_dist_to_traj_poly traj_points
                                 vehicle_info q0)
                              (max_lat_margin (obstacle_filtering_param_ m)))
                    && negb (x_geb (get_dist_to_traj_poly q0 decimated_traj_polys)
                                   (max_lat_margin (obstacle_filtering_param_ m)))
                    = true ->
                    front q0 = Some dq -> ltb_x dq best_dist = false)
              \/ (exists p dp,
                     r = Some p /\ (q = p \/ In p cluster)
                     /\ negb (geb (min_lat_dist_to_traj_poly traj_points
                                     vehicle_info p)
                                  (max_lat_margin (obstacle_filtering_param_ m)))
                        && negb (x_geb (get_dist_to_traj_poly p
                                          decimated_traj_polys)
                                       (max_lat_margin
                                          (obstacle_filtering_param_ m)))
                        = true
                     /\ front p = Some dp
                     /\ ltb_x dp best_dist = true
                     /\ forall q0 dq, (q = q0 \/ In q0 cluster) ->
                          negb (geb (min_lat_dist_to_traj_poly traj_points
                                       vehicle_info q0)
                                    (max_lat_margin (obstacle_filtering_param_ m)))
                          && negb (x_geb (get_dist_to_traj_poly q0
                                            decimated_traj_polys)
                                         (max_lat_margin
                                            (obstacle_filtering_param_ m)))
                          = true ->
                          front q0 = Some dq -> dp <= dq)).
    { intros Hq r. subst r.
      destruct (IH best_dist best) as [[E Hall] | (p & dp & E & Hin & Hp & Hf & Hlt & Hall)].
      - left. split; [exact E |].
        intros q0 dq [<- | Hin] Hpass Hfront; [now apply Hq | eauto].
      - right. exists p, dp. repeat split; auto.
        intros q0 dq [<- | Hin0] Hpass Hfront; [| eauto].
        specialize (Hq Hpass dq Hfront).
        destruct best_dist as [b |]; simpl in *; [| discriminate].
        apply ltb_true in Hlt. apply ltb_false in Hq. lra. }
    destruct (geb (min_lat_dist_to_traj_poly traj_points vehicle_info q) _) eqn:E1.
    { apply Hskip. unfold within_lateral_margins. rewrite E1. discriminate. }
    destruct (x_geb (get_dist_to_traj_poly q decimated_traj_polys) _) eqn:E2.
    { apply Hskip. unfold within_lateral_margins. rewrite E1, E2. discriminate. }
    destruct (calc_distance_to_front_object traj_points ego_idx q) as [dq |] eqn:E3.
    2: { apply Hskip. intros _ dq. discriminate. }
    destruct (ltb_x dq best_dist) eqn:E4.
    2: { apply Hskip. intros _ dq' [= <-]. exact E4. }
    right.
    destruct (IH (Finite dq) (Some q))
      as [[E Hall] | (p & dp & E & Hin & Hp & Hf & Hlt & Hall)].
    + exists q, dq. rewrite E. repeat split; auto.
      * now rewrite E1, E2.
      * intros q0 dq0 [<- | Hin0] Hpass Hfront.
        -- rewrite E3 in Hfront. injection Hfront as <-. lra.
        -- specialize (Hall q0 dq0 Hin0 Hpass Hfront). simpl in Hall.
           apply ltb_false in Hall. exact Hall.
    + exists p, dp. simpl in Hlt. apply ltb_true in Hlt.
      repeat split; auto.
      * destruct best_dist as [b |]; simpl in *; [| reflexivity].
        apply ltb_true. apply ltb_true in E4. lra.
      * intros q0 dq0 [<- | Hin0] Hpass Hfront; [| eauto].
        rewrite E3 in Hfront. injection Hfront as <-. lra.
Qed.

(** X13.  From a cluster of the point cloud
    [convert_point_cloud_to_stop_points] takes the point nearest to the
    ego along the trajectory among the points that pass both lateral
    tests and are not behind the ego, and nothing when no point of the
    cluster is of that kind; so it returns at most one stop point for a
    cluster, each a point of one of the clusters. *)
Theorem convert_point_cloud_takes_nearest_point_of_cluster
    (clusters : list (list geometry_msgs.Point)) :
  (forall cluster,
      match closest_point_of_cluster m traj_points decimated_traj_polys
              vehicle_info ego_idx cluster PosInf None with
      | None =>
          forall q, In q cluster -> passes q -> front q = None
      | Some p =>
          In p cluster /\ passes p
          /\ exists dp,
               front p = Some dp
               /\ forall q dq, In q cluster -> passes q -> front q = Some dq ->
                               dp <= dq
      end)
  /\ (List.length (convert_point_cloud_to_stop_points m clusters traj_points
                     decimated_traj_polys vehicle_info ego_idx)
      <= List.length clusters)%nat
  /\ (forall p,
        In p (convert_point_cloud_to_stop_points m clusters traj_points
                decimated_traj_polys vehicle_info ego_idx) ->
        exists cluster,
          In cluster clusters
          /\ closest_point_of_cluster m traj_points decimated_traj_polys
               vehicle_info ego_idx cluster PosInf None = Some p).
Proof.
  split; [| split].
  - intros cluster.
    destruct (closest_point_of_cluster_from cluster PosInf None)
      as [[-> Hall] | (p & dp & -> & Hin & Hp & Hf & _ & Hall)].
    + intros q Hq Hpass.
      destruct (calc_distance_to_front_object traj_points ego_idx q) as [dq |] eqn:E;
        [| reflexivity].
      specialize (Hall q dq Hq Hpass E). discriminate.
    + repeat split; eauto.
  - unfold convert_point_cloud_to_stop_points.
    induction clusters as [| cluster clusters IH]; simpl; [lia |].
    rewrite length_app.
    destruct (closest_point_of_cluster _ _ _ _ _ cluster PosInf None); simpl; lia.
  - unfold convert_point_cloud_to_stop_points. intros p Hp.
    apply in_flat_map in Hp as (cluster & Hc & Hp). exists cluster.
    split; [exact Hc |].
    destruct (closest_point_of_cluster _ _ _ _ _ cluster PosInf None);
      [| contradiction].
    destruct Hp as [-> | []]. reflexivity.
Qed.

End Cluster.

Section HistoryPass.
Variables (m : ObstacleStopModule) (odom_time : Time)
          (traj_points decimated_traj_points : TrajectoryPoints)
          (vehicle_info : VehicleInfo) (dist_to_bumper : Q).

(** The copy of a history entry the pass returns: the entry with its
    distance to collision taken anew on the decimated trajectory. *)
Local Abbreviation refreshed entry :=
  (with_dist entry
     (calcSignedArcLength_idx_point decimated_traj_points 0
        (collision_point entry) - dist_to_bumper)).

Local Abbreviation kept h :=
  (filter (fun entry => negb (is_expired m odom_time entry)) h).

Lemma erase_middle {A : Type} (done : list A) (e : A) (todo : list A) :
  erase (List.length done) (done ++ e :: todo) = done ++ todo.
Proof.
  induction done as [| a done IH]; [reflexivity |].
  unfold erase in *. simpl. f_equal. exact IH.
Qed.

Lemma history_loop_result
    (decimated_traj_polys : list Polygon2d) (todo : list StopObstacle) :
  forall fuel done past,
    (List.length todo < fuel)%nat ->
    (forall entry, In entry todo ->
       is_expired m odom_time entry = true
       \/ within_lateral_margins m traj_points decimated_traj_polys
            vehicle_info (collision_point entry) = true) ->
    history_loop fuel m odom_time traj_points decimated_traj_points
      decimated_traj_polys vehicle_info dist_to_bumper
      {| history := done ++ todo;
         itr := List.length done;
         past_stop_obstacles := past |}
    = Some {| history := done ++ kept todo;
              itr := List.length (done ++ kept todo);
              past_stop_obstacles :=
                past ++ map (fun entry => refreshed entry) (kept todo) |}.
Proof.
  unfold is_expired, within_lateral_margins.
  induction todo as [| e todo IH]; intros fuel done past Hfuel Hall;
    (destruct fuel as [| fuel]; [simpl in Hfuel; lia |]);
    cbn [history_loop]; unfold history_loop_step; cbn [history itr past_stop_obstacles].
  - rewrite app_nil_r.
    replace (nth_error done (List.length done)) with (@None StopObstacle)
      by (symmetry; apply nth_error_None; lia).
    simpl. now rewrite !app_nil_r.
  - replace (nth_error (done ++ e :: todo) (List.length done)) with (Some e)
      by (rewrite nth_error_app2, Nat.sub_diag by lia; reflexivity).
    cbn [filter].
    destruct (geb (seconds_between odom_time (stamp e)) _) eqn:Ex.
    + rewrite erase_middle. simpl negb. cbv iota.
      apply IH; [simpl in Hfuel; lia |].
      intros entry Hin. apply Hall. now right.
    + destruct (Hall e (or_introl eq_refl)) as [Hexp | Hin]; [congruence |].
      apply andb_true_iff in Hin as [H1 H2].
      apply negb_true_iff in H1. apply negb_true_iff in H2.
      rewrite H1, H2. simpl negb. cbv iota.
      specialize (IH fuel (done ++ [e]) (past ++ [refreshed e])).
      rewrite length_app in IH. simpl in IH.
      rewrite Nat.add_1_r, <- !app_assoc in IH. simpl in IH.
      apply IH; [simpl in Hfuel; lia | intros entry Hin; apply Hall; now right].
Qed.


End HistoryPass.

Lemma erase_Forall {A : Type} (P : A -> Prop) (i : nat) (l : list A) :
  Forall P l -> Forall P (erase i l).
Proof.
  rewrite !Forall_forall. intros H a Ha. apply H. now apply erase_In in Ha.
Qed.

Lemma with_dist_is_point_cloud_obstacle (so : StopObstacle) (d : Q) :
  is_point_cloud_obstacle so -> is_point_cloud_obstacle (with_dist so d).
Proof. unfold is_point_cloud_obstacle. simpl. tauto. Qed.

Lemma history_loop_keeps_point_cloud_obstacles
    (m : ObstacleStopModule) (odom_time : Time)
    (traj_points decimated_traj_points : TrajectoryPoints)
    (decimated_traj_polys : list Polygon2d) (vehicle_info : VehicleInfo)
    (dist_to_bumper : Q) (fuel : nat) :
  forall st st',
    history_loop fuel m odom_time traj_points decimated_traj_points
      decimated_traj_polys vehicle_info dist_to_bumper st = Some st' ->
    Forall is_point_cloud_obstacle (history st) ->
    Forall is_point_cloud_obstacle (past_stop_obstacles st) ->
    Forall is_point_cloud_obstacle (history st')
    /\ Forall is_point_cloud_obstacle (past_stop_obstacles st').
Proof.
  induction fuel as [| fuel IH]; intros st st'; simpl; [discriminate |].
  unfold history_loop_step.
  destruct (nth_error (history st) (itr st)) as [entry |] eqn:En.
  2: { intros [= <-]. auto. }
  assert (Hentry : Forall is_point_cloud_obstacle (history st) ->
                   is_point_cloud_obstacle entry).
  { intros H. rewrite Forall_forall in H. apply H.
    now apply nth_error_In in En. }
  destruct (geb (seconds_between odom_time (stamp entry)) _).
  { intros H Hh Hp. apply (IH _ _ H); simpl; [now apply erase_Forall | exact Hp]. }
  destruct (geb (min_lat_dist_to_traj_poly _ _ _) _); [apply IH |].
  destruct (x_geb _ _); [apply IH |].
  intros H Hh Hp. apply (IH _ _ H); simpl; [exact Hh |].
  apply Forall_app. split; [exact Hp |].
  constructor; [| constructor].
  apply with_dist_is_point_cloud_obstacle. auto.
Qed.

(** X15.  The point-cloud filter deals in one kind of stop obstacle
    only.  If the history holds obstacles as
    [create_stop_obstacle_for_point_cloud] makes them (all-zero UUID,
    default classification, no velocity, no braking distance), so does
    the history it leaves, and so are all stop obstacles it returns:
    they share one label, and [get_closest_stop_obstacles] keeps at most
    one of them for stop planning.  The filter changes nothing of the
    module but the history. *)
Theorem point_cloud_filter_keeps_point_cloud_obstacles
    (fuel : nat) (m m' : ObstacleStopModule)
    (odom_position : geometry_msgs.Point) (odom_time : Time)
    (traj_points decimated_traj_points : TrajectoryPoints)
    (point_cloud : Pointcloud) (vehicle_info : VehicleInfo)
    (dist_to_bumper : Q) (ego_idx : nat) (stop_obstacles : list StopObstacle) :
  Forall is_point_cloud_obstacle (stop_pointcloud_obstacle_history_ m) ->
  filter_stop_obstacle_for_point_cloud fuel m odom_position odom_time
    traj_points decimated_traj_points point_cloud vehicle_info dist_to_bumper
    ego_idx
  = Some (m', stop_obstacles) ->
  Forall is_point_cloud_obstacle (stop_pointcloud_obstacle_history_ m')
  /\ Forall is_point_cloud_obstacle stop_obstacles
  /\ (List.length (get_closest_stop_obstacles stop_obstacles) <= 1)%nat
  /\ m' = set_history m (stop_pointcloud_obstacle_history_ m').
Proof.
  intros Hh. unfold filter_stop_obstacle_for_point_cloud.
  destruct (use_pointcloud (obstacle_filtering_param_ m)); simpl.
  2: { intros [= <- <-]. repeat split; auto. now destruct m. }
  destruct (history_loop _ _ _ _ _ _ _ _ _) as [st |] eqn:El; [| discriminate].
  intros [= <- <-].
  apply history_loop_keeps_point_cloud_obstacles in El as [Hh' Hp'];
    [| exact Hh | constructor].
  assert (Hnew : forall traj stamp_ points,
             Forall is_point_cloud_obstacle
               (map (fun stop_point_ =>
                       create_stop_obstacle_for_point_cloud traj stamp_
                         stop_point_ dist_to_bumper) points)).
  { intros traj stamp_ points. apply Forall_forall. intros so Hso.
    apply in_map_iff in Hso as (p & <- & _).
    unfold is_point_cloud_obstacle. simpl. auto. }
  assert (Hout : Forall is_point_cloud_obstacle
                   (map (fun stop_point_ =>
                           create_stop_obstacle_for_point_cloud
                             decimated_traj_points (pointcloud_stamp point_cloud)
                             stop_point_ dist_to_bumper)
                        (convert_point_cloud_to_stop_points m
                           (clusters point_cloud) traj_points
                           (create_one_step_polygons decimated_traj_points
                              vehicle_info odom_position 0)
                           vehicle_info ego_idx)
                    ++ past_stop_obstacles st))
    by (apply Forall_app; split; [apply Hnew | exact Hp']).
  split; [| split; [exact Hout | split; [| reflexivity]]].
  - simpl. apply Forall_app. split; [exact Hh' | apply Hnew].
  - match goal with
    | |- (List.length (get_closest_stop_obstacles ?l) <= 1)%nat =>
        destruct (get_closest_stop_obstacles_closest l) as (Hnd & Hsub & _);
        destruct (get_closest_stop_obstacles l) as [| c1 [| c2 rest]];
        simpl; try lia
    end.
    exfalso. rewrite Forall_forall in Hout.
    assert (H1 : is_point_cloud_obstacle c1) by (apply Hout, Hsub; now left).
    assert (H2 : is_point_cloud_obstacle c2)
      by (apply Hout, Hsub; right; now left).
    destruct H1 as (_ & E1 & _). destruct H2 as (_ & E2 & _).
    simpl in Hnd. inversion Hnd as [| ? ? Hnot _]. apply Hnot.
    left. now rewrite E1, E2.
Qed.

End PointCloud.

End PointCloudFilterProofs.

(** ** Arc lengths between centerline and bounds *)

Module ArcLengthSidesProofs.
Import Cxx CxxFacts PathGenerator PathGeneratorInvariants.

Section Sides.
Context {L : Lanelet2}.

Lemma project_to_centerline_done
    (s_bound : option Q) (s s_on_bound bound_length : Q)
    (centerline bound : ConstLineString2d) (s_centerline : option Q) :
  project_to_centerline true s_bound s s_on_bound bound_length centerline bound
    s_centerline
  = s_centerline.
Proof. now destruct s_bound. Qed.

Lemma arc_length_on_centerline_from_left_done (seq : LaneletSequence) :
  forall l r s sl sr lc rc,
    negb (is_some l) || is_some lc = true ->
    fst (arc_length_on_centerline_from seq l r s sl sr lc rc) = lc.
Proof.
  induction seq as [| it rest IH]; simpl; intros l r s sl sr lc rc Hdone;
    [reflexivity |].
  rewrite Hdone. simpl.
  destruct (negb (is_some r) || is_some rc); [reflexivity |].
  rewrite project_to_centerline_done. now apply IH.
Qed.

Lemma arc_length_on_centerline_from_right_done (seq : LaneletSequence) :
  forall l r s sl sr lc rc,
    negb (is_some r) || is_some rc = true ->
    snd (arc_length_on_centerline_from seq l r s sl sr lc rc) = rc.
Proof.
  induction seq as [| it rest IH]; simpl; intros l r s sl sr lc rc Hdone;
    [reflexivity |].
  rewrite Hdone.
  destruct (negb (is_some l) || is_some lc); [reflexivity |]. simpl.
  rewrite project_to_centerline_done. now apply IH.
Qed.

Lemma arc_length_on_centerline_from_left_alone (seq : LaneletSequence) :
  forall l r s sl sr sr' lc rc rc',
    fst (arc_length_on_centerline_from seq l r s sl sr lc rc)
    = fst (arc_length_on_centerline_from seq l None s sl sr' lc rc').
Proof.
  induction seq as [| it rest IH]; intros l r s sl sr sr' lc rc rc';
    [reflexivity |].
  destruct (negb (is_some l) || is_some lc) eqn:Hdone.
  - now rewrite !arc_length_on_centerline_from_left_done.
  - simpl. rewrite Hdone. simpl. apply IH.
Qed.

Lemma arc_length_on_centerline_from_right_alone (seq : LaneletSequence) :
  forall l r s sl sl' sr lc lc' rc,
    snd (arc_length_on_centerline_from seq l r s sl sr lc rc)
    = snd (arc_length_on_centerline_from seq None r s sl' sr lc' rc).
Proof.
  induction seq as [| it rest IH]; intros l r s sl sl' sr lc lc' rc;
    [reflexivity |].
  destruct (negb (is_some r) || is_some rc) eqn:Hdone.
  - now rewrite !arc_length_on_centerline_from_right_done.
  - simpl. rewrite Hdone, andb_false_r. simpl. apply IH.
Qed.

Lemma get_arc_length_on_centerline_left
    (seq : LaneletSequence) (l r : option Q) :
  left (get_arc_length_on_centerline seq l r)
  = or_else (fst (arc_length_on_centerline_from seq l r 0 0 0
                    (zero_if_negative l) (zero_if_negative r))) l.
Proof.
  unfold get_arc_length_on_centerline.
  now destruct (arc_length_on_centerline_from _ _ _ _ _ _ _ _).
Qed.

Lemma get_arc_length_on_centerline_right
    (seq : LaneletSequence) (l r : option Q) :
  right (get_arc_length_on_centerline seq l r)
  = or_else (snd (arc_length_on_centerline_from seq l r 0 0 0
                    (zero_if_negative l) (zero_if_negative r))) r.
Proof.
  unfold get_arc_length_on_centerline.
  now destruct (arc_length_on_centerline_from _ _ _ _ _ _ _ _).
Qed.

(** X16.  The two sides of [get_arc_length_on_centerline] do not
    influence each other: the left result is the one obtained with no
    right arc length given, and the right result the one obtained with
    no left one.  A side that is given comes back with a value, a side
    that is not given comes back empty, and a negative arc length comes
    back as zero. *)
Theorem get_arc_length_on_centerline_sides_are_independent
    (lanelet_sequence : LaneletSequence) (s_left_bound s_right_bound : option Q) :
  let r := get_arc_length_on_centerline lanelet_sequence
             s_left_bound s_right_bound in
  left r = left (get_arc_length_on_centerline lanelet_sequence s_left_bound None)
  /\ right r
     = right (get_arc_length_on_centerline lanelet_sequence None s_right_bound)
  /\ is_some (left r) = is_some s_left_bound
  /\ is_some (right r) = is_some s_right_bound
  /\ (forall b, s_left_bound = Some b -> b < 0 -> left r = Some 0)
  /\ (forall b, s_right_bound = Some b -> b < 0 -> right r = Some 0).
Proof.
  intros r. subst r.
  rewrite !get_arc_length_on_centerline_left,
          !get_arc_length_on_centerline_right.
  split; [| split; [| split; [| split; [| split]]]].
  - now rewrite (arc_length_on_centerline_from_left_alone lanelet_sequence
                   s_left_bound s_right_bound 0 0 0 0
                   (zero_if_negative s_left_bound)
                   (zero_if_negative s_right_bound) (zero_if_negative None)).
  - now rewrite (arc_length_on_centerline_from_right_alone lanelet_sequence
                   s_left_bound s_right_bound 0 0 0 0
                   (zero_if_negative s_left_bound) (zero_if_negative None)
                   (zero_if_negative s_right_bound)).
  - destruct s_left_bound as [b |].
    + now destruct (fst _).
    + now rewrite arc_length_on_centerline_from_left_done.
  - destruct s_right_bound as [b |].
    + now destruct (snd _).
    + now rewrite arc_length_on_centerline_from_right_done.
  - intros b -> Hb. rewrite arc_length_on_centerline_from_left_done; simpl.
    + destruct (ltb_spec b 0); [reflexivity | lra].
    + destruct (ltb_spec b 0); [reflexivity | lra].
  - intros b -> Hb. rewrite arc_length_on_centerline_from_right_done; simpl.
    + destruct (ltb_spec b 0); [reflexivity | lra].
    + destruct (ltb_spec b 0); [reflexivity | lra].
Qed.

Lemma total_length_nonneg
    (line : ConstLanelet -> ConstLineString2d) (seq : LaneletSequence) :
  (forall l, In l seq -> 0 <= geometry_length (line l)) ->
  0 <= total_length line seq.
Proof.
  induction seq as [| it rest IH]; simpl; intros H; [lra |].
  assert (0 <= geometry_length (line it)) by (apply H; now left).
  assert (0 <= total_length line rest) by (apply IH; intros; apply H; now right).
  lra.
Qed.

Lemma arc_length_on_bounds_from_beyond (seq : LaneletSequence) :
  forall s_centerline s s_left s_right,
    (forall l, In l seq -> 0 <= geometry_length (centerline2d l)) ->
    s + total_length centerline2d seq < s_centerline ->
    arc_length_on_bounds_from seq s_centerline s s_left s_right
    = {| left := s_centerline; right := s_centerline |}.
Proof.
  induction seq as [| it rest IH]; simpl; intros sc s sl sr Hlen Hs;
    [reflexivity |].
  assert (0 <= total_length centerline2d rest)
    by (apply total_length_nonneg; intros; apply Hlen; now right).
  destruct (ltb_spec (s + geometry_length (centerline2d it)) sc); [| lra].
  apply IH; [intros; apply Hlen; now right | lra].
Qed.

Lemma arc_length_on_centerline_from_beyond_left (seq : LaneletSequence) (b : Q) :
  forall s sl sr rc,
    (forall l, In l seq -> 0 <= geometry_length (leftBound2d l)) ->
    sl + total_length leftBound2d seq <= b ->
    fst (arc_length_on_centerline_from seq (Some b) None s sl sr None rc) = None.
Proof.
  induction seq as [| it rest IH]; simpl; intros s sl sr rc Hlen Hs;
    [reflexivity |].
  assert (0 <= total_length leftBound2d rest)
    by (apply total_length_nonneg; intros; apply Hlen; now right).
  destruct (gtb_spec (sl + geometry_length (leftBound2d it)) b); [lra |].
  apply IH; [intros; apply Hlen; now right | lra].
Qed.

Lemma arc_length_on_centerline_from_beyond_right (seq : LaneletSequence) (b : Q) :
  forall s sl sr lc,
    (forall l, In l seq -> 0 <= geometry_length (rightBound2d l)) ->
    sr + total_length rightBound2d seq <= b ->
    snd (arc_length_on_centerline_from seq None (Some b) s sl sr lc None) = None.
Proof.
  induction seq as [| it rest IH]; simpl; intros s sl sr lc Hlen Hs;
    [reflexivity |].
  assert (0 <= total_length rightBound2d rest)
    by (apply total_length_nonneg; intros; apply Hlen; now right).
  destruct (gtb_spec (sr + geometry_length (rightBound2d it)) b); [lra |].
  apply IH; [intros; apply Hlen; now right | lra].
Qed.

(** X17.  Beyond the end of the lanelet sequence both projections hand
    the arc length back unchanged.  [get_arc_length_on_bounds] does so
    for an arc length greater than the total length of the centerlines,
    [get_arc_length_on_centerline] for an arc length on a bound that is
    not smaller than the total length of that bound; an arc length past
    both totals therefore survives the round trip from the centerline to
    the left bound and back, whatever the shape of the lanelets. *)
Theorem arc_length_beyond_the_sequence_is_unchanged
    (lanelet_sequence : LaneletSequence) :
  (forall l, In l lanelet_sequence ->
     0 <= geometry_length (centerline2d l)
     /\ 0 <= geometry_length (leftBound2d l)
     /\ 0 <= geometry_length (rightBound2d l)) ->
  (forall s,
      total_length centerline2d lanelet_sequence < s ->
      get_arc_length_on_bounds lanelet_sequence s
      = {| left := s; right := s |})
  /\ (forall b other,
        total_length leftBound2d lanelet_sequence <= b ->
        left (get_arc_length_on_centerline lanelet_sequence (Some b) other)
        = Some b)
  /\ (forall b other,
        total_length rightBound2d lanelet_sequence <= b ->
        right (get_arc_length_on_centerline lanelet_sequence other (Some b))
        = Some b)
  /\ (forall s,
        total_length centerline2d lanelet_sequence < s ->
        total_length leftBound2d lanelet_sequence <= s ->
        left_round_trip lanelet_sequence s = Some s).
Proof.
  intros Hlen.
  assert (Hc : 0 <= total_length centerline2d lanelet_sequence)
    by (apply total_length_nonneg; intros l Hl; now apply Hlen).
  assert (Hl : 0 <= total_length leftBound2d lanelet_sequence)
    by (apply total_length_nonneg; intros l Hin; now apply Hlen).
  assert (Hr : 0 <= total_length rightBound2d lanelet_sequence)
    by (apply total_length_nonneg; intros l Hin; now apply Hlen).
  assert (Hbounds : forall s,
             total_length centerline2d lanelet_sequence < s ->
             get_arc_length_on_bounds lanelet_sequence s
             = {| left := s; right := s |}).
  { intros s Hs. unfold get_arc_length_on_bounds.
    destruct (ltb_spec s 0); [lra |].
    apply arc_length_on_bounds_from_beyond;
      [intros l Hin; now apply Hlen | lra]. }
  assert (Hleft : forall b other,
             total_length leftBound2d lanelet_sequence <= b ->
             left (get_arc_length_on_centerline lanelet_sequence (Some b) other)
             = Some b).
  { intros b other Hb. rewrite get_arc_length_on_centerline_left.
    rewrite (arc_length_on_centerline_from_left_alone lanelet_sequence
               (Some b) other 0 0 0 0 (zero_if_negative (Some b))
               (zero_if_negative other) None).
    simpl. destruct (ltb_spec b 0); [lra |].
    rewrite arc_length_on_centerline_from_beyond_left;
      [reflexivity | intros l Hin; now apply Hlen | lra]. }
  split; [exact Hbounds | split; [exact Hleft | split]].
  - intros b other Hb. rewrite get_arc_length_on_centerline_right.
    rewrite (arc_length_on_centerline_from_right_alone lanelet_sequence
               other (Some b) 0 0 0 0 (zero_if_negative other) None
               (zero_if_negative (Some b))).
    simpl. destruct (ltb_spec b 0); [lra |].
    rewrite arc_length_on_centerline_from_beyond_right;
      [reflexivity | intros l Hin; now apply Hlen | lra].
  - intros s Hs Hs'. unfold left_round_trip.
    rewrite Hbounds by exact Hs. simpl. now apply Hleft.
Qed.

End Sides.

End ArcLengthSidesProofs.

(** ** The common utilities of the planner *)

Module PlannerCommonUtilsProofs.
Import Cxx CxxFacts PlannerCommonUtils.

Section ExtendedTrajectoryProofs.
Context {PG : PoseGeometry}.
Variable isDrivingForwardWithTwist : list TrajectoryPoint -> option bool.

Lemma extend_sum_after_value (step_length : Q) (k : nat) :
  extend_sum_after step_length k == inject_Z (Z.of_nat k) * step_length.
Proof.
  induction k as [| k IH].
  - simpl. ring.
  - change (extend_sum_after step_length (S k))
      with (extend_sum_after step_length k + step_length).
    rewrite IH, Nat2Z.inj_succ, <- Z.add_1_r, inject_Z_plus. ring.
Qed.

Lemma extend_loop_rounds
    (extend_distance step_length : Q) (goal_point : TrajectoryPoint)
    (forward : bool) (n : nat) :
  forall k fuel output_points,
    (n < fuel)%nat ->
    (forall j, (j < n)%nat ->
       extend_sum_after step_length (k + j) <= extend_distance - step_length) ->
    extend_distance - step_length < extend_sum_after step_length (k + n) ->
    extend_loop fuel extend_distance step_length goal_point forward
      (extend_sum_after step_length k) output_points
    = Some (output_points
            ++ map (fun j => extend_trajectory_point
                               (extend_sum_after step_length j)
                               goal_point forward)
                   (seq k n)).
Proof.
  induction n as [| n IH]; intros k fuel out Hfuel Hgo Hstop;
    (destruct fuel as [| fuel]; [lia |]); simpl.
  - rewrite Nat.add_0_r in Hstop.
    destruct (leb_spec (extend_sum_after step_length k)
                (extend_distance - step_length)); [lra |].
    now rewrite app_nil_r.
  - pose proof (Hgo 0%nat ltac:(lia)) as H0. rewrite Nat.add_0_r in H0.
    destruct (leb_spec (extend_sum_after step_length k)
                (extend_distance - step_length)); [| lra].
    change (extend_sum_after step_length k + step_length)
      with (extend_sum_after step_length (S k)).
    rewrite IH.
    + now rewrite <- app_assoc.
    + lia.
    + intros j Hj. replace (S k + j)%nat with (k + S j)%nat by lia.
      apply Hgo. lia.
    + now replace (S k + n)%nat with (k + S n)%nat by lia.
Qed.

Lemma extend_loop_never_exits
    (extend_distance step_length : Q) (goal_point : TrajectoryPoint)
    (forward : bool) (fuel : nat) :
  forall extend_sum output_points,
    0 <= extend_distance -> step_length <= 0 -> extend_sum <= 0 ->
    extend_loop fuel extend_distance step_length goal_point forward
      extend_sum output_points
    = None.
Proof.
  induction fuel as [| fuel IH]; intros s out HD Hstep Hs; simpl;
    [reflexivity |].
  destruct (leb_spec s (extend_distance - step_length)); [| lra].
  apply IH; lra.
Qed.

Lemma back_snoc (init : list TrajectoryPoint) (goal_point : TrajectoryPoint) :
  back (init ++ [goal_point]) = Some goal_point.
Proof. unfold back. now rewrite rev_app_distr. Qed.

Lemma rounds_of_the_loop (extend_distance step_length : Q) :
  0 <= extend_distance -> 0 < step_length ->
  exists n,
    inject_Z (Z.of_nat n) * step_length <= extend_distance
    /\ extend_distance < (inject_Z (Z.of_nat n) + 1) * step_length.
Proof.
  intros HD Hstep.
  pose (q := extend_distance / step_length).
  assert (Hq : 0 <= q).
  { unfold q, Qdiv. apply Qmult_le_0_compat; [exact HD |].
    apply Qlt_le_weak. now apply Qinv_lt_0_compat. }
  assert (Hfloor : (0 <= Qfloor q)%Z).
  { change 0%Z with (Qfloor 0). now apply Qfloor_resp_le. }
  assert (Eq : extend_distance == q * step_length)
    by (unfold q; field; lra).
  exists (Z.to_nat (Qfloor q)). rewrite Z2Nat.id by exact Hfloor.
  pose proof (Qfloor_le q) as Hle. pose proof (Qlt_floor q) as Hlt.
  rewrite inject_Z_plus in Hlt. change (inject_Z 1) with 1 in Hlt.
  split; rewrite Eq; nra.
Qed.


End ExtendedTrajectoryProofs.

Section ObjectExtentProofs.
Context {CM : ObstacleStop.Cmath}.

Lemma fold_max_length (points : list geometry_msgs.Point) :
  forall acc,
    let r := fold_left max_length_to_point_step points acc in
    acc <= r
    /\ (forall p, In p points ->
          ObstacleStop.hypot (geometry_msgs.x p) (geometry_msgs.y p) <= r)
    /\ (r = acc
        \/ exists p, In p points
             /\ r = ObstacleStop.hypot (geometry_msgs.x p) (geometry_msgs.y p)).
Proof.
  induction points as [| p points IH]; cbn [fold_left]; intros acc.
  - split; [lra | split; [intros p [] | now left]].
  - destruct (IH (max_length_to_point_step acc p)) as (H1 & H2 & H3).
    assert (Hstep : acc <= max_length_to_point_step acc p
                    /\ ObstacleStop.hypot (geometry_msgs.x p) (geometry_msgs.y p)
                       <= max_length_to_point_step acc p
                    /\ (max_length_to_point_step acc p = acc
                        \/ max_length_to_point_step acc p
                           = ObstacleStop.hypot (geometry_msgs.x p)
                                                (geometry_msgs.y p))).
    { unfold max_length_to_point_step.
      destruct (ltb_spec acc (ObstacleStop.hypot (geometry_msgs.x p)
                                                 (geometry_msgs.y p)));
        repeat split; auto; lra. }
    destruct Hstep as (Hs1 & Hs2 & Hs3).
    split; [| split].
    + eapply Qle_trans; [exact Hs1 | exact H1].
    + intros q [<- | Hq]; [| auto].
      eapply Qle_trans; [exact Hs2 | exact H1].
    + destruct H3 as [-> | (q & Hq & ->)].
      * destruct Hs3 as [-> | ->]; [now left | right].
        exists p. split; [now left | reflexivity].
      * right. exists q. split; [now right | reflexivity].
Qed.

(** X19.  The greatest distance from the center that
    [calc_object_possible_max_dist_from_center] gives for a polygon is
    never negative and no smaller than the distance of any footprint
    point from the center; it is the distance of one of them unless it
    is zero.  For a shape type other than bounding box, cylinder and
    polygon the function throws [std::logic_error], and the rough
    distance [calc_possible_min_dist_from_obj_to_traj_poly] built on it
    throws with it. *)
Theorem calc_object_possible_max_dist_bounds_the_footprint
    (shape : Shape) (dist_to_traj_lateral : Q)
    (vehicle_info : ObstacleStop.VehicleInfo) :
  (type shape = Some ObstacleStop.POLYGON ->
   exists r,
     calc_object_possible_max_dist_from_center shape = Returned r
     /\ 0 <= r
     /\ (forall p, In p (footprint shape) ->
           ObstacleStop.hypot (geometry_msgs.x p) (geometry_msgs.y p) <= r)
     /\ (r = 0
         \/ exists p, In p (footprint shape)
              /\ r = ObstacleStop.hypot (geometry_msgs.x p) (geometry_msgs.y p))
     /\ calc_possible_min_dist_from_obj_to_traj_poly shape dist_to_traj_lateral
          vehicle_info
        = Returned
            (std_abs dist_to_traj_lateral
             - ObstacleStop.hypot
                 (ObstacleStop.max_longitudinal_offset_m vehicle_info)
                 (ObstacleStop.vehicle_width_m vehicle_info / 2)
             - r))
  /\ (type shape = None ->
      exists what,
        calc_object_possible_max_dist_from_center shape = LogicError what
        /\ calc_possible_min_dist_from_obj_to_traj_poly shape
             dist_to_traj_lateral vehicle_info
           = LogicError what)
  /\ (type shape <> None ->
      exists r, calc_object_possible_max_dist_from_center shape = Returned r).
Proof.
  unfold calc_possible_min_dist_from_obj_to_traj_poly,
         calc_object_possible_max_dist_from_center.
  split; [| split].
  - intros ->.
    destruct (fold_max_length (footprint shape) 0) as (H1 & H2 & H3).
    eexists. repeat split; eauto.
  - intros ->. eauto.
  - intros Hne. destruct (type shape) as [[| |] |]; eauto. congruence.
Qed.

End ObjectExtentProofs.

End PlannerCommonUtilsProofs.

(** ** The walk along the route *)

Module PathGeneratorRouteProofs.
Import Cxx CxxFacts PathGenerator PathGeneratorRoute.

Section RouteProofs.
Context {L : Lanelet2} {RG : RoutingGraph L}.

Lemma route_length_app (a b : list ConstLanelet) :
  route_length (a ++ b) == route_length a + route_length b.
Proof.
  induction a as [| l a IH]; simpl; [ring |].
  unfold route_length in *. simpl. rewrite IH. ring.
Qed.

Lemma last_cons_default {A : Type} (x : A) (l : list A) (d d' : A) :
  last (x :: l) d = last (x :: l) d'.
Proof.
  revert x. induction l as [| y l IH]; intros x; [reflexivity |].
  change (last (x :: y :: l) d) with (last (y :: l) d).
  change (last (x :: y :: l) d') with (last (y :: l) d'). apply IH.
Qed.

(** What the loop has when it ends: the lanelets it was given followed
    by a walk from the current lanelet, every step of which was taken
    with the node running and the length so far below the distance, and
    which ended for one of the three reasons the source has. *)
Lemma lanelets_within_route_loop_walks
    (step : ConstLanelet -> option ConstLanelet) (distance : Q) (fuel : nat) :
  forall rclcpp_ok current length lanelets result,
    lanelets_within_route_loop fuel step rclcpp_ok distance current length
      lanelets = Some result ->
    exists added,
      result = lanelets ++ added
      /\ is_walk step current added
      /\ (forall k, (k < List.length added)%nat ->
            rclcpp_ok k = true
            /\ length + route_length (firstn k added) < distance)
      /\ (rclcpp_ok (List.length added) = false
          \/ distance <= length + route_length added
          \/ step (last added current) = None).
Proof.
  induction fuel as [| fuel IH]; simpl;
    intros rclcpp_ok current len lanelets result; [discriminate |].
  destruct (rclcpp_ok 0%nat) eqn:Eok; simpl.
  2: { intros [= <-]. exists []. rewrite app_nil_r. simpl.
       repeat split; auto; intros; lia. }
  destruct (ltb_spec len distance) as [Hlt | Hge].
  2: { intros [= <-]. exists []. rewrite app_nil_r. simpl.
       repeat split; auto; try (intros; lia).
       right. left. unfold route_length. simpl. lra. }
  destruct (step current) as [lanelet |] eqn:Es.
  2: { intros [= <-]. exists []. rewrite app_nil_r. simpl.
       repeat split; auto; intros; lia. }
  intros H. apply IH in H as (added & -> & Hw & Hlen & Hend).
  exists (lanelet :: added). rewrite <- app_assoc. simpl.
  split; [reflexivity | split; [auto | split]].
  - intros k Hk.
    destruct k as [| k]; simpl;
      [split; [exact Eok | unfold route_length; simpl; lra] |].
    destruct (Hlen k ltac:(lia)) as [Hok Hk'].
    split; [exact Hok |].
    unfold route_length in *. simpl. lra.
  - destruct Hend as [Hf | [Hd | Hn]]; [left; exact Hf | right; left | right; right].
    + unfold route_length in *. simpl. lra.
    + destruct added as [| x added]; [exact Hn |].
      change (last (lanelet :: x :: added) current) with (last (x :: added) current).
      now rewrite (last_cons_default x added current lanelet).
Qed.

Lemma lanelets_within_route_loop_ends
    (step : ConstLanelet -> option ConstLanelet) (distance shortest : Q) :
  0 < shortest ->
  (forall a b, step a = Some b -> shortest <= getLaneletLength2d b) ->
  forall n fuel rclcpp_ok current length lanelets,
    distance - length <= inject_Z (Z.of_nat n) * shortest ->
    (n < fuel)%nat ->
    lanelets_within_route_loop fuel step rclcpp_ok distance current length
      lanelets <> None.
Proof.
  intros Hs Hstep.
  induction n as [| n IH]; intros fuel rclcpp_ok current len lanelets Hd Hfuel;
    (destruct fuel as [| fuel]; [lia |]); simpl.
  - destruct (rclcpp_ok 0%nat); simpl; [| discriminate].
    destruct (ltb_spec len distance); [| discriminate].
    change (inject_Z (Z.of_nat 0)) with 0 in Hd. lra.
  - destruct (rclcpp_ok 0%nat); simpl; [| discriminate].
    destruct (ltb_spec len distance); [| discriminate].
    destruct (step current) as [lanelet |] eqn:Es; [| discriminate].
    apply IH; [| lia].
    pose proof (Hstep _ _ Es).
    rewrite Nat2Z.inj_succ, <- Z.add_1_r, inject_Z_plus in Hd.
    change (inject_Z 1) with 1 in Hd. lra.
Qed.

Lemma find_in_route (route candidates : list ConstLanelet) (l : ConstLanelet) :
  find (fun c => exists_ route c) candidates = Some l ->
  In l candidates /\ exists_ route l = true.
Proof. intros H. now apply find_some in H. Qed.

Lemma get_next_lanelet_within_route_some
    (planner_data : PlannerData) (a b : ConstLanelet) :
  get_next_lanelet_within_route a planner_data = Some b ->
  In b (following a)
  /\ exists_ (route_lanelets planner_data) b = true
  /\ exists_ (goal_lanelets planner_data) a = false.
Proof.
  unfold get_next_lanelet_within_route.
  destruct (preferred_lanelets planner_data); [discriminate |].
  destruct (exists_ (goal_lanelets planner_data) a); [discriminate |].
  destruct (following a) as [| n0 rest] eqn:Ef; [discriminate |].
  destruct (_ =? _)%Z; [discriminate |].
  intros H. apply find_in_route in H as [H1 H2]. auto.
Qed.

Lemma get_previous_lanelet_within_route_some
    (planner_data : PlannerData) (a b : ConstLanelet) :
  get_previous_lanelet_within_route a planner_data = Some b ->
  In b (previous a)
  /\ exists_ (route_lanelets planner_data) b = true
  /\ exists_ (start_lanelets planner_data) a = false.
Proof.
  unfold get_previous_lanelet_within_route.
  destruct (exists_ (start_lanelets planner_data) a); [discriminate |].
  destruct (previous a) as [| n0 rest] eqn:Ef; [discriminate |].
  intros H. apply find_in_route in H as [H1 H2]. auto.
Qed.

Lemma is_walk_In
    (step : ConstLanelet -> option ConstLanelet) (P : ConstLanelet -> Prop)
    (lanelets : list ConstLanelet) :
  (forall a b, step a = Some b -> P b) ->
  forall start, is_walk step start lanelets ->
                forall l, In l lanelets -> P l.
Proof.
  intros HP. induction lanelets as [| x rest IH]; simpl; intros start Hw l;
    [intros [] |].
  destruct Hw as [H1 H2]. intros [<- | Hin]; [eauto | eauto].
Qed.

(** X20.  [get_lanelets_within_route_after] answers with no value
    exactly for a lanelet that is not on the route.  Otherwise the
    lanelets it returns are met one after the other from the given
    lanelet by [get_next_lanelet_within_route]: each follows its
    predecessor in the routing graph and is on the route, and no lanelet
    is added once the length of those before it has reached the
    distance; the walk ends because the node is shutting down, the
    distance is covered, or the route has no next lanelet.  It does end when the
    lanelets of the route are no shorter than some positive length. *)
Theorem get_lanelets_within_route_after_walks_the_route
    (fuel : nat) (rclcpp_ok : nat -> bool) (lanelet : ConstLanelet)
    (planner_data : PlannerData) (distance : Q) :
  let next := fun current =>
                get_next_lanelet_within_route current planner_data in
  (get_lanelets_within_route_after fuel rclcpp_ok lanelet planner_data distance
   = Some None
   <-> exists_ (route_lanelets planner_data) lanelet = false)
  /\ (forall lanelets,
        get_lanelets_within_route_after fuel rclcpp_ok lanelet planner_data
          distance = Some (Some lanelets) ->
        is_walk next lanelet lanelets
        /\ (forall l, In l lanelets ->
              exists_ (route_lanelets planner_data) l = true)
        /\ (forall k, (k < List.length lanelets)%nat ->
              rclcpp_ok k = true
              /\ route_length (firstn k lanelets) < distance)
        /\ (rclcpp_ok (List.length lanelets) = false
            \/ distance <= route_length lanelets
            \/ next (last lanelets lanelet) = None))
  /\ (forall a b, next a = Some b ->
        In b (following a)
        /\ exists_ (route_lanelets planner_data) b = true
        /\ exists_ (goal_lanelets planner_data) a = false)
  /\ (forall shortest n,
        0 < shortest ->
        (forall l, exists_ (route_lanelets planner_data) l = true ->
                   shortest <= getLaneletLength2d l) ->
        distance <= inject_Z (Z.of_nat n) * shortest ->
        (n < fuel)%nat ->
        get_lanelets_within_route_after fuel rclcpp_ok lanelet planner_data
          distance <> None).
Proof.
  intros next. unfold get_lanelets_within_route_after.
  split; [| split; [| split]].
  - destruct (exists_ (route_lanelets planner_data) lanelet); simpl.
    + destruct (lanelets_within_route_loop _ _ _ _ _ _ _);
        split; discriminate.
    + tauto.
  - intros lanelets.
    destruct (exists_ (route_lanelets planner_data) lanelet); simpl;
      [| discriminate].
    destruct (lanelets_within_route_loop _ _ _ _ _ _ _) as [result |] eqn:El;
      [| discriminate].
    intros [= <-].
    apply lanelets_within_route_loop_walks in El
      as (added & -> & Hw & Hlen & Hend). simpl.
    split; [exact Hw | split; [| split]].
    + apply (is_walk_In next _ added) with (start := lanelet); [| exact Hw].
      intros a b Hab. now apply get_next_lanelet_within_route_some in Hab.
    + intros k Hk. destruct (Hlen k Hk) as [Hok Hk']. split; [exact Hok | lra].
    + destruct Hend as [? | [? | ?]]; auto. right. left. lra.
  - intros a b. apply get_next_lanelet_within_route_some.
  - intros shortest n Hs Hroute Hd Hfuel.
    destruct (exists_ (route_lanelets planner_data) lanelet); simpl;
      [| discriminate].
    pose proof (lanelets_within_route_loop_ends next distance
                  shortest Hs) as Hends.
    destruct (lanelets_within_route_loop fuel _ rclcpp_ok distance lanelet 0 [])
      eqn:El; [discriminate |].
    exfalso. apply (Hends) with (n := n) (fuel := fuel)
                                (rclcpp_ok := rclcpp_ok) (current := lanelet)
                                (length := 0) (lanelets := []);
      [| lra | exact Hfuel | exact El].
    intros a b Hab. apply Hroute.
    now apply get_next_lanelet_within_route_some in Hab.
Qed.

(** X21.  [get_lanelets_within_route_up_to] answers with no value
    exactly for a lanelet that is not on the route.  Otherwise it returns,
    in driving order, the lanelets met backwards from the given lanelet
    by [get_previous_lanelet_within_route]: each precedes its successor
    in the routing graph and is on the route, the walk does not pass a
    start lanelet, and no lanelet is added once the length of those
    nearer to the given lanelet has reached the distance. *)
Theorem get_lanelets_within_route_up_to_walks_back
    (fuel : nat) (rclcpp_ok : nat -> bool) (lanelet : ConstLanelet)
    (planner_data : PlannerData) (distance : Q) :
  let prev := fun current =>
                get_previous_lanelet_within_route current planner_data in
  (get_lanelets_within_route_up_to fuel rclcpp_ok lanelet planner_data distance
   = Some None
   <-> exists_ (route_lanelets planner_data) lanelet = false)
  /\ (forall lanelets,
        get_lanelets_within_route_up_to fuel rclcpp_ok lanelet planner_data
          distance = Some (Some lanelets) ->
        is_walk prev lanelet (rev lanelets)
        /\ (forall l, In l lanelets ->
              exists_ (route_lanelets planner_data) l = true)
        /\ (forall k, (k < List.length lanelets)%nat ->
              rclcpp_ok k = true
              /\ route_length (firstn k (rev lanelets)) < distance)
        /\ (rclcpp_ok (List.length lanelets) = false
            \/ distance <= route_length (rev lanelets)
            \/ prev (last (rev lanelets) lanelet) = None))
  /\ (forall a b, prev a = Some b ->
        In b (previous a)
        /\ exists_ (route_lanelets planner_data) b = true
        /\ exists_ (start_lanelets planner_data) a = false)
  /\ (forall shortest n,
        0 < shortest ->
        (forall l, exists_ (route_lanelets planner_data) l = true ->
                   shortest <= getLaneletLength2d l) ->
        distance <= inject_Z (Z.of_nat n) * shortest ->
        (n < fuel)%nat ->
        get_lanelets_within_route_up_to fuel rclcpp_ok lanelet planner_data
          distance <> None).
Proof.
  intros prev. unfold get_lanelets_within_route_up_to.
  split; [| split; [| split]].
  - destruct (exists_ (route_lanelets planner_data) lanelet); simpl.
    + destruct (lanelets_within_route_loop _ _ _ _ _ _ _);
        split; discriminate.
    + tauto.
  - intros lanelets.
    destruct (exists_ (route_lanelets planner_data) lanelet); simpl;
      [| discriminate].
    destruct (lanelets_within_route_loop _ _ _ _ _ _ _) as [result |] eqn:El;
      [| discriminate].
    intros [= <-]. rewrite rev_involutive, length_rev.
    apply lanelets_within_route_loop_walks in El
      as (added & -> & Hw & Hlen & Hend). simpl.
    split; [exact Hw | split; [| split]].
    + intros l Hl. apply in_rev in Hl.
      apply (is_walk_In prev
               (fun l => exists_ (route_lanelets planner_data) l = true) added)
        with (start := lanelet); [| exact Hw | exact Hl].
      intros a b Hab. now apply get_previous_lanelet_within_route_some in Hab.
    + intros k Hk. destruct (Hlen k Hk) as [Hok Hk']. split; [exact Hok | lra].
    + destruct Hend as [? | [? | ?]]; auto. right. left. lra.
  - intros a b. apply get_previous_lanelet_within_route_some.
  - intros shortest n Hs Hroute Hd Hfuel.
    destruct (exists_ (route_lanelets planner_data) lanelet); simpl;
      [| discriminate].
    pose proof (lanelets_within_route_loop_ends prev distance
                  shortest Hs) as Hends.
    destruct (lanelets_within_route_loop fuel _ rclcpp_ok distance lanelet 0 [])
      eqn:El; [discriminate |].
    exfalso. apply (Hends) with (n := n) (fuel := fuel)
                                (rclcpp_ok := rclcpp_ok) (current := lanelet)
                                (length := 0) (lanelets := []);
      [| lra | exact Hfuel | exact El].
    intros a b Hab. apply Hroute.
    now apply get_previous_lanelet_within_route_some in Hab.
Qed.

End RouteProofs.

End PathGeneratorRouteProofs.

(** ** Predicted paths and crossing obstacles *)

Module CrossingProofs.
Import Cxx CxxFacts ObstacleStop ObstacleStopCrossing.

Lemma select_path_step_firstn
    (num_paths : nat) (l selected : list PredictedPath) (count : nat) :
  fst (fold_left (select_path_step num_paths) l (selected, count))
  = selected ++ firstn (num_paths - count) l.
Proof.
  revert selected count.
  induction l as [| a l IH]; intros selected count; cbn [fold_left].
  - rewrite firstn_nil, app_nil_r. reflexivity.
  - unfold select_path_step at 2.
    destruct (Nat.ltb_spec count num_paths) as [Hlt | Hge].
    + rewrite IH.
      replace (num_paths - count)%nat with (S (num_paths - S count)) by lia.
      cbn [firstn]. rewrite <- app_assoc. reflexivity.
    + rewrite IH.
      replace (num_paths - count)%nat with 0%nat by lia.
      reflexivity.
Qed.

Lemma filter_length_permutation
    {A : Type} (f : A -> bool) (l l' : list A) :
  Permutation l l' -> List.length (filter f l) = List.length (filter f l').
Proof.
  induction 1 as [| x l l' _ IH | x y l | l l' l'' _ IH1 _ IH2]; simpl.
  - reflexivity.
  - destruct (f x); simpl; congruence.
  - destruct (f x), (f y); reflexivity.
  - congruence.
Qed.

Lemma strongly_sorted_after
    {A : Type} (R : A -> A -> Prop) (before after : list A) (a : A) :
  StronglySorted R (before ++ a :: after) -> Forall (R a) after.
Proof.
  induction before as [| b before IH]; simpl; intros H.
  - now apply StronglySorted_inv in H.
  - apply StronglySorted_inv in H. apply IH, H.
Qed.

Lemma more_confident_irreflexive (a : PredictedPath) :
  gtb (confidence a) (confidence a) = false.
Proof. destruct (gtb_spec (confidence a) (confidence a)); [lra | reflexivity]. Qed.

Lemma more_confident_transitive (a b c : PredictedPath) :
  gtb (confidence a) (confidence b) = true ->
  gtb (confidence b) (confidence c) = true ->
  gtb (confidence a) (confidence c) = true.
Proof.
  destruct (gtb_spec (confidence a) (confidence b)); [| discriminate].
  destruct (gtb_spec (confidence b) (confidence c)); [| discriminate].
  destruct (gtb_spec (confidence a) (confidence c)); [reflexivity | lra].
Qed.

Section Resampling.
Context {SO : StdSort}.
Variable resamplePredictedPath : PredictedPath -> Q -> Q -> PredictedPath.

Local Abbreviation more_confident_than p :=
  (fun q : PredictedPath => gtb (confidence q) (confidence p)).

Lemma resample_highest_confidence_predicted_paths_eq
    (predicted_paths : list PredictedPath) (time_interval time_horizon : Q)
    (num_paths : nat) :
  resample_highest_confidence_predicted_paths resamplePredictedPath
    predicted_paths time_interval time_horizon num_paths
  = flat_map
      (fun path_ =>
         if (List.length (path path_) <? 2)%nat then []
         else [resamplePredictedPath path_ time_interval time_horizon])
      (firstn num_paths
         (std_sort (fun a b => gtb (confidence a) (confidence b))
            predicted_paths)).
Proof.
  unfold resample_highest_confidence_predicted_paths.
  rewrite select_path_step_firstn, Nat.sub_0_r. reflexivity.
Qed.

Lemma flat_map_at_most_one
    {A B : Type} (f : A -> list B) (l : list A) :
  (forall a, (List.length (f a) <= 1)%nat) ->
  (List.length (flat_map f l) <= List.length l)%nat.
Proof.
  intros Hf. induction l as [| a l IH]; simpl; [lia |].
  rewrite length_app. specialize (Hf a). lia.
Qed.

(** A path among the first [num_paths] of the sorted paths is an input
    path that fewer than [num_paths] input paths exceed in confidence. *)
Lemma selected_paths_are_most_confident
    (predicted_paths : list PredictedPath) (num_paths : nat) (p : PredictedPath) :
  std_sort_rearranges SO ->
  std_sort_orders SO ->
  In p (firstn num_paths
          (std_sort (fun a b => gtb (confidence a) (confidence b))
             predicted_paths)) ->
  In p predicted_paths
  /\ (List.length (filter (more_confident_than p) predicted_paths)
      < num_paths)%nat.
Proof.
  intros Hperm Hsort.
  set (comp := fun a b : PredictedPath => gtb (confidence a) (confidence b)).
  pose proof (Hperm _ comp predicted_paths) as Hp.
  pose proof (Hsort _ comp predicted_paths more_confident_irreflexive
                more_confident_transitive) as Hs.
  set (sorted_paths := std_sort comp predicted_paths) in *.
  intros Hin. split.
  - apply (Permutation_in _ (Permutation_sym Hp)).
    rewrite <- (firstn_skipn num_paths sorted_paths).
    apply in_or_app. now left.
  - apply in_split in Hin. destruct Hin as (before & after & Hsplit).
    assert (Hbefore : (List.length before < num_paths)%nat).
    { assert (Hl : (List.length (firstn num_paths sorted_paths)
                    <= num_paths)%nat)
        by (rewrite length_firstn; lia).
      rewrite Hsplit, length_app in Hl. simpl in Hl. lia. }
    rewrite (filter_length_permutation _ _ _ Hp).
    rewrite <- (firstn_skipn num_paths sorted_paths) in Hs |- *.
    rewrite Hsplit in Hs |- *.
    rewrite <- app_assoc in Hs |- *. simpl in Hs |- *.
    apply strongly_sorted_after in Hs.
    rewrite filter_app. simpl.
    unfold comp in Hs. rewrite more_confident_irreflexive.
    assert (Hnone : filter (more_confident_than p)
                      (after ++ skipn num_paths sorted_paths) = []).
    { induction Hs as [| q rest Hq _ IH]; simpl; [reflexivity |].
      rewrite Hq. exact IH. }
    rewrite Hnone, length_app. simpl.
    pose proof (filter_length_le (more_confident_than p) before). lia.
Qed.

(** No input path exceeds the only selected path in confidence. *)
Lemma the_selected_path_is_most_confident
    (predicted_paths : list PredictedPath) (p : PredictedPath) :
  (List.length (filter (more_confident_than p) predicted_paths) < 1)%nat ->
  forall q, In q predicted_paths -> confidence q <= confidence p.
Proof.
  intros Hnone q Hq.
  destruct (gtb_spec (confidence q) (confidence p)) as [Hgt | Hle]; [| lra].
  exfalso.
  assert (Hf : In q (filter (more_confident_than p) predicted_paths)).
  { apply filter_In. split; [exact Hq |].
    destruct (gtb_spec (confidence q) (confidence p)); [reflexivity | lra]. }
  destruct (filter _ predicted_paths); [contradiction | simpl in Hnone; lia].
Qed.

(** With [num_paths = 1] the result is empty or the resampling of one
    path of the highest confidence. *)
Lemma resample_the_most_confident_path
    (predicted_paths : list PredictedPath) (time_interval time_horizon : Q) :
  std_sort_rearranges SO ->
  std_sort_orders SO ->
  resample_highest_confidence_predicted_paths resamplePredictedPath
    predicted_paths time_interval time_horizon 1 = []
  \/ exists p,
       In p predicted_paths
       /\ (forall q, In q predicted_paths -> confidence q <= confidence p)
       /\ (2 <= List.length (path p))%nat
       /\ resample_highest_confidence_predicted_paths resamplePredictedPath
            predicted_paths time_interval time_horizon 1
          = [resamplePredictedPath p time_interval time_horizon].
Proof.
  intros Hperm Hsort.
  rewrite resample_highest_confidence_predicted_paths_eq.
  pose proof (selected_paths_are_most_confident predicted_paths 1) as Hsel.
  destruct (std_sort _ predicted_paths) as [| p0 rest]; [now left |].
  cbn [firstn flat_map] in *. rewrite app_nil_r.
  destruct (Nat.ltb_spec (List.length (path p0)) 2) as [| Hlong];
    [now left | right].
  destruct (Hsel p0 Hperm Hsort (or_introl eq_refl)) as [Hp0 Hnone].
  exists p0. split; [exact Hp0 |].
  split; [now apply the_selected_path_is_most_confident |].
  split; [exact Hlong | reflexivity].
Qed.

(** X22.  [resample_highest_confidence_predicted_paths] returns at most
    [num_paths] paths, each the resampling of an input path of at least
    two poses that fewer than [num_paths] input paths exceed in
    confidence.  A selected path of fewer than two poses is dropped
    without another taking its place: with [num_paths = 1], when every
    path of the highest confidence has fewer than two poses the result
    is empty, whatever the other paths are. *)
Theorem resample_highest_confidence_selects_then_drops_short
    (predicted_paths : list PredictedPath) (time_interval time_horizon : Q)
    (num_paths : nat) :
  std_sort_rearranges SO ->
  std_sort_orders SO ->
  let resampled_paths :=
    resample_highest_confidence_predicted_paths resamplePredictedPath
      predicted_paths time_interval time_horizon num_paths in
  (List.length resampled_paths <= num_paths)%nat
  /\ (List.length resampled_paths <= List.length predicted_paths)%nat
  /\ (forall r, In r resampled_paths ->
        exists p,
          In p predicted_paths
          /\ (2 <= List.length (path p))%nat
          /\ r = resamplePredictedPath p time_interval time_horizon
          /\ (List.length (filter (more_confident_than p) predicted_paths)
              < num_paths)%nat)
  /\ (num_paths = 1%nat ->
      (forall p,
          In p predicted_paths ->
          (forall q, In q predicted_paths -> confidence q <= confidence p) ->
          (List.length (path p) < 2)%nat) ->
      resampled_paths = []).
Proof.
  intros Hperm Hsort resampled_paths. subst resampled_paths.
  split; [| split; [| split]].
  - rewrite resample_highest_confidence_predicted_paths_eq.
    etransitivity; [apply flat_map_at_most_one |].
    + intros a. destruct (_ <? _)%nat; simpl; lia.
    + rewrite length_firstn. lia.
  - rewrite resample_highest_confidence_predicted_paths_eq.
    etransitivity; [apply flat_map_at_most_one |].
    + intros a. destruct (_ <? _)%nat; simpl; lia.
    + rewrite length_firstn, <- (Permutation_length (Hperm _ _ predicted_paths)).
      lia.
  - intros r Hr.
    rewrite resample_highest_confidence_predicted_paths_eq in Hr.
    apply in_flat_map in Hr. destruct Hr as (p & Hin & Hr).
    destruct (Nat.ltb_spec (List.length (path p)) 2) as [| Hlong];
      [contradiction |].
    destruct Hr as [<- | []].
    destruct (selected_paths_are_most_confident _ _ _ Hperm Hsort Hin)
      as [Hp Hfew].
    exists p. repeat split; assumption.
  - intros -> Hshort.
    destruct (resample_the_most_confident_path predicted_paths time_interval
                time_horizon Hperm Hsort)
      as [E | (p & Hp & Hmax & Hlong & _)]; [exact E |].
    specialize (Hshort p Hp Hmax). lia.
Qed.

End Resampling.

Section TimeMarginProofs.
Context {MU : MotionUtils}.
Variable calcSignedArcLength_point_point :
  TrajectoryPoints -> geometry_msgs.Point -> geometry_msgs.Point -> Q.

Lemma nonnegative_over_positive (a b : Q) : 0 <= a -> 0 < b -> 0 <= a / b.
Proof. intros Ha Hb. apply Qle_shift_div_l; [exact Hb | lra]. Qed.

(** X23.  With a positive [min_velocity_to_reach_collision_point] and a
    non-negative [dist_to_bumper], [calc_collision_time_margin] of a
    non-empty list of collision points is never negative, and it is zero
    exactly when the time the ego takes from reaching the stop point to
    leaving the collision point overlaps the time between the first and
    the last collision point's stamps.  For an empty list it has no
    defined result. *)
Theorem calc_collision_time_margin_zero_iff_overlap
    (stop_planning_param : StopPlanningParam) (crossing_param : CrossingParam)
    (now_front now_back : Time) (odometry : Odometry)
    (collision_points : list PointWithStamp)
    (traj_points : TrajectoryPoints) (dist_to_bumper : Q) :
  0 < min_velocity_to_reach_collision_point crossing_param ->
  0 <= dist_to_bumper ->
  (calc_collision_time_margin calcSignedArcLength_point_point
     stop_planning_param crossing_param now_front now_back odometry
     collision_points traj_points dist_to_bumper = None
   <-> collision_points = [])
  /\ (forall front rest,
        collision_points = front :: rest ->
        exists margin,
          calc_collision_time_margin calcSignedArcLength_point_point
            stop_planning_param crossing_param now_front now_back odometry
            collision_points traj_points dist_to_bumper = Some margin
          /\ 0 <= margin
          /\ (let time_to_reach_stop_point :=
                calc_time_to_reach_collision_point
                  calcSignedArcLength_point_point odometry (point front)
                  traj_points
                  (min_behavior_stop_margin stop_planning_param + dist_to_bumper)
                  (min_velocity_to_reach_collision_point crossing_param) in
              let time_to_leave_collision_point :=
                time_to_reach_stop_point
                + dist_to_bumper
                  / std_max (min_velocity_to_reach_collision_point crossing_param)
                            (odometry_linear_x odometry) in
              margin == 0
              <-> seconds_between (point_stamp front) now_front
                  <= time_to_leave_collision_point
                  /\ time_to_reach_stop_point
                     <= seconds_between (point_stamp (last rest front)) now_back)).
Proof.
  intros Hmin Hdist.
  assert (Hleave : 0 <= dist_to_bumper
                        / std_max (min_velocity_to_reach_collision_point
                                     crossing_param)
                                  (odometry_linear_x odometry)).
  { apply nonnegative_over_positive; [exact Hdist |].
    pose proof (std_max_lub (min_velocity_to_reach_collision_point
                               crossing_param)
                            (odometry_linear_x odometry)). lra. }
  destruct collision_points as [| front rest].
  - split; [split; reflexivity |]. intros ? ? [=].
  - assert (Hrev : exists before,
               rev (front :: rest) = last rest front :: before).
    { exists (rev (removelast (front :: rest))).
      transitivity (rev (removelast (front :: rest)
                         ++ [last (front :: rest) front])).
      - f_equal. apply app_removelast_last. discriminate.
      - rewrite rev_app_distr.
        change (rev [last (front :: rest) front])
          with [last (front :: rest) front].
        cbn [app]. f_equal. destruct rest; reflexivity. }
    destruct Hrev as (before & Hrev).
    unfold calc_collision_time_margin. rewrite Hrev.
    set (reach := calc_time_to_reach_collision_point _ _ _ _ _ _) in *.
    set (leave_after := dist_to_bumper / _) in *.
    set (start_cross := seconds_between (point_stamp front) now_front).
    set (end_cross := seconds_between (point_stamp (last rest front)) now_back).
    split.
    + split; [| discriminate].
      destruct (ltb _ _); [discriminate |].
      destruct (ltb _ _); discriminate.
    + intros front' rest' [= <- <-].
      fold reach leave_after start_cross end_cross.
      destruct (ltb_spec (reach + leave_after) start_cross) as [H1 | H1].
      * exists (start_cross - reach).
        split; [reflexivity |]. split; [lra |]. split; [lra |].
        intros [H _]. lra.
      * destruct (ltb_spec end_cross reach) as [H2 | H2].
        -- exists (reach - end_cross).
           split; [reflexivity |]. split; [lra |]. split; [lra |].
           intros [_ H]. lra.
        -- exists 0. split; [reflexivity |]. split; [lra |].
           split; [intros _; split; lra | reflexivity].
Qed.

End TimeMarginProofs.

Section CrossingTest.
Context {MU : MotionUtils} {PO : PlannerObjects MU} {SO : StdSort}.
Variable calcSignedArcLength_point_point :
  TrajectoryPoints -> geometry_msgs.Point -> geometry_msgs.Point -> Q.
Variable calc_diff_angle_against_trajectory : TrajectoryPoints -> Object -> Q.
Variable predicted_paths : Object -> list PredictedPath.
Variable resamplePredictedPath : PredictedPath -> Q -> Q -> PredictedPath.
Variable calcInterpolatedPose : PredictedPath -> Q -> option geometry_msgs.Point.

(** X24.  [is_crossing_transient_obstacle] answers true only for an
    object whose angle against the trajectory is outside the threshold
    around zero and around pi, that the ego reaches later than the
    collision time margin, and that has a path of the highest confidence
    with at least two poses along which, resampled, the object is off
    the trajectory polygons when the ego arrives.  An object whose paths
    of the highest confidence all have fewer than two poses, or that has
    no predicted path, is never a crossing obstacle. *)
Theorem is_crossing_transient_obstacle_follows_most_confident_path
    (stop_planning_param : StopPlanningParam) (crossing_param : CrossingParam)
    (clock_now : Time) (odometry : Odometry)
    (traj_points decimated_traj_points : TrajectoryPoints) (object : Object)
    (dist_to_bumper : Q) (decimated_traj_polys_with_lat_margin : list Polygon2d)
    (collision_point_ : geometry_msgs.Point * Q) :
  std_sort_rearranges SO ->
  std_sort_orders SO ->
  let diff_angle := calc_diff_angle_against_trajectory traj_points object in
  let threshold := crossing_obstacle_traj_angle_threshold crossing_param in
  let time_margin := crossing_obstacle_collision_time_margin crossing_param in
  let time_to_reach_stop_point :=
    calc_time_to_reach_collision_point calcSignedArcLength_point_point
      odometry (fst collision_point_) traj_points
      (min_behavior_stop_margin stop_planning_param + dist_to_bumper)
      (min_velocity_to_reach_collision_point crossing_param) in
  let crossing :=
    is_crossing_transient_obstacle calcSignedArcLength_point_point
      calc_diff_angle_against_trajectory predicted_paths
      resamplePredictedPath calcInterpolatedPose
      stop_planning_param crossing_param clock_now odometry traj_points
      decimated_traj_points object dist_to_bumper
      decimated_traj_polys_with_lat_margin collision_point_ in
  (crossing = true ->
     (diff_angle <= - threshold \/ threshold <= diff_angle)
     /\ (std_abs diff_angle <= M_PI - threshold
         \/ M_PI + threshold <= std_abs diff_angle)
     /\ time_margin < time_to_reach_stop_point
     /\ exists p back_ before,
          In p (predicted_paths object)
          /\ (forall q, In q (predicted_paths object) ->
                        confidence q <= confidence p)
          /\ (2 <= List.length (path p))%nat
          /\ rev (path (resamplePredictedPath p 0.1 10)) = back_ :: before
          /\ get_collision_point decimated_traj_points
               decimated_traj_polys_with_lat_margin
               (match calcInterpolatedPose (resamplePredictedPath p 0.1 10)
                        (time_to_reach_stop_point - time_margin)
                with
                | Some opt_future_obj_pose => opt_future_obj_pose
                | None => back_
                end)
               clock_now object dist_to_bumper = None)
  /\ ((forall p,
         In p (predicted_paths object) ->
         (forall q, In q (predicted_paths object) ->
                    confidence q <= confidence p) ->
         (List.length (path p) < 2)%nat) ->
      crossing = false).
Proof.
  intros Hperm Hsort diff_angle threshold time_margin time_to_reach_stop_point
         crossing.
  subst crossing. unfold is_crossing_transient_obstacle.
  fold diff_angle threshold time_margin time_to_reach_stop_point.
  destruct (resample_the_most_confident_path resamplePredictedPath
              (predicted_paths object) 0.1 10 Hperm Hsort)
    as [-> | (p & Hp & Hmax & Hlong & ->)].
  - split.
    + destruct (_ || _); [discriminate |].
      destruct (leb _ _); discriminate.
    + intros _. destruct (_ || _); [reflexivity |].
      destruct (leb _ _); reflexivity.
  - split.
    + destruct (ltb_spec (- threshold) diff_angle) as [Hz1 | Hz1];
        destruct (ltb_spec diff_angle threshold) as [Hz2 | Hz2];
        destruct (ltb_spec (M_PI - threshold) (std_abs diff_angle))
          as [Hp1 | Hp1];
        destruct (ltb_spec (std_abs diff_angle) (M_PI + threshold))
          as [Hp2 | Hp2];
        cbn [andb orb]; try discriminate;
        (destruct (leb_spec time_to_reach_stop_point time_margin) as [Ht | Ht];
         [discriminate |]);
        (destruct (rev (path (resamplePredictedPath p 0.1 10)))
           as [| back_ before] eqn:Eb; [discriminate |]);
        (destruct (get_collision_point _ _ _ _ _ _) eqn:Ec; [discriminate |]);
        intros _;
        (split; [lra |]); (split; [lra |]); (split; [lra |]);
        exists p, back_, before; repeat split; auto.
    + intros Hshort. specialize (Hshort p Hp Hmax). lia.
Qed.

End CrossingTest.

End CrossingProofs.

(** ** The trajectory polygons kept per lateral margin *)

Module TrajectoryPolygonCacheProofs.
Import Cxx CxxFacts ObstacleStop TrajectoryPolygonCache.

Section CacheProofs.
Context {MU : MotionUtils}.
Variable polygon_utils_create_one_step_polygons :
  TrajectoryPoints -> VehicleInfo -> geometry_msgs.Point -> Q ->
  bool -> Q -> Q -> list Polygon2d.

Local Abbreviation has_key key :=
  (fun entry : Q * list Polygon2d => Qeq_bool (fst entry) key).

Lemma find_existsb (map_ : PolygonMap) (key : Q) :
  existsb (has_key key) map_ = true <->
  exists entry, find (has_key key) map_ = Some entry.
Proof.
  induction map_ as [| e map_ IH]; simpl.
  - split; [discriminate | intros (? & [=])].
  - destruct (Qeq_bool (fst e) key); simpl; [| exact IH].
    split; [intros _; now exists e | reflexivity].
Qed.

Lemma find_app_new (map_ : PolygonMap) (key key' : Q) (value : list Polygon2d) :
  existsb (has_key key) map_ = false ->
  find (has_key key') (map_ ++ [(key, value)])
  = if Qeq_bool key key'
    then match find (has_key key') map_ with
         | Some entry => Some entry
         | None => Some (key, value)
         end
    else find (has_key key') map_.
Proof.
  intros _.
  induction map_ as [| e map_ IH]; simpl.
  - destruct (Qeq_bool key key'); reflexivity.
  - destruct (Qeq_bool (fst e) key'); [| exact IH].
    destruct (Qeq_bool key key'); reflexivity.
Qed.

Lemma has_key_proper (map_ : PolygonMap) (key key' : Q) :
  key == key' ->
  find (has_key key) map_ = find (has_key key') map_
  /\ existsb (has_key key) map_ = existsb (has_key key') map_.
Proof.
  intros Hk.
  assert (Hb : forall e : Q * list Polygon2d,
             Qeq_bool (fst e) key = Qeq_bool (fst e) key').
  { intros e.
    destruct (Qeq_bool (fst e) key) eqn:E1, (Qeq_bool (fst e) key') eqn:E2;
      try reflexivity.
    - apply Qeq_bool_iff in E1.
      assert (E : fst e == key') by (rewrite E1; exact Hk).
      apply Qeq_bool_iff in E. congruence.
    - apply Qeq_bool_iff in E2.
      assert (E : fst e == key) by (rewrite E2; symmetry; exact Hk).
      apply Qeq_bool_iff in E. congruence. }
  induction map_ as [| e map_ [IH1 IH2]]; simpl; [now split |].
  rewrite <- Hb, IH1, IH2. now split.
Qed.

(** X25.  [get_trajectory_polygon] never throws, and it keys the
    polygons by the lateral margin alone: a call for a margin that is not
    kept yet computes the polygons and keeps them, and every later call
    for an equal margin returns those same polygons and changes nothing,
    whatever trajectory, vehicle, pose and flags it is given.  The
    polygons kept for other margins are not touched. *)
Theorem get_trajectory_polygon_is_keyed_by_margin_alone
    (trajectory_polygon_for_inside_map_ : PolygonMap)
    (decimated_traj_points : TrajectoryPoints) (vehicle_info : VehicleInfo)
    (current_ego_pose : geometry_msgs.Point) (lat_margin : Q)
    (enable_to_consider_current_pose : bool)
    (time_to_convergence decimate_trajectory_step_length : Q) :
  exists traj_polys map_,
    get_trajectory_polygon polygon_utils_create_one_step_polygons
      trajectory_polygon_for_inside_map_ decimated_traj_points vehicle_info
      current_ego_pose lat_margin enable_to_consider_current_pose
      time_to_convergence decimate_trajectory_step_length
    = (Ok traj_polys, map_)
    /\ (count trajectory_polygon_for_inside_map_ lat_margin = 0%nat ->
        traj_polys
        = polygon_utils_create_one_step_polygons decimated_traj_points
            vehicle_info current_ego_pose lat_margin
            enable_to_consider_current_pose time_to_convergence
            decimate_trajectory_step_length)
    /\ (count trajectory_polygon_for_inside_map_ lat_margin <> 0%nat ->
        at_ trajectory_polygon_for_inside_map_ lat_margin = Ok traj_polys
        /\ map_ = trajectory_polygon_for_inside_map_)
    /\ (forall other_traj_points other_vehicle_info other_pose lat_margin'
               other_flag other_time other_step,
          lat_margin' == lat_margin ->
          get_trajectory_polygon polygon_utils_create_one_step_polygons
            map_ other_traj_points other_vehicle_info other_pose lat_margin'
            other_flag other_time other_step
          = (Ok traj_polys, map_))
    /\ (forall other_margin,
          ~ other_margin == lat_margin ->
          at_ map_ other_margin
          = at_ trajectory_polygon_for_inside_map_ other_margin).
Proof.
  unfold get_trajectory_polygon, count, emplace, at_.
  destruct (existsb (has_key lat_margin) trajectory_polygon_for_inside_map_)
    eqn:Ekept; cbn [Nat.eqb].
  - destruct (proj1 (find_existsb _ _) Ekept) as (entry & Efind).
    rewrite Efind.
    exists (snd entry), trajectory_polygon_for_inside_map_.
    split; [reflexivity |]. split; [discriminate |].
    split; [intros _; now split |]. split; [| reflexivity].
    intros ? ? ? lat_margin' ? ? ? Hk.
    destruct (has_key_proper trajectory_polygon_for_inside_map_ _ _ Hk)
      as [Hf He].
    rewrite He, Ekept. cbn [Nat.eqb]. rewrite Hf, Efind. reflexivity.
  - rewrite find_app_new by exact Ekept.
    assert (Hnone : find (has_key lat_margin)
                      trajectory_polygon_for_inside_map_ = None).
    { destruct (find _ _) as [entry |] eqn:Efind; [| reflexivity].
      assert (H : existsb (has_key lat_margin)
                    trajectory_polygon_for_inside_map_ = true)
        by (apply find_existsb; now exists entry).
      congruence. }
    assert (Hrefl : Qeq_bool lat_margin lat_margin = true)
      by (apply Qeq_bool_iff; reflexivity).
    rewrite Hrefl, Hnone.
    eexists _, _. split; [reflexivity |]. split; [reflexivity |].
    split; [intros H; now contradiction H |]. split.
    + intros ? ? ? lat_margin' ? ? ? Hk.
      destruct (has_key_proper
                  (trajectory_polygon_for_inside_map_
                   ++ [(lat_margin,
                        polygon_utils_create_one_step_polygons
                          decimated_traj_points vehicle_info current_ego_pose
                          lat_margin enable_to_consider_current_pose
                          time_to_convergence decimate_trajectory_step_length)])
                  _ _ Hk) as [Hf He].
      rewrite He, existsb_app. cbn [existsb fst]. rewrite Hrefl, orb_true_r.
      cbn [Nat.eqb orb].
      rewrite Hf. rewrite find_app_new by exact Ekept. rewrite Hrefl, Hnone.
      reflexivity.
    + intros other_margin Hother.
      rewrite find_app_new by exact Ekept.
      destruct (Qeq_bool lat_margin other_margin) eqn:E; [| reflexivity].
      apply Qeq_bool_iff in E. exfalso. apply Hother. symmetry. exact E.
Qed.

End CacheProofs.

End TrajectoryPolygonCacheProofs.

(** ** The further scenarios *)

Module FurtherScenarioProofs.
Import Cxx CxxFacts ObstacleStop ObstacleStopInvariants ObstacleStopCrossing.
Import StraightRoad Scenario FurtherScenario.

Ltac by_evaluation :=
  vm_compute; first [reflexivity | discriminate | (intro; discriminate)].

(** Sorting by insertion has the two guarantees of [std::sort]. *)
Lemma insert_sorted_permutation
    {A : Type} (comp : A -> A -> bool) (a : A) (l : list A) :
  Permutation (a :: l) (insert_sorted comp a l).
Proof.
  induction l as [| b l IH]; simpl; [apply Permutation_refl |].
  destruct (comp a b); [apply Permutation_refl |].
  apply perm_trans with (b :: a :: l); [apply perm_swap |].
  apply perm_skip, IH.
Qed.

Lemma sort_by_insertion_rearranges : std_sort_rearranges sort_by_insertion.
Proof.
  intros A comp l. simpl. unfold insertion_sort.
  induction l as [| a l IH]; simpl; [apply perm_nil |].
  apply perm_trans with (a :: fold_right (insert_sorted comp) [] l);
    [apply perm_skip, IH | apply insert_sorted_permutation].
Qed.

Lemma insert_sorted_sorted
    {A : Type} (comp : A -> A -> bool) (a : A) (l : list A) :
  (forall a, comp a a = false) ->
  (forall a b c, comp a b = true -> comp b c = true -> comp a c = true) ->
  StronglySorted (fun a b => comp b a = false) l ->
  StronglySorted (fun a b => comp b a = false) (insert_sorted comp a l).
Proof.
  intros Hirr Htrans.
  induction l as [| b l IH]; simpl; intros Hs.
  - constructor; constructor.
  - apply StronglySorted_inv in Hs. destruct Hs as [Hs Hall].
    destruct (comp a b) eqn:Eab.
    + constructor; [constructor; assumption |].
      constructor.
      * destruct (comp b a) eqn:Eba; [| reflexivity].
        rewrite <- (Hirr a). symmetry. now apply Htrans with b.
      * rewrite Forall_forall in Hall |- *. intros c Hc.
        destruct (comp c a) eqn:Eca; [| reflexivity].
        rewrite <- (Hall c Hc). symmetry. now apply Htrans with a.
    + constructor; [apply IH, Hs |].
      rewrite Forall_forall in Hall |- *. intros c Hc.
      apply (Permutation_in _
               (Permutation_sym (insert_sorted_permutation comp a l))) in Hc.
      destruct Hc as [<- | Hc]; [exact Eab | apply Hall, Hc].
Qed.

Lemma sort_by_insertion_orders : std_sort_orders sort_by_insertion.
Proof.
  intros A comp l Hirr Htrans. simpl. unfold insertion_sort.
  induction l as [| a l IH]; simpl; [constructor |].
  now apply insert_sorted_sorted.
Qed.

(** A car ahead of a fresh module is picked, and the stop obstacle
    carries its UUID. *)
Lemma picked_stop_obstacles_stem_from_objects_witness :
  exists picks so o,
    pick_stop_obstacles (fresh false) (cycle 0%Z [car_ahead 1]) [car_ahead 1]
    = Ok picks
    /\ In so picks
    /\ In o [car_ahead 1]
    /\ uuid so = PredictedObject.object_id (predicted_object o).
Proof.
  destruct (pick_stop_obstacles (fresh false) (cycle 0%Z [car_ahead 1])
              [car_ahead 1]) as [picks | e] eqn:E;
    [| vm_compute in E; discriminate].
  destruct picks as [| so rest]; [vm_compute in E; discriminate |].
  destruct (PredictedObjectFilterProofs.picked_stop_obstacles_stem_from_objects
              _ _ _ _ E so (or_introl eq_refl))
    as (o & Ho & _ & Hu & _).
  exists (so :: rest), so, o.
  split; [reflexivity |]. split; [now left |]. split; [exact Ho | exact Hu].
Defined.

(** Of two cars and a pedestrian one is determined, and it is one of the
    closest obstacles. *)
Lemma plan_stop_determines_least_stop_distance_witness :
  exists d,
    determine_stop (fresh false) (ego 5) road [far_car; near_car; pedestrian] 4
    = Some d
    /\ In (determined_obstacle d)
          (get_closest_stop_obstacles [far_car; near_car; pedestrian]).
Proof.
  destruct (determine_stop (fresh false) (ego 5) road
              [far_car; near_car; pedestrian] 4) as [d |] eqn:E;
    [| vm_compute in E; discriminate].
  exists d. split; [reflexivity |].
  exact (proj1 (PlanStopProofs.plan_stop_determines_least_stop_distance
                  _ _ _ _ _ _ E)).
Defined.

(** With the approach on curves disabled and no behavior stop point on
    the road, the margin for the near car is the stop margin. *)
Lemma desired_stop_margin_without_curve_approach_witness :
  calc_desired_stop_margin (fresh false) (ego 5) road near_car 4 0 36
  = stop_margin stop_planning.
Proof.
  assert (Hcurve : enable_approaching_on_curve (stop_planning_param_ (fresh false))
                   = false
                   \/ use_pointcloud (obstacle_filtering_param_ (fresh false))
                      = true) by (left; reflexivity).
  assert (Hvel : max_negative_velocity (stop_planning_param_ (fresh false))
                 <= velocity near_car) by by_evaluation.
  destruct (PlanStopProofs.desired_stop_margin_without_curve_approach
              (fresh false) (ego 5) road 4 near_car 0 36 Hcurve Hvel)
    as [H _].
  rewrite H by reflexivity. reflexivity.
Defined.

(** The configured decelerations are negative: a car at 5 m/s has a
    braking distance, a car that backs off at 1 m/s has none. *)
Lemma calc_braking_dist_nonnegative_monotone_witness :
  0 <= calc_braking_dist CAR 5 rss
  /\ calc_braking_dist CAR (-1) rss == 0
  /\ calc_braking_dist CAR (-1) rss <= calc_braking_dist CAR 5 rss.
Proof.
  assert (H1 : no_wheel_objects_deceleration rss < 0) by by_evaluation.
  assert (H2 : two_wheel_objects_deceleration rss < 0) by by_evaluation.
  assert (H3 : vehicle_objects_deceleration rss < 0) by by_evaluation.
  destruct (BrakingDistProofs.calc_braking_dist_nonnegative_monotone
              CAR 5 5 rss H1 H2 H3) as (Ha & _ & _).
  destruct (BrakingDistProofs.calc_braking_dist_nonnegative_monotone
              CAR (-1) 5 rss H1 H2 H3) as (_ & Hb & Hc).
  split; [exact Ha |]. split; [apply Hb | apply Hc]; by_evaluation.
Defined.


(** The history of the two entries holds point-cloud obstacles only, and
    so does what the filter returns. *)
Lemma point_cloud_filter_keeps_point_cloud_obstacles_witness :
  exists m' stop_obstacles,
    filter_stop_obstacle_for_point_cloud 3 module_with_two_entries (pt 0 0)
      2000000000%Z road road later_cloud vehicle 4 0
    = Some (m', stop_obstacles)
    /\ Forall is_point_cloud_obstacle stop_obstacles
    /\ (List.length (get_closest_stop_obstacles stop_obstacles) <= 1)%nat.
Proof.
  assert (Hhistory : Forall is_point_cloud_obstacle
                       (stop_pointcloud_obstacle_history_
                          module_with_two_entries)).
  { apply Forall_cons; [| apply Forall_cons; [| apply Forall_nil]];
      repeat split. }
  assert (Hreturns :
            exists r,
              filter_stop_obstacle_for_point_cloud 3 module_with_two_entries
                (pt 0 0) 2000000000%Z road road later_cloud vehicle 4 0
              = Some r) by (eexists; reflexivity).
  destruct Hreturns as ([m' stop_obstacles] & E).
  destruct (PointCloudFilterProofs.point_cloud_filter_keeps_point_cloud_obstacles
              _ _ _ _ _ _ _ _ _ _ _ _ Hhistory E) as (_ & H1 & H2 & _).
  exists m', stop_obstacles. split; [exact E |]. split; assumption.
Defined.

(** The most confident path has a single pose: nothing is resampled,
    although the other path has six. *)
Lemma resample_highest_confidence_selects_then_drops_short_witness :
  resample_highest_confidence_predicted_paths resample_as_is
    [sideways_path 0.3 6; sideways_path 0.9 1] 0.1 10 1
  = [].
Proof.
  destruct (CrossingProofs.resample_highest_confidence_selects_then_drops_short
              resample_as_is [sideways_path 0.3 6; sideways_path 0.9 1]
              0.1 10 1 sort_by_insertion_rearranges sort_by_insertion_orders)
    as (_ & _ & _ & H).
  apply H; [reflexivity |].
  intros p [<- | [<- | []]] Hmax.
  - specialize (Hmax (sideways_path 0.9 1) (or_intror (or_introl eq_refl))).
    vm_compute in Hmax. contradiction Hmax. reflexivity.
  - simpl. lia.
Defined.

(** The ego at 5 m/s has left the collision point after 9.4 s and the
    obstacle crosses from 10 s on: the margin is 1.4 s. *)
Lemma calc_collision_time_margin_zero_iff_overlap_witness :
  exists margin,
    calc_collision_time_margin (MU := motion_utils) arc_length_along_x
      stop_planning crossing 0%Z 0%Z odometry_at_start crossing_points road 4
    = Some margin
    /\ 0 <= margin
    /\ ~ margin == 0.
Proof.
  assert (Hmin : 0 < min_velocity_to_reach_collision_point crossing)
    by by_evaluation.
  assert (Hdist : 0 <= 4) by by_evaluation.
  destruct (CrossingProofs.calc_collision_time_margin_zero_iff_overlap
              (MU := motion_utils) arc_length_along_x stop_planning crossing
              0%Z 0%Z odometry_at_start crossing_points road 4 Hmin Hdist)
    as [_ H].
  destruct (H _ _ eq_refl) as (margin & Hm & Hpos & Hzero).
  exists margin. split; [exact Hm |]. split; [exact Hpos |].
  intros Hz. apply Hzero in Hz. destruct Hz as [Hz _].
  vm_compute in Hz. apply Hz. reflexivity.
Defined.

(** An object heading across the road whose most confident path leads
    off the road is a crossing obstacle, and is reached later than the
    collision time margin. *)
Lemma is_crossing_transient_obstacle_follows_most_confident_path_witness :
  is_crossing_transient_obstacle (MU := motion_utils) (PO := planner_objects)
    arc_length_along_x heading_across paths_leaving resample_as_is no_interpolated_pose stop_planning crossing
    0%Z odometry_at_start road road (car_ahead 0) 4
    road_polygons (pt 50 0, 46)
  = true
  /\ crossing_obstacle_collision_time_margin crossing
     < calc_time_to_reach_collision_point (MU := motion_utils)
         arc_length_along_x odometry_at_start
         (pt 50 0) road (min_behavior_stop_margin stop_planning + 4)
         (min_velocity_to_reach_collision_point crossing).
Proof.
  assert (Hcrossing :
            is_crossing_transient_obstacle (MU := motion_utils)
              (PO := planner_objects) arc_length_along_x heading_across
              paths_leaving resample_as_is no_interpolated_pose stop_planning
              crossing 0%Z odometry_at_start road road (car_ahead 0) 4
              road_polygons (pt 50 0, 46)
            = true) by reflexivity.
  split; [exact Hcrossing |].
  destruct (CrossingProofs.is_crossing_transient_obstacle_follows_most_confident_path
              (MU := motion_utils) (PO := planner_objects) arc_length_along_x heading_across paths_leaving resample_as_is
              no_interpolated_pose stop_planning crossing 0%Z odometry_at_start
              road road (car_ahead 0) 4
              road_polygons (pt 50 0, 46)
              sort_by_insertion_rearranges sort_by_insertion_orders)
    as [H _].
  exact (proj1 (proj2 (proj2 (H Hcrossing)))).
Defined.

End FurtherScenarioProofs.

(** ** Connecting the path to the goal *)

Module PathGeneratorGoalProofs.
Import Cxx CxxFacts PathGenerator PathGeneratorGoal.

Section GoalConnectionProofs.
Context {L : Lanelet2} {PT : PathTrajectory L}.

Lemma sampled_arc_length_value (k : nat) :
  sampled_arc_length k == inject_Z (Z.of_nat k) * 0.1.
Proof.
  induction k as [| k IH]; [reflexivity |].
  change (sampled_arc_length (S k)) with (sampled_arc_length k + 0.1).
  rewrite IH, Nat2Z.inj_succ, <- Z.add_1_r, inject_Z_plus.
  change (inject_Z 1) with 1. ring.
Qed.

Lemma tried_section_length_value (connection_section_length : Q) (k : nat) :
  tried_section_length connection_section_length k
  == connection_section_length - inject_Z (Z.of_nat k) * 0.1.
Proof.
  induction k as [| k IH].
  - change (tried_section_length connection_section_length 0)
      with connection_section_length.
    change (inject_Z (Z.of_nat 0)) with 0. ring.
  - change (tried_section_length connection_section_length (S k))
      with (tried_section_length connection_section_length k - 0.1).
    rewrite IH, Nat2Z.inj_succ, <- Z.add_1_r, inject_Z_plus.
    change (inject_Z 1) with 1. ring.
Qed.

Lemma inject_Z_of_nat_le (i k : nat) :
  (i <= k)%nat -> inject_Z (Z.of_nat i) <= inject_Z (Z.of_nat k).
Proof. intros H. rewrite <- Zle_Qle. lia. Qed.

Lemma sampled_arc_length_monotone (i k : nat) :
  (i <= k)%nat -> sampled_arc_length i <= sampled_arc_length k.
Proof.
  intros H. rewrite !sampled_arc_length_value.
  pose proof (inject_Z_of_nat_le i k H). lra.
Qed.

Lemma tried_section_length_antitone (connection_section_length : Q) (i k : nat) :
  (i <= k)%nat ->
  tried_section_length connection_section_length k
  <= tried_section_length connection_section_length i.
Proof.
  intros H. rewrite !tried_section_length_value.
  pose proof (inject_Z_of_nat_le i k H). lra.
Qed.

(** What the loop of [is_path_inside_lanelets] has found when it ends,
    started in round [j]: the round [last] in which it ended, before
    which every sampled pose was inside. *)
Lemma is_path_inside_lanelets_from_ends
    (path : Path) (lanelets : list ConstLanelet) (fuel : nat) :
  forall j r,
    is_path_inside_lanelets_from fuel path lanelets (sampled_arc_length j)
    = Some r ->
    exists last,
      (j <= last)%nat
      /\ (forall i, (j <= i < last)%nat ->
            sampled_arc_length i < length path
            /\ is_pose_inside_lanelets
                 (compute_pose path (sampled_arc_length i)) lanelets = true)
      /\ (if r
          then length path <= sampled_arc_length last
          else sampled_arc_length last < length path
               /\ is_pose_inside_lanelets
                    (compute_pose path (sampled_arc_length last)) lanelets
                  = false).
Proof.
  induction fuel as [| fuel IH]; intros j r; simpl; [discriminate |].
  destruct (ltb_spec (sampled_arc_length j) (length path)) as [Hlt | Hge].
  - destruct (is_pose_inside_lanelets _ lanelets) eqn:Ein; simpl.
    + intros H.
      change (sampled_arc_length j + 0.1) with (sampled_arc_length (S j)) in H.
      apply IH in H as (last & Hle & Hbefore & Hlast).
      exists last. split; [lia |]. split; [| exact Hlast].
      intros i Hi. destruct (Nat.eq_dec i j) as [-> | Hne];
        [now split | apply Hbefore; lia].
    + intros [= <-]. exists j. split; [lia |].
      split; [intros; lia | now split].
  - intros [= <-]. exists j. split; [lia |].
    split; [intros; lia | lra].
Qed.

Lemma is_path_inside_lanelets_from_returns
    (path : Path) (lanelets : list ConstLanelet) :
  forall d fuel j,
    length path <= sampled_arc_length (j + d) ->
    (d < fuel)%nat ->
    is_path_inside_lanelets_from fuel path lanelets (sampled_arc_length j)
    <> None.
Proof.
  induction d as [| d IH]; intros fuel j Hlen Hfuel;
    (destruct fuel as [| fuel]; [lia |]); simpl.
  - rewrite Nat.add_0_r in Hlen.
    destruct (ltb_spec (sampled_arc_length j) (length path));
      [lra | discriminate].
  - destruct (ltb_spec (sampled_arc_length j) (length path));
      [| discriminate].
    destruct (is_pose_inside_lanelets _ lanelets); simpl; [| discriminate].
    change (sampled_arc_length j + 0.1) with (sampled_arc_length (S j)).
    apply IH; [| lia].
    now replace (S j + d)%nat with (j + S d)%nat by lia.
Qed.


(** What the loop of [connect_path_to_goal_inside_lanelets] has found
    when it ends, started in round [j]. *)
Lemma connect_path_to_goal_inside_lanelets_from_ends
    (inner_fuel : nat) (path : Path) (lanelets : list ConstLanelet)
    (goal_pose : Pose) (goal_lane_id : Z)
    (connection_section_length pre_goal_offset : Q) (fuel : nat) :
  let candidate k :=
    connect_path_to_goal path goal_pose goal_lane_id
      (tried_section_length connection_section_length k) pre_goal_offset in
  forall j r,
    connect_path_to_goal_inside_lanelets_from fuel inner_fuel path lanelets
      goal_pose goal_lane_id pre_goal_offset
      (tried_section_length connection_section_length j) = Some r ->
    exists last,
      (j <= last)%nat
      /\ (forall i, (j <= i < last)%nat ->
            0 < tried_section_length connection_section_length i
            /\ is_path_inside_lanelets inner_fuel (candidate i) lanelets
               = Some false)
      /\ match r with
         | None => tried_section_length connection_section_length last <= 0
         | Some path_to_goal =>
             0 < tried_section_length connection_section_length last
             /\ is_path_inside_lanelets inner_fuel (candidate last) lanelets
                = Some true
             /\ path_to_goal
                = align_orientation_with_trajectory_direction (candidate last)
         end.
Proof.
  intros candidate.
  induction fuel as [| fuel IH]; intros j r; simpl; [discriminate |].
  destruct (gtb_spec (tried_section_length connection_section_length j) 0)
    as [Hpos | Hneg].
  - fold (candidate j).
    destruct (is_path_inside_lanelets inner_fuel (candidate j) lanelets)
      as [[|] |] eqn:Ein; [| | discriminate].
    + intros [= <-]. exists j. split; [lia |].
      split; [intros; lia | now repeat split].
    + intros H.
      change (tried_section_length connection_section_length j - 0.1)
        with (tried_section_length connection_section_length (S j)) in H.
      apply IH in H as (last & Hle & Hbefore & Hlast).
      exists last. split; [lia |]. split; [| exact Hlast].
      intros i Hi. destruct (Nat.eq_dec i j) as [-> | Hne];
        [now split | apply Hbefore; lia].
  - intros [= <-]. exists j. split; [lia |].
    split; [intros; lia | lra].
Qed.

Lemma connect_path_to_goal_inside_lanelets_from_returns
    (inner_fuel : nat) (path : Path) (lanelets : list ConstLanelet)
    (goal_pose : Pose) (goal_lane_id : Z)
    (connection_section_length pre_goal_offset : Q) :
  (forall k,
      is_path_inside_lanelets inner_fuel
        (connect_path_to_goal path goal_pose goal_lane_id
           (tried_section_length connection_section_length k) pre_goal_offset)
        lanelets <> None) ->
  forall d fuel j,
    tried_section_length connection_section_length (j + d) <= 0 ->
    (d < fuel)%nat ->
    connect_path_to_goal_inside_lanelets_from fuel inner_fuel path lanelets
      goal_pose goal_lane_id pre_goal_offset
      (tried_section_length connection_section_length j) <> None.
Proof.
  intros Hinner.
  induction d as [| d IH]; intros fuel j Hlen Hfuel;
    (destruct fuel as [| fuel]; [lia |]); simpl.
  - rewrite Nat.add_0_r in Hlen.
    destruct (gtb_spec (tried_section_length connection_section_length j) 0);
      [lra | discriminate].
  - destruct (gtb_spec (tried_section_length connection_section_length j) 0);
      [| discriminate].
    specialize (Hinner j) as Hj.
    destruct (is_path_inside_lanelets inner_fuel _ lanelets) as [[|] |];
      [discriminate | | contradiction].
    change (tried_section_length connection_section_length j - 0.1)
      with (tried_section_length connection_section_length (S j)).
    apply IH; [| lia].
    now replace (S j + d)%nat with (j + S d)%nat by lia.
Qed.


End GoalConnectionProofs.

End PathGeneratorGoalProofs.

(** ** Arc length on the path *)

Module PathGeneratorPathProofs.
Import Cxx CxxFacts PathGenerator PathGeneratorInvariants PathGeneratorPath.

Section ArcLengthOnPathProofs.
Context {L : Lanelet2} {PG : PathGeometry L}.

Local Abbreviation points_of run :=
  (map (fun it : PathPointWithLaneId => basicPoint2d (position it)) run).

Lemma find_target_lanelet_beyond (lanelet_sequence : LaneletSequence) :
  forall s s_centerline,
    (forall l, In l lanelet_sequence ->
               0 <= geometry_length (centerline2d l)) ->
    s + total_length centerline2d lanelet_sequence < s_centerline ->
    find_target_lanelet lanelet_sequence s s_centerline = None.
Proof.
  induction lanelet_sequence as [| it rest IH]; intros s s_centerline Hpos Hlt;
    [reflexivity |].
  simpl in *.
  assert (0 <= total_length centerline2d rest).
  { apply ArcLengthSidesProofs.total_length_nonneg.
    intros l Hl. apply Hpos. now right. }
  destruct (ltb_spec (s + geometry_length (centerline2d it)) s_centerline);
    [| lra].
  apply IH; [intros l Hl; apply Hpos; now right | lra].
Qed.

Lemma find_target_lanelet_some (lanelet_sequence : LaneletSequence) :
  forall s s_centerline target_lanelet_id point_on_centerline,
    find_target_lanelet lanelet_sequence s s_centerline
    = Some (target_lanelet_id, point_on_centerline) ->
    exists before it after s_before,
      lanelet_sequence = before ++ it :: after
      /\ target_lanelet_id = id it
      /\ s_before == s + total_length centerline2d before
      /\ point_on_centerline
         = interpolatedPointAtDistance (centerline2d it)
             (s_centerline - s_before)
      /\ s_centerline <= s_before + geometry_length (centerline2d it)
      /\ (forall earlier x later,
            before = earlier ++ x :: later ->
            s + total_length centerline2d (earlier ++ [x]) < s_centerline).
Proof.
  induction lanelet_sequence as [| it rest IH];
    intros s s_centerline target point; simpl; [discriminate |].
  destruct (ltb_spec (s + geometry_length (centerline2d it)) s_centerline)
    as [Hlt | Hge].
  - intros H. apply IH in H
      as (before & it' & after & s_before & -> & Hid & Hs & Hp & Hle & Hall).
    exists (it :: before), it', after, s_before.
    split; [reflexivity |]. split; [exact Hid |].
    split; [simpl; rewrite Hs; ring |]. split; [exact Hp |].
    split; [exact Hle |].
    intros earlier x later Heq.
    destruct earlier as [| e earlier]; simpl in Heq; injection Heq as <- Heq.
    + simpl. lra.
    + specialize (Hall _ _ _ Heq). simpl. lra.
  - intros [= <- <-].
    exists [], it, rest, s.
    split; [reflexivity |]. split; [reflexivity |].
    split; [simpl; ring |]. split; [reflexivity |]. split; [lra |].
    intros [| ? ?] ? ? [=].
Qed.

Lemma collect_target_path_segment_run
    (target_lanelet_id : Z) (run after : list PathPointWithLaneId) :
  (forall it, In it run -> has_lane_id target_lanelet_id it = true) ->
  match after with
  | [] => True
  | it :: _ => has_lane_id target_lanelet_id it = false
  end ->
  forall s_path target_path_segment,
    run <> [] \/ target_path_segment <> [] \/ after = [] ->
    collect_target_path_segment target_lanelet_id (run ++ after) s_path
      target_path_segment
    = (s_path, target_path_segment ++ points_of run).
Proof.
  intros Hrun Hafter.
  induction run as [| it run IH]; intros s_path segment Hne; simpl.
  - rewrite app_nil_r.
    destruct after as [| next after]; [reflexivity |].
    simpl. rewrite Hafter. simpl.
    destruct segment; [| reflexivity].
    destruct Hne as [Hne | [Hne | Hne]];
      [now contradiction Hne | now contradiction Hne | discriminate].
  - rewrite (Hrun it (or_introl eq_refl)). simpl.
    rewrite IH.
    + rewrite <- app_assoc. reflexivity.
    + intros it' Hin. apply Hrun. now right.
    + right. left. now destruct segment.
Qed.

Lemma collect_target_path_segment_before
    (target_lanelet_id : Z) (run after : list PathPointWithLaneId) :
  (forall it, In it run -> has_lane_id target_lanelet_id it = true) ->
  match after with
  | [] => True
  | it :: _ => has_lane_id target_lanelet_id it = false
  end ->
  (run = [] -> after = []) ->
  forall before s_path,
    (forall it, In it before -> has_lane_id target_lanelet_id it = false) ->
    exists s_path',
      collect_target_path_segment target_lanelet_id (before ++ run ++ after)
        s_path []
      = (s_path', points_of run)
      /\ s_path' == s_path + chain_length (before ++ firstn 1 run).
Proof.
  intros Hrun Hafter Hend.
  induction before as [| it before IH]; intros s_path Hbefore.
  - exists s_path. split.
    + simpl. rewrite collect_target_path_segment_run; auto.
      destruct run; [right; right; now apply Hend | left; discriminate].
    + destruct run as [| ? [| ? ?]]; simpl; ring.
  - change ((it :: before) ++ run ++ after)
      with (it :: (before ++ run ++ after)).
    cbn [collect_target_path_segment].
    rewrite (Hbefore it (or_introl eq_refl)). cbn [negb].
    destruct (before ++ run ++ after) as [| next rest] eqn:Erest.
    + apply app_eq_nil in Erest as [-> Erest].
      apply app_eq_nil in Erest as [-> ->].
      exists s_path. split; [reflexivity | simpl; ring].
    + destruct (IH (s_path + calc_distance2d it next)) as (s' & Hs' & Hval);
        [intros it' Hin; apply Hbefore; now right |].
      exists s'. split; [exact Hs' |].
      rewrite Hval.
      assert (Hhead : exists rest', before ++ firstn 1 run = next :: rest').
      { destruct before as [| b before]; simpl in Erest |- *.
        - destruct run as [| r run]; simpl in Erest |- *.
          + rewrite (Hend eq_refl) in Erest. discriminate.
          + injection Erest as -> _. now exists [].
        - injection Erest as -> _. now eexists. }
      destruct Hhead as (rest' & Hhead).
      change ((it :: before) ++ firstn 1 run)
        with (it :: (before ++ firstn 1 run)).
      rewrite Hhead.
      change (chain_length (it :: next :: rest'))
        with (calc_distance2d it next + chain_length (next :: rest')).
      ring.
Qed.

(** X28.  [get_arc_length_on_path] answers 0 for an empty lanelet
    sequence, an empty path or a negative arc length, and hands back an
    arc length beyond the end of the centerlines as it is.  Otherwise it
    finds the lanelet the arc length falls into and the point at the
    remaining distance on that lanelet's centerline, and measures the
    path up to that point: the distances between the path points before
    the first one of that lanelet, plus the arc length of the point
    along the first run of path points of that lanelet.  What follows
    that run does not count, even if the path meets the lanelet again. *)
Theorem get_arc_length_on_path_measures_up_to_the_target_lanelet
    (lanelet_sequence : LaneletSequence) (path : list PathPointWithLaneId)
    (s_centerline : Q) :
  (lanelet_sequence = [] \/ path = [] \/ s_centerline < 0 ->
   get_arc_length_on_path lanelet_sequence path s_centerline = 0)
  /\ (lanelet_sequence <> [] -> path <> [] -> 0 <= s_centerline ->
      (forall l, In l lanelet_sequence ->
                 0 <= geometry_length (centerline2d l)) ->
      total_length centerline2d lanelet_sequence < s_centerline ->
      get_arc_length_on_path lanelet_sequence path s_centerline = s_centerline)
  /\ (forall target_lanelet_id point_on_centerline,
        find_target_lanelet lanelet_sequence 0 s_centerline
        = Some (target_lanelet_id, point_on_centerline) ->
        (exists before it after s_before,
            lanelet_sequence = before ++ it :: after
            /\ target_lanelet_id = id it
            /\ s_before == total_length centerline2d before
            /\ point_on_centerline
               = interpolatedPointAtDistance (centerline2d it)
                   (s_centerline - s_before)
            /\ s_centerline <= s_before + geometry_length (centerline2d it)
            /\ (forall earlier x later,
                  before = earlier ++ x :: later ->
                  total_length centerline2d (earlier ++ [x]) < s_centerline))
        /\ forall before run after,
             path = before ++ run ++ after ->
             path <> [] ->
             0 <= s_centerline ->
             (forall it, In it before ->
                         has_lane_id target_lanelet_id it = false) ->
             (forall it, In it run ->
                         has_lane_id target_lanelet_id it = true) ->
             match after with
             | [] => True
             | it :: _ => has_lane_id target_lanelet_id it = false
             end ->
             (run = [] -> after = []) ->
             get_arc_length_on_path lanelet_sequence path s_centerline
             == chain_length (before ++ firstn 1 run)
                + toArcCoordinates_length_on_points (points_of run)
                    point_on_centerline).
Proof.
  split; [| split].
  - unfold get_arc_length_on_path.
    intros [-> | [-> | Hneg]]; [reflexivity | now destruct lanelet_sequence |].
    destruct lanelet_sequence; [reflexivity |].
    destruct path; [reflexivity |].
    destruct (ltb_spec s_centerline 0); [reflexivity | lra].
  - intros Hseq Hpath Hs Hpos Hlong. unfold get_arc_length_on_path.
    destruct lanelet_sequence as [| l0 rest] eqn:Eseq; [now contradiction Hseq |].
    destruct path as [| p0 path']; [now contradiction Hpath |].
    destruct (ltb_spec s_centerline 0); [lra |].
    rewrite find_target_lanelet_beyond; [reflexivity | exact Hpos | lra].
  - intros target point Hfind. split.
    + apply find_target_lanelet_some in Hfind
        as (before & it & after & s_before & H1 & H2 & H3 & H4 & H5 & H6).
      exists before, it, after, s_before.
      split; [exact H1 |]. split; [exact H2 |].
      split; [rewrite H3; ring |]. split; [exact H4 |]. split; [exact H5 |].
      intros earlier x later Heq. specialize (H6 _ _ _ Heq). lra.
    + intros before run after Hpath Hne Hs Hbefore Hrun Hafter Hend.
      unfold get_arc_length_on_path.
      destruct lanelet_sequence as [| l0 rest] eqn:Eseq; [discriminate |].
      destruct path as [| p0 path'] eqn:Epath; [now contradiction Hne |].
      destruct (ltb_spec s_centerline 0); [lra |].
      rewrite Hfind. rewrite Hpath.
      destruct (collect_target_path_segment_before target run after
                  Hrun Hafter Hend before 0 Hbefore) as (s' & -> & Hval).
      rewrite Hval. ring.
Qed.

End ArcLengthOnPathProofs.

End PathGeneratorPathProofs.

Module FurtherLaneScenarioProofs.
Import Cxx CxxFacts PathGenerator PathGeneratorInvariants.
Import StraightLane LaneScenario FurtherScenarioProofs.

(** Two straight lanelets of 10 m: an arc length of 25 m is past their
    end and comes back as it is. *)
Lemma arc_length_beyond_the_sequence_is_unchanged_witness :
  get_arc_length_on_bounds [rectangular 0 10; rectangular 10 20] 25
  = {| left := 25; right := 25 |}.
Proof.
  assert (Hlengths :
            forall l, In l [rectangular 0 10; rectangular 10 20] ->
              0 <= geometry_length (centerline2d l)
              /\ 0 <= geometry_length (leftBound2d l)
              /\ 0 <= geometry_length (rightBound2d l)).
  { intros l [<- | [<- | []]]; repeat split; by_evaluation. }
  destruct (ArcLengthSidesProofs.arc_length_beyond_the_sequence_is_unchanged
              (L := lanelet2) [rectangular 0 10; rectangular 10 20] Hlengths)
    as [H _].
  apply H. by_evaluation.
Defined.

End FurtherLaneScenarioProofs.

Module CommonUtilsScenarioProofs.
Import Cxx CxxFacts PlannerCommonUtils CommonUtilsScenario.


(** The corner at (3, 4) is 5 m from the center of the triangle. *)
Lemma calc_object_possible_max_dist_bounds_the_footprint_witness :
  exists r,
    calc_object_possible_max_dist_from_center (CM := StraightRoad.cmath)
      triangle = Returned r
    /\ ObstacleStop.hypot (Cmath := StraightRoad.cmath) 3 4 <= r.
Proof.
  destruct (PlannerCommonUtilsProofs.calc_object_possible_max_dist_bounds_the_footprint
              (CM := StraightRoad.cmath) triangle 0 Scenario.vehicle)
    as (H & _).
  destruct (H eq_refl) as (r & Hr & _ & Hall & _).
  exists r. split; [exact Hr |].
  apply (Hall (StraightRoad.pt 3 4)). now left.
Defined.

End CommonUtilsScenarioProofs.

Module RouteScenarioProofs.
Import Cxx CxxFacts PathGenerator PathGeneratorRoute.
Import StraightLane LaneScenario RouteScenario.

(** From the first lanelet 15 m of route are asked for: the second and
    the third lanelet are returned. *)
Lemma get_lanelets_within_route_after_walks_the_route_witness :
  get_lanelets_within_route_after 5 running (rectangular 0 10) route 15
  = Some (Some [rectangular 10 20; rectangular 20 30])
  /\ is_walk (fun current => get_next_lanelet_within_route current route)
       (rectangular 0 10) [rectangular 10 20; rectangular 20 30]
  /\ 15 <= route_length [rectangular 10 20; rectangular 20 30].
Proof.
  assert (E : get_lanelets_within_route_after 5 running (rectangular 0 10)
                route 15
              = Some (Some [rectangular 10 20; rectangular 20 30]))
    by reflexivity.
  destruct (PathGeneratorRouteProofs.get_lanelets_within_route_after_walks_the_route
              (L := lanelet2) (RG := chain_of_lanelets) 5 running (rectangular 0 10) route 15) as (_ & H & _).
  destruct (H _ E) as (Hwalk & _ & _ & Hend).
  split; [exact E |]. split; [exact Hwalk |].
  destruct Hend as [Hend | [Hend | Hend]];
    [discriminate | exact Hend | vm_compute in Hend; discriminate].
Defined.

(** From the last lanelet 15 m of route are asked for backwards: the
    second and the third lanelet are returned, in driving order. *)
Lemma get_lanelets_within_route_up_to_walks_back_witness :
  get_lanelets_within_route_up_to 5 running (rectangular 30 40) route 15
  = Some (Some [rectangular 10 20; rectangular 20 30])
  /\ is_walk (fun current => get_previous_lanelet_within_route current route)
       (rectangular 30 40) [rectangular 20 30; rectangular 10 20].
Proof.
  assert (E : get_lanelets_within_route_up_to 5 running (rectangular 30 40)
                route 15
              = Some (Some [rectangular 10 20; rectangular 20 30]))
    by reflexivity.
  destruct (PathGeneratorRouteProofs.get_lanelets_within_route_up_to_walks_back
              (L := lanelet2) (RG := chain_of_lanelets) 5 running (rectangular 30 40) route 15) as (_ & H & _).
  destruct (H _ E) as (Hwalk & _).
  split; [exact E | exact Hwalk].
Defined.

End RouteScenarioProofs.

Module GoalScenarioProofs.
Import Cxx CxxFacts PathGenerator PathGeneratorGoal PathGeneratorPath.
Import StraightLane LaneScenario GoalScenario.



(** The arc length 12 m falls into the second lanelet, 2 m from its
    start; on the path that is 10 m up to the first point of that
    lanelet and 2 m along its points. *)
Lemma get_arc_length_on_path_measures_up_to_the_target_lanelet_witness :
  get_arc_length_on_path [rectangular 0 10; rectangular 10 20]
    path_along_two_lanelets 12
  == 12.
Proof.
  destruct (PathGeneratorPathProofs.get_arc_length_on_path_measures_up_to_the_target_lanelet
              (L := lanelet2) (PG := points_along_x)
              [rectangular 0 10; rectangular 10 20] path_along_two_lanelets 12)
    as (_ & _ & H).
  destruct (H _ _ eq_refl) as [_ Hpath].
  rewrite (Hpath [path_point 0 0; path_point 0 5]
             [path_point 10 10; path_point 10 15] []).
  - reflexivity.
  - reflexivity.
  - discriminate.
  - discriminate.
  - intros it [<- | [<- | []]]; reflexivity.
  - intros it [<- | [<- | []]]; reflexivity.
  - exact I.
  - discriminate.
Defined.

End GoalScenarioProofs.

Module CacheScenarioProofs.
Import Cxx CxxFacts ObstacleStop TrajectoryPolygonCache.
Import StraightRoad Scenario CacheScenario.

(** After a call for the margin 0.3 on the road, a call for the same
    margin on a shorter road gets the polygons of the first call. *)
Lemma get_trajectory_polygon_is_keyed_by_margin_alone_witness :
  exists traj_polys map_,
    get_trajectory_polygon polygons_of [] road vehicle (pt 0 0) 0.3 true 0 1
    = (Ok traj_polys, map_)
    /\ traj_polys = polygons_of road vehicle (pt 0 0) 0.3 true 0 1
    /\ get_trajectory_polygon polygons_of map_ short_road vehicle (pt 0 0)
         0.3 false 0 1
       = (Ok traj_polys, map_).
Proof.
  destruct (TrajectoryPolygonCacheProofs.get_trajectory_polygon_is_keyed_by_margin_alone
              (MU := motion_utils) polygons_of [] road vehicle (pt 0 0) 0.3
              true 0 1) as (traj_polys & map_ & H1 & H2 & _ & H3 & _).
  exists traj_polys, map_. split; [exact H1 |].
  split; [apply H2; reflexivity |].
  apply H3. reflexivity.
Defined.

End CacheScenarioProofs.
